(** * SpeechPal: session store, conversation service and real-time relay

    A shallow embedding of the server side of SpeechPal:
    - [MemStorage]        (server/storage.ts),
    - [OpenAIService]     (server/services/openai.ts),
    - [WebSocketService]  (server/services/websocket.ts),
    - the one-shot route  POST /api/conversation/message (server/routes.ts),
    followed by the properties of these components.

    Conventions.  A JavaScript [undefined] or [null] is [None]; the two are
    never told apart by the code modelled here.  Every source of
    non-determinism ([randomUUID], [new Date()], [Math.random()], the
    answers of the model provider) is an explicit argument.  Integer-valued
    counters live in [Z]; the one quantity the code computes with a
    division, the accuracy score, is an IEEE-754 binary64 value. *)

From Stdlib Require Import ZArith QArith Qround Ascii String Sorted Permutation.
From Stdlib Require Import Floats.SpecFloat.
From stdpp Require Import base option list strings gmap.

Local Open Scope string_scope.
Local Open Scope Z_scope.

(* ===================================================================== *)
(** ** JavaScript values: truthiness and the [||] default                 *)
(* ===================================================================== *)

Module Js.

(** Truth value of a string: only the empty string is falsy. *)
Definition truthy_string (s : string) : bool :=
  match s with
  | EmptyString => false
  | String _ _ => true
  end.

(** Truth value of an integer-valued number: only zero is falsy. *)
Definition truthy_int (z : Z) : bool := negb (z =? 0).

(** [x || null] for an optional value whose present values have the truth
    value [t]: a falsy present value is turned into [null] as well. *)
Definition or_null {A} (t : A -> bool) (x : option A) : option A :=
  match x with
  | Some a => if t a then Some a else None
  | None => None
  end.

(** [x || d]. *)
Definition or_default {A} (t : A -> bool) (x : option A) (d : A) : A :=
  match x with
  | Some a => if t a then a else d
  | None => d
  end.

(** [!x] for an optional string (the guard of handlers and routes). *)
Definition falsy (x : option string) : bool :=
  match x with
  | Some s => negb (truthy_string s)
  | None => true
  end.

(** [s.split(' ').length]: one piece more than there are spaces. *)
Fixpoint split_space_length (s : string) : Z :=
  match s with
  | EmptyString => 1
  | String c r =>
      if Ascii.eqb c " "%char then 1 + split_space_length r
      else split_space_length r
  end.

(** [xs.slice(-n)]: the last [n] elements. *)
Definition slice_last {A} (n : nat) (xs : list A) : list A :=
  drop (length xs - n)%nat xs.

End Js.

(* ===================================================================== *)
(** ** JavaScript numbers: IEEE-754 binary64                              *)
(* ===================================================================== *)

Module Number.

Definition prec : Z := 53.
Definition emax : Z := 1024.

(** A JavaScript number. *)
Definition number : Type := spec_float.

(** The number denoted by an integer literal or an array length. *)
Definition of_Z (z : Z) : number := binary_normalize prec emax z 0 false.

Definition add (x y : number) : number := SFadd prec emax x y.
Definition div (x y : number) : number := SFdiv prec emax x y.
Definition sub (x y : number) : number := SFsub prec emax x y.
Definition mul (x y : number) : number := SFmul prec emax x y.

(** [x === y] on numbers: NaN equals nothing, the two zeros are equal. *)
Definition strict_eq (x y : number) : bool := SFeqb x y.

(** The same number, bit for bit (the two zeros differ). *)
Definition same (x y : number) : bool :=
  match x, y with
  | S754_zero a, S754_zero b => Bool.eqb a b
  | S754_infinity a, S754_infinity b => Bool.eqb a b
  | S754_nan, S754_nan => true
  | S754_finite s m e, S754_finite s' m' e' =>
      Bool.eqb s s' && Pos.eqb m m' && Z.eqb e e'
  | _, _ => false
  end.

(** Truth value of a number: the zeros and NaN are falsy. *)
Definition truthy (x : number) : bool :=
  match x with
  | S754_zero _ | S754_nan => false
  | _ => true
  end.

(** The integer a number denotes, when it denotes one. *)
Definition to_Z (x : number) : option Z :=
  match x with
  | S754_zero _ => Some 0
  | S754_finite s m e =>
      let sm := if s then Z.neg m else Z.pos m in
      if 0 <=? e then Some (sm * 2 ^ e)
      else if sm mod 2 ^ (- e) =? 0 then Some (sm / 2 ^ (- e))
      else None
  | _ => None
  end.

(** [Math.round]: the integer nearest to [x], ties towards +infinity;
    infinities, NaN and zeros are returned unchanged and a result of zero
    keeps the sign of [x].  The value of a finite number is
    [(-1)^s * m * 2^e], so the rounding is computed exactly in [Z]. *)
Definition Math_round (x : number) : number :=
  match x with
  | S754_finite s m e =>
      let sm := if s then Z.neg m else Z.pos m in
      let n :=
        if 0 <=? e then sm * 2 ^ e
        else (2 * sm + 2 ^ (- e)) / 2 ^ (1 - e) in
      binary_normalize prec emax n 0 s
  | _ => x
  end.

(** [Math.min] of two numbers: NaN if either is NaN, and -0 below +0. *)
Definition Math_min (x y : number) : number :=
  match SFcompare x y with
  | None => S754_nan
  | Some Lt => x
  | Some Gt => y
  | Some Eq =>
      match x with
      | S754_zero true => x
      | _ => y
      end
  end.

(** [Math.max] of two numbers: NaN if either is NaN, and +0 above -0. *)
Definition Math_max (x y : number) : number :=
  match SFcompare x y with
  | None => S754_nan
  | Some Gt => x
  | Some Lt => y
  | Some Eq =>
      match x with
      | S754_zero false => x
      | _ => y
      end
  end.

End Number.

(* ===================================================================== *)
(** ** The accuracy score (WebSocketService.calculateAccuracy)            *)
(* ===================================================================== *)

Module Accuracy.
Import Number.

(** [calculateAccuracy(corrections, wordCount)], on JavaScript numbers. *)
Definition calculateAccuracy (corrections wordCount : number) : number :=
  if strict_eq wordCount (of_Z 0) then of_Z 100
  else
    let errorRate := div corrections wordCount in
    Math_max (of_Z 0)
      (Math_min (of_Z 100)
         (Math_round (mul (sub (of_Z 1) errorRate) (of_Z 100)))).

(** The formula of the specification, in exact rational arithmetic:
    [clamp(round(100 * (1 - C / W)), 0, 100)] for [W > 0], and 100 for
    [W = 0].  [round] takes a tie to the next integer up, which is what
    [Math.round] documents. *)
Definition round_half_up (q : Q) : Z := Qfloor (q + (1 # 2))%Q.

Definition clamp (lo hi x : Z) : Z := Z.max lo (Z.min hi x).

Definition accuracy_formula (C W : Z) : Z :=
  if W =? 0 then 100
  else clamp 0 100
         (round_half_up (100 * (1 - inject_Z C / inject_Z W))%Q).

(** The code agrees with the formula at [(C, W)]. *)
Definition agrees (C W : Z) : bool :=
  match to_Z (calculateAccuracy (of_Z C) (of_Z W)) with
  | Some a => a =? accuracy_formula C W
  | None => false
  end.

(** The code agrees with the formula on all these word and correction
    counts. *)
Definition agree_on (words corrections : list nat) : bool :=
  forallb (fun W => forallb (fun C => agrees (Z.of_nat C) (Z.of_nat W))
                      corrections) words.

End Accuracy.

(* ===================================================================== *)
(** ** Shared data (shared/schema.ts, services/openai.ts)                 *)
(* ===================================================================== *)

Inductive CorrectionType := grammar | pronunciation | vocabulary | fluency.

(** [GrammarCorrection] of services/openai.ts. *)
Record GrammarCorrection := {
  original : string;
  corrected : string;
  explanation : string;
  ctype : CorrectionType
}.

Inductive MessageType := user | bot | correction.

(** The [metadata] object the relay attaches to a message. *)
Record Metadata := {
  md_topicId : option string;
  md_encouragement : option string;
  md_nextPrompt : option string
}.

(** [Session], the select type of the [sessions] table.  The two counters
    are JavaScript numbers, which is what the relay adds to. *)
Module Session.
Record t := {
  id : string;
  userId : option string;
  startTime : option Z;
  endTime : option Z;
  durationMinutes : option Z;
  messagesCount : option Number.number;
  correctionsCount : option Number.number;
  accuracyScore : option Number.number;
  topicId : option string;
  isActive : option bool
}.
End Session.

(** [InsertSession]: every column but [id] and [startTime], all optional. *)
Module InsertSession.
Record t := {
  userId : option string;
  endTime : option Z;
  durationMinutes : option Z;
  messagesCount : option Number.number;
  correctionsCount : option Number.number;
  accuracyScore : option Number.number;
  topicId : option string;
  isActive : option bool
}.
End InsertSession.

(** [Partial<Session>]: for each field, [None] when the key is absent and
    [Some v] when it is present with value [v]. *)
Module SessionPatch.
Record t := {
  id : option string;
  userId : option (option string);
  startTime : option (option Z);
  endTime : option (option Z);
  durationMinutes : option (option Z);
  messagesCount : option (option Number.number);
  correctionsCount : option (option Number.number);
  accuracyScore : option (option Number.number);
  topicId : option (option string);
  isActive : option (option bool)
}.

Definition empty : t :=
  {| id := None; userId := None; startTime := None; endTime := None;
     durationMinutes := None; messagesCount := None;
     correctionsCount := None; accuracyScore := None; topicId := None;
     isActive := None |}.
End SessionPatch.

(** [Message], the select type of the [messages] table.  Timestamps are
    milliseconds since the epoch, what [getTime()] returns.  [content] is
    optional because the relay stores whatever [payload.text] was. *)
Module Message.
Record t := {
  id : string;
  sessionId : string;
  type : MessageType;
  content : option string;
  timestamp : Z;
  audioUrl : option string;
  corrections : option (list GrammarCorrection);
  metadata : option Metadata
}.
End Message.

(** [InsertMessage]: a message without [id] and [timestamp]. *)
Module InsertMessage.
Record t := {
  sessionId : string;
  type : MessageType;
  content : option string;
  audioUrl : option string;
  corrections : option (list GrammarCorrection);
  metadata : option Metadata
}.
End InsertMessage.

(* ===================================================================== *)
(** ** JavaScript [Map] and [Array.prototype.sort]                        *)
(* ===================================================================== *)

Module JsMap.
Section Map.
Context {V : Type}.

(** A [Map] with string keys, in insertion order. *)
Definition t : Type := list (string * V).

Fixpoint get (k : string) (m : t) : option V :=
  match m with
  | [] => None
  | (k', v) :: r => if String.eqb k k' then Some v else get k r
  end.

(** [m.set(k, v)]: a known key keeps its place, a new one goes last. *)
Fixpoint set (k : string) (v : V) (m : t) : t :=
  match m with
  | [] => [(k, v)]
  | (k', v') :: r =>
      if String.eqb k k' then (k, v) :: r else (k', v') :: set k v r
  end.

(** [Array.from(m.values())]. *)
Definition values (m : t) : list V := map snd m.
End Map.
Arguments t : clear implicits.
End JsMap.

Module JsArray.
Section Sort.
Context {A : Type} (compareFn : A -> A -> Z).

(** Put [x] in front of the first element it does not compare above. *)
Fixpoint insert (x : A) (l : list A) : list A :=
  match l with
  | [] => [x]
  | y :: r => if compareFn x y <=? 0 then x :: l else y :: insert x r
  end.

(** [l.sort(compareFn)]: the stable sort that ECMAScript prescribes,
    as an insertion sort from the right end. *)
Definition sort (l : list A) : list A := foldr insert [] l.
End Sort.

Section Keys.
Context {A : Type} (key : A -> Z).

(** The comparator [(a, b) => key(a) - key(b)]. *)
Definition compareKeys (a b : A) : Z := key a - key b.

(** [a] may stand before [b] in ascending order of [key]. *)
Definition ascending (a b : A) : Prop := key a <= key b.
End Keys.
End JsArray.

(* ===================================================================== *)
(** ** The session store (server/storage.ts, class MemStorage)            *)
(* ===================================================================== *)

Module MemStorage.

(** The two maps of the store that sessions and messages live in. *)
Record t := {
  sessions : gmap string Session.t;
  messages : JsMap.t Message.t
}.

(** [new MemStorage()], as far as sessions and messages go. *)
Definition empty : t := {| sessions := ∅; messages := [] |}.

(** [createSession(insertSession)]; [id] is what [randomUUID()] returned
    and [now] is the clock. *)
Definition createSession (id : string) (now : Z)
    (insertSession : InsertSession.t) (st : t) : t * Session.t :=
  let session :=
    {| Session.id := id;
       Session.userId :=
         Js.or_null Js.truthy_string (InsertSession.userId insertSession);
       Session.startTime := Some now;
       Session.endTime :=
         Js.or_null (fun _ => true) (InsertSession.endTime insertSession);
       Session.durationMinutes :=
         Js.or_null Js.truthy_int
           (InsertSession.durationMinutes insertSession);
       Session.messagesCount :=
         Js.or_null Number.truthy
           (InsertSession.messagesCount insertSession);
       Session.correctionsCount :=
         Js.or_null Number.truthy
           (InsertSession.correctionsCount insertSession);
       Session.accuracyScore :=
         Js.or_null Number.truthy
           (InsertSession.accuracyScore insertSession);
       Session.topicId :=
         Js.or_null Js.truthy_string (InsertSession.topicId insertSession);
       Session.isActive :=
         Some (default true (InsertSession.isActive insertSession)) |} in
  ({| sessions := <[id := session]> (sessions st);
      messages := messages st |},
   session).

(** [getSession(id)]. *)
Definition getSession (id : string) (st : t) : option Session.t :=
  sessions st !! id.

(** [{ ...session, ...updates }]. *)
Definition merge (session : Session.t) (updates : SessionPatch.t)
    : Session.t :=
  {| Session.id :=
       default (Session.id session) (SessionPatch.id updates);
     Session.userId :=
       default (Session.userId session) (SessionPatch.userId updates);
     Session.startTime :=
       default (Session.startTime session)
         (SessionPatch.startTime updates);
     Session.endTime :=
       default (Session.endTime session) (SessionPatch.endTime updates);
     Session.durationMinutes :=
       default (Session.durationMinutes session)
         (SessionPatch.durationMinutes updates);
     Session.messagesCount :=
       default (Session.messagesCount session)
         (SessionPatch.messagesCount updates);
     Session.correctionsCount :=
       default (Session.correctionsCount session)
         (SessionPatch.correctionsCount updates);
     Session.accuracyScore :=
       default (Session.accuracyScore session)
         (SessionPatch.accuracyScore updates);
     Session.topicId :=
       default (Session.topicId session) (SessionPatch.topicId updates);
     Session.isActive :=
       default (Session.isActive session)
         (SessionPatch.isActive updates) |}.

(** [updateSession(id, updates)]. *)
Definition updateSession (id : string) (updates : SessionPatch.t) (st : t)
    : t * option Session.t :=
  match sessions st !! id with
  | None => (st, None)
  | Some session =>
      let updatedSession := merge session updates in
      ({| sessions := <[id := updatedSession]> (sessions st);
          messages := messages st |},
       Some updatedSession)
  end.

(** [createMessage(insertMessage)]. *)
Definition createMessage (id : string) (now : Z)
    (insertMessage : InsertMessage.t) (st : t) : t * Message.t :=
  let message :=
    {| Message.id := id;
       Message.sessionId := InsertMessage.sessionId insertMessage;
       Message.type := InsertMessage.type insertMessage;
       Message.content := InsertMessage.content insertMessage;
       Message.timestamp := now;
       Message.audioUrl :=
         Js.or_null Js.truthy_string (InsertMessage.audioUrl insertMessage);
       Message.corrections := InsertMessage.corrections insertMessage;
       Message.metadata := InsertMessage.metadata insertMessage |} in
  ({| sessions := sessions st;
      messages := JsMap.set id message (messages st) |},
   message).

(** The comparator of [getSessionMessages]. *)
Definition byTimestamp (a b : Message.t) : Z :=
  Message.timestamp a - Message.timestamp b.

(** [getSessionMessages(sessionId)]. *)
Definition getSessionMessages (sessionId : string) (st : t)
    : list Message.t :=
  JsArray.sort byTimestamp
    (List.filter (fun m => String.eqb (Message.sessionId m) sessionId)
       (JsMap.values (messages st))).

End MemStorage.

(* ===================================================================== *)
(** ** The model provider, seen from the conversation service             *)
(* ===================================================================== *)

Module Provider.

(** How a call to [openai.chat.completions.create] ends: the promise is
    rejected, or it resolves to a response whose [choices] carry the
    [message.content] of each choice ([None] for a null content). *)
Inductive Completion (A : Type) :=
| Rejected
| Resolved (choices : list (option A)).
Arguments Rejected {A}.
Arguments Resolved {A} choices.

(** What [JSON.parse] makes of a non-empty content string: it throws, or
    yields [null], or yields a value whose [corrections] property is
    absent or an array of corrections. *)
Inductive Parsed :=
| SyntaxError
| ParsedNull
| ParsedValue (corrections : option (list GrammarCorrection)).

(** The content of a grammar-analysis answer: a non-empty string is
    stood for by its parse, an empty string is the empty content. *)
Inductive GrammarContent :=
| EmptyContent
| Json (p : Parsed).

Inductive Role := role_user | role_assistant.

Record HistoryEntry := { role : Role; content : option string }.

(** The requests the service sends, as far as they vary. *)
Inductive Request :=
| AnalyzeRequest (text : option string)
| ReplyRequest (userText : option string)
    (corrections : list GrammarCorrection) (context : list HistoryEntry).

End Provider.

(** What the environment contributes to one handled event. *)
Module Oracle.
Record t := {
  (* randomUUID() for a session, the user message, the bot message *)
  sessionUuid : string;
  userMessageUuid : string;
  botMessageUuid : string;
  (* new Date() at each of these creations, and for the reply payload *)
  sessionNow : Z;
  userMessageNow : Z;
  botMessageNow : Z;
  replyNow : Z;
  (* the two provider calls *)
  grammarCall : Provider.Completion Provider.GrammarContent;
  replyCall : Provider.Completion string;
  (* Math.floor(Math.random() * length), for the two random picks *)
  encouragementIndex : nat;
  promptIndex : nat
}.
End Oracle.

Inductive Error := MkError (message : string).

(* ===================================================================== *)
(** ** The conversation service (services/openai.ts, OpenAIService)       *)
(* ===================================================================== *)

Module OpenAIService.
Import Provider.

Record ConversationResponse := {
  reply : string;
  corrections : list GrammarCorrection;
  encouragement : string;
  nextPrompt : option string
}.

(** The state of an instance. *)
Record t := { conversationHistory : list HistoryEntry }.

(** The opening line of the personality message the constructor pushes
    (its guidelines are prose and play no part in what follows). *)
Definition personality : string :=
  "You are a friendly English conversation practice bot.".

(** [new OpenAIService()]. *)
Definition new : t :=
  {| conversationHistory :=
       [ {| role := role_assistant; content := Some personality |} ] |}.

(** [analyzeGrammar(text)]: every failure inside its [try] becomes [[]]. *)
Definition analyzeGrammar (call : Completion GrammarContent)
    : list GrammarCorrection :=
  match call with
  | Rejected => []
  | Resolved choices =>
      match choices !! 0%nat with
      | None => []                                   (* choices[0] undefined *)
      | Some content =>
          let parsed :=
            match content with
            | Some (Json p) => p
            | Some EmptyContent | None => ParsedValue (Some [])
            end in
          match parsed with
          | SyntaxError => []
          | ParsedNull => []
          | ParsedValue result_corrections => default [] result_corrections
          end
      end
  end.

Definition encouragements : list string :=
  [ "Great job practicing! Keep it up! 🌟";
    "You're doing wonderfully! I can see your confidence growing! 💪";
    "Excellent effort! Every conversation makes you better! 🎉";
    "Love your enthusiasm for learning! 🚀";
    "You're making fantastic progress! 👏";
    "Keep up the amazing work! You're getting more fluent! ✨" ].

(** [xs[i]] spliced into a string: an index out of range reads
    [undefined]. *)
Definition element_text (xs : list string) (i : nat) : string :=
  default "undefined" (xs !! i).

(** [generateEncouragement(userText, corrections)]; [i] is the value of
    [Math.floor(Math.random() * encouragements.length)]. *)
Definition generateEncouragement (userText : option string)
    (corrections : list GrammarCorrection) (i : nat) : string :=
  if (length corrections =? 0)%nat then
    "Perfect! Your English is spot on! " ++ element_text encouragements i
  else if (length corrections <=? 2)%nat then
    "Almost perfect! Just small tweaks! " ++ element_text encouragements i
  else
    "Good effort! We're learning together! " ++ element_text encouragements i.

Definition prompts : list (string * list string) :=
  [ ("daily-routines",
      [ "What's your favorite part of the day?";
        "How has your routine changed recently?";
        "What would you like to add to your daily routine?" ]);
    ("travel",
      [ "What type of traveler are you - adventurous or relaxed?";
        "How do you usually plan your trips?";
        "What's the most interesting person you've met while traveling?" ]);
    ("hobbies",
      [ "How much time do you spend on your hobbies each week?";
        "Have you ever taught someone else your hobby?";
        "What tools or equipment do you need for your hobby?" ]);
    ("food-cooking",
      [ "What's the most challenging dish you've ever tried to make?";
        "Do you have any family recipes?";
        "What's your go-to comfort food?" ]);
    ("books-movies",
      [ "What genre do you usually prefer and why?";
        "Do you like to discuss stories with friends?";
        "What makes a story memorable for you?" ]) ].

(** [suggestNextPrompt(topicId)]; [i] is the random index. *)
Definition suggestNextPrompt (topicId : option string) (i : nat)
    : option string :=
  if Js.falsy topicId then None
  else
    match JsMap.get (default EmptyString topicId) prompts with
    | Some topicPrompts => topicPrompts !! i
    | None => None
    end.

(** [processUserMessage(userText, topicId)]: the new state of the
    instance, the requests sent to the provider in order, and the
    response or the error thrown. *)
Definition processUserMessage (o : Oracle.t) (userText : option string)
    (topicId : option string) (svc : t)
    : t * list Request * (Error + ConversationResponse) :=
  let failed := MkError "Failed to process message with AI" in
  let history1 :=
    (conversationHistory svc
       ++ [ {| role := role_user; content := userText |} ])%list in
  let corrections := analyzeGrammar (Oracle.grammarCall o) in
  let sent :=
    [ AnalyzeRequest userText;
      ReplyRequest userText corrections (Js.slice_last 10 history1) ] in
  match Oracle.replyCall o with
  | Rejected => ({| conversationHistory := history1 |}, sent, inl failed)
  | Resolved choices =>
      match choices !! 0%nat with
      | None => ({| conversationHistory := history1 |}, sent, inl failed)
      | Some content =>
          let reply := Js.or_default Js.truthy_string content EmptyString in
          let history2 :=
            (history1
               ++ [ {| role := role_assistant; content := Some reply |} ])%list in
          ({| conversationHistory := history2 |}, sent,
           inr {| reply := reply;
                  corrections := corrections;
                  encouragement :=
                    generateEncouragement userText corrections
                      (Oracle.encouragementIndex o);
                  nextPrompt :=
                    suggestNextPrompt topicId (Oracle.promptIndex o) |})
      end
  end.

End OpenAIService.

(* ===================================================================== *)
(** ** The one-shot route POST /api/conversation/message (routes.ts)      *)
(* ===================================================================== *)

Module Routes.
Import OpenAIService.

(** The two fields the handler reads from [req.body]. *)
Record ConversationRequest := {
  message : option string;
  sessionId : option string
}.

Inductive ResponseBody :=
| ErrorBody (error : string)
| ReplyBody (reply : string) (corrections : list GrammarCorrection)
    (encouragement : string).

(** What the handler sends: [res.json] alone answers with status 200. *)
Record Response := { status : Z; body : ResponseBody }.

Definition dquote : string := String "034"%char EmptyString.

(** The body sent from the [catch] block. *)
Definition fallback (req : ConversationRequest) : ResponseBody :=
  ReplyBody
    ("Thank you for saying: " ++ dquote
       ++ default "undefined" (message req) ++ dquote
       ++ ". That's excellent English practice!")
    []
    "Keep practicing - you're doing great!".

(** The handler of POST /api/conversation/message. *)
Definition postConversationMessage (o : Oracle.t)
    (req : ConversationRequest) : Response :=
  if Js.falsy (message req) || Js.falsy (sessionId req) then
    {| status := 400; body := ErrorBody "Message and sessionId required" |}
  else
    match processUserMessage o (message req) None OpenAIService.new with
    | (_, _, inr response) =>
        {| status := 200;
           body := ReplyBody (reply response) (corrections response)
                     (encouragement response) |}
    | (_, _, inl _) => {| status := 200; body := fallback req |}
    end.

End Routes.

(* ===================================================================== *)
(** ** The relay (services/websocket.ts, class WebSocketService)          *)
(* ===================================================================== *)

Module WebSocketService.

Inductive ReadyState := CONNECTING | OPEN | CLOSING | CLOSED.

(** The payload fields the relay reads from an inbound envelope. *)
Record Payload := {
  text : option string;
  transcribedText : option string;
  topicId : option string
}.

(** An inbound envelope, after [JSON.parse]; [type] is whatever tag the
    client sent. *)
Record WSMessage := {
  type : string;
  payload : option Payload;
  sessionId : option string
}.

(** The payloads the relay sends. *)
Inductive OutPayload :=
| StatusPayload (status : string) (sessionId : option string)
    (message : string)
| BotPayload (content : string) (corrections : list GrammarCorrection)
    (encouragement : string) (nextPrompt : option string) (timestamp : Z)
| CorrectionsPayload (corrections : list GrammarCorrection)
    (encouragement : string).

(** An outbound envelope. *)
Record Envelope := {
  out_type : string;
  out_sessionId : option string;
  out_payload : OutPayload
}.

(** A [WebSocket] object: its state and the frames sent on it so far,
    oldest first. *)
Record WebSocket := { readyState : ReadyState; sent : list Envelope }.

Definition ReadyState_eqb (a b : ReadyState) : bool :=
  match a, b with
  | CONNECTING, CONNECTING | OPEN, OPEN
  | CLOSING, CLOSING | CLOSED, CLOSED => true
  | _, _ => false
  end.

(** The server: the socket objects (by reference), the two maps of the
    relay, the [storage] and [openaiService] singletons it imports, and
    the requests the provider has received. *)
Record t := {
  sockets : gmap nat WebSocket;
  connections : gmap string nat;
  sessions : gmap string string;
  storage : MemStorage.t;
  openaiService : OpenAIService.t;
  requests : list Provider.Request
}.

Definition set_sockets (f : gmap nat WebSocket -> gmap nat WebSocket)
    (w : t) : t :=
  {| sockets := f (sockets w); connections := connections w;
     sessions := sessions w; storage := storage w;
     openaiService := openaiService w; requests := requests w |}.

Definition set_connections (f : gmap string nat -> gmap string nat)
    (w : t) : t :=
  {| sockets := sockets w; connections := f (connections w);
     sessions := sessions w; storage := storage w;
     openaiService := openaiService w; requests := requests w |}.

Definition set_sessions (f : gmap string string -> gmap string string)
    (w : t) : t :=
  {| sockets := sockets w; connections := connections w;
     sessions := f (sessions w); storage := storage w;
     openaiService := openaiService w; requests := requests w |}.

Definition set_storage (st : MemStorage.t) (w : t) : t :=
  {| sockets := sockets w; connections := connections w;
     sessions := sessions w; storage := st;
     openaiService := openaiService w; requests := requests w |}.

Definition set_openai (svc : OpenAIService.t)
    (sent_now : list Provider.Request) (w : t) : t :=
  {| sockets := sockets w; connections := connections w;
     sessions := sessions w; storage := storage w;
     openaiService := svc;
     requests := (requests w ++ sent_now)%list |}.

(** *** Handlers as state transformers that may throw *)

Definition M (A : Type) : Type := t -> t * (Error + A).

#[export] Instance M_ret : MRet M := fun A a w => (w, inr a).
#[export] Instance M_bind : MBind M := fun A B f m w =>
  match m w with
  | (w', inr a) => f a w'
  | (w', inl e) => (w', inl e)
  end.

Definition throw {A} (e : Error) : M A := fun w => (w, inl e).
Definition try_catch {A} (body : M A) (handler : Error -> M A) : M A :=
  fun w =>
    match body w with
    | (w', inl e) => handler e w'
    | r => r
    end.
Definition gets {A} (f : t -> A) : M A := fun w => (w, inr (f w)).
Definition modify (f : t -> t) : M unit := fun w => (f w, inr tt).

(** The calls into the singletons. *)
Definition storage_createSession (id : string) (now : Z)
    (d : InsertSession.t) : M Session.t := fun w =>
  let '(st, session) := MemStorage.createSession id now d (storage w) in
  (set_storage st w, inr session).

Definition storage_createMessage (id : string) (now : Z)
    (d : InsertMessage.t) : M Message.t := fun w =>
  let '(st, message) := MemStorage.createMessage id now d (storage w) in
  (set_storage st w, inr message).

Definition storage_getSession (id : string) : M (option Session.t) :=
  gets (fun w => MemStorage.getSession id (storage w)).

Definition storage_updateSession (id : string) (updates : SessionPatch.t)
    : M (option Session.t) := fun w =>
  let '(st, r) := MemStorage.updateSession id updates (storage w) in
  (set_storage st w, inr r).

Definition openai_processUserMessage (o : Oracle.t)
    (userText topicId : option string)
    : M OpenAIService.ConversationResponse := fun w =>
  let '(svc, sent_now, r) :=
    OpenAIService.processUserMessage o userText topicId
      (openaiService w) in
  (set_openai svc sent_now w, r).

(** *** The methods of the class *)

(** [sendMessage(ws, message)]. *)
Definition sendMessage (ws : nat) (message : Envelope) : M unit :=
  modify (set_sockets (fun socks =>
    match socks !! ws with
    | Some sock =>
        if ReadyState_eqb (readyState sock) OPEN then
          <[ws := {| readyState := readyState sock;
                     sent := (sent sock ++ [message])%list |}]> socks
        else socks
    | None => socks
    end)).

Definition errorEnvelope (errorMessage : string) : Envelope :=
  {| out_type := "session_update"; out_sessionId := None;
     out_payload := StatusPayload "error" None errorMessage |}.

(** [sendError(ws, errorMessage)]. *)
Definition sendError (ws : nat) (errorMessage : string) : M unit :=
  sendMessage ws (errorEnvelope errorMessage).

(** [message.payload?.topicId]. *)
Definition payload_topicId (message : WSMessage) : option string :=
  p ← payload message; topicId p.

(** The draft both [handleAudioStart] and [handleTextMessage] create a
    session from. *)
Definition guestSession (message : WSMessage) : InsertSession.t :=
  {| InsertSession.userId := Some "guest";
     InsertSession.endTime := None;
     InsertSession.durationMinutes := Some 0;
     InsertSession.messagesCount := Some (Number.of_Z 0);
     InsertSession.correctionsCount := Some (Number.of_Z 0);
     InsertSession.accuracyScore := Some (Number.of_Z 0);
     InsertSession.topicId := payload_topicId message;
     InsertSession.isActive := Some true |}.

(** [calculateAccuracy] at its one call site:
    [calculateAccuracy(response.corrections.length,
    userText.split(' ').length)];
    splitting an [undefined] text throws. *)
Definition accuracyOf (corrections : list GrammarCorrection)
    (userText : option string) : M Number.number :=
  match userText with
  | None => throw (MkError "TypeError")
  | Some s =>
      mret (Accuracy.calculateAccuracy
              (Number.of_Z (Z.of_nat (length corrections)))
              (Number.of_Z (Js.split_space_length s)))
  end.

(** [processUserInput(connectionId, sessionId, userText, topicId)]. *)
Definition processUserInput (o : Oracle.t) (connectionId sessionId : string)
    (userText topicId : option string) : M unit :=
  ws ← gets (fun w => connections w !! connectionId);
  match ws with
  | None => mret tt
  | Some ws =>
      try_catch
        ((* Save user message *)
         storage_createMessage (Oracle.userMessageUuid o)
           (Oracle.userMessageNow o)
           {| InsertMessage.sessionId := sessionId;
              InsertMessage.type := user;
              InsertMessage.content := userText;
              InsertMessage.audioUrl := None;
              InsertMessage.corrections := None;
              InsertMessage.metadata :=
                Some {| md_topicId := topicId; md_encouragement := None;
                        md_nextPrompt := None |} |};;
         (* Process with OpenAI *)
         response ← openai_processUserMessage o userText topicId;
         let corrections := OpenAIService.corrections response in
         (* Save bot response *)
         storage_createMessage (Oracle.botMessageUuid o)
           (Oracle.botMessageNow o)
           {| InsertMessage.sessionId := sessionId;
              InsertMessage.type := bot;
              InsertMessage.content := Some (OpenAIService.reply response);
              InsertMessage.audioUrl := None;
              InsertMessage.corrections := Some corrections;
              InsertMessage.metadata :=
                Some {| md_topicId := None;
                        md_encouragement :=
                          Some (OpenAIService.encouragement response);
                        md_nextPrompt :=
                          OpenAIService.nextPrompt response |} |};;
         (* Update session stats *)
         session ← storage_getSession sessionId;
         match session with
         | Some session =>
             accuracy ← accuracyOf corrections userText;
             storage_updateSession sessionId
               {| SessionPatch.id := None;
                  SessionPatch.userId := None;
                  SessionPatch.startTime := None;
                  SessionPatch.endTime := None;
                  SessionPatch.durationMinutes := None;
                  SessionPatch.messagesCount :=
                    Some (Some (Number.add
                                  (Js.or_default Number.truthy
                                     (Session.messagesCount session)
                                     (Number.of_Z 0))
                                  (Number.of_Z 2)));
                  SessionPatch.correctionsCount :=
                    Some (Some (Number.add
                                  (Js.or_default Number.truthy
                                     (Session.correctionsCount session)
                                     (Number.of_Z 0))
                                  (Number.of_Z
                                     (Z.of_nat (length corrections)))));
                  SessionPatch.accuracyScore := Some (Some accuracy);
                  SessionPatch.topicId := None;
                  SessionPatch.isActive := None |};;
             mret tt
         | None => mret tt
         end;;
         (* Send response to client *)
         sendMessage ws
           {| out_type := "text_message";
              out_sessionId := Some sessionId;
              out_payload :=
                BotPayload (OpenAIService.reply response) corrections
                  (OpenAIService.encouragement response)
                  (OpenAIService.nextPrompt response)
                  (Oracle.replyNow o) |};;
         (* Send corrections if any *)
         if (0 <? length corrections)%nat then
           sendMessage ws
             {| out_type := "correction";
                out_sessionId := Some sessionId;
                out_payload :=
                  CorrectionsPayload corrections
                    (OpenAIService.encouragement response) |}
         else mret tt)
        (fun error =>
           sendError ws "Failed to process your message. Please try again.")
  end.

(** [handleAudioStart(connectionId, message)]. *)
Definition handleAudioStart (o : Oracle.t) (connectionId : string)
    (message : WSMessage) : M unit :=
  ws ← gets (fun w => connections w !! connectionId);
  match ws with
  | None => mret tt
  | Some ws =>
      (* Initialize or get session *)
      known ← gets (fun w => sessions w !! connectionId);
      sessionId ←
        (if Js.falsy known then
           session ← storage_createSession (Oracle.sessionUuid o)
                       (Oracle.sessionNow o) (guestSession message);
           modify (set_sessions <[connectionId := Session.id session]>);;
           mret (Session.id session)
         else mret (default EmptyString known));
      sendMessage ws
        {| out_type := "session_update";
           out_sessionId := None;
           out_payload :=
             StatusPayload "recording" (Some sessionId)
               "I'm listening! Speak naturally." |}
  end.

(** [handleAudioChunk(connectionId, message)]: it only logs. *)
Definition handleAudioChunk (connectionId : string) (message : WSMessage)
    : M unit :=
  mret tt.

(** [handleAudioEnd(connectionId, message)]. *)
Definition handleAudioEnd (o : Oracle.t) (connectionId : string)
    (message : WSMessage) : M unit :=
  ws ← gets (fun w => connections w !! connectionId);
  match ws with
  | None => mret tt
  | Some _ =>
      sessionId ← gets (fun w => sessions w !! connectionId);
      if Js.falsy sessionId then mret tt
      else
        (* Simulate speech-to-text conversion *)
        let transcribedText :=
          Js.or_default Js.truthy_string
            (p ← payload message; transcribedText p)
            "I want to practice my English speaking skills." in
        processUserInput o connectionId (default EmptyString sessionId)
          (Some transcribedText) (payload_topicId message)
  end.

(** [handleTextMessage(connectionId, message)]; reading [payload.text] of
    an envelope without payload throws. *)
Definition handleTextMessage (o : Oracle.t) (connectionId : string)
    (message : WSMessage) : M unit :=
  ws ← gets (fun w => connections w !! connectionId);
  match ws with
  | None => mret tt
  | Some _ =>
      known ← gets (fun w => sessions w !! connectionId);
      sessionId ←
        (if Js.falsy known then
           session ← storage_createSession (Oracle.sessionUuid o)
                       (Oracle.sessionNow o) (guestSession message);
           modify (set_sessions <[connectionId := Session.id session]>);;
           mret (Session.id session)
         else mret (default EmptyString known));
      match payload message with
      | None => throw (MkError "TypeError")
      | Some p =>
          processUserInput o connectionId sessionId (text p)
            (payload_topicId message)
      end
  end.

(** [handleMessage(connectionId, message)]. *)
Definition handleMessage (o : Oracle.t) (connectionId : string)
    (message : WSMessage) : M unit :=
  ws ← gets (fun w => connections w !! connectionId);
  open ← gets (fun w =>
    match ws ≫= (fun r => sockets w !! r) with
    | Some sock => ReadyState_eqb (readyState sock) OPEN
    | None => false
    end);
  match ws with
  | Some ws =>
      if negb open then mret tt
      else
        try_catch
          (if String.eqb (type message) "audio_start" then
             handleAudioStart o connectionId message
           else if String.eqb (type message) "audio_chunk" then
             handleAudioChunk connectionId message
           else if String.eqb (type message) "audio_end" then
             handleAudioEnd o connectionId message
           else if String.eqb (type message) "text_message" then
             handleTextMessage o connectionId message
           else sendError ws "Unknown message type")
          (fun error => sendError ws "Failed to process message")
  | None => mret tt
  end.

(** *** The event handlers the constructor installs *)

Definition welcome : Envelope :=
  {| out_type := "session_update"; out_sessionId := None;
     out_payload :=
       StatusPayload "connected" None
         "Welcome to SpeakEasy! Ready to practice English?" |}.

(** The server accepts a socket: a new object [ws] in state OPEN. *)
Definition accept (ws : nat) (w : t) : t :=
  set_sockets <[ws := {| readyState := OPEN; sent := [] |}]> w.

(** [wss.on('connection', ...)], for the socket [ws] and the identifier
    that [generateConnectionId()] returned. *)
Definition on_connection (connectionId : string) (ws : nat) : M unit :=
  modify (set_connections <[connectionId := ws]>);;
  sendMessage ws welcome.

(** [ws.on('message', ...)], in the closure of [connectionId] and [ws];
    [data] is [None] when [JSON.parse] throws. *)
Definition on_message (o : Oracle.t) (connectionId : string) (ws : nat)
    (data : option WSMessage) : M unit :=
  try_catch
    (match data with
     | None => throw (MkError "SyntaxError")
     | Some message => handleMessage o connectionId message
     end)
    (fun error => sendError ws "Invalid message format").

(** [ws.on('close', ...)]. *)
Definition on_close (connectionId : string) : M unit :=
  modify (set_connections (delete connectionId));;
  modify (set_sessions (delete connectionId)).

(** [ws.on('error', ...)]. *)
Definition on_error (connectionId : string) : M unit :=
  modify (set_connections (delete connectionId));;
  modify (set_sessions (delete connectionId)).

(** The state a handler leaves behind. *)
Definition run {A} (m : M A) (w : t) : t := fst (m w).

(** [new WebSocketService(server)] next to fresh singletons. *)
Definition initial : t :=
  {| sockets := ∅; connections := ∅; sessions := ∅;
     storage := MemStorage.empty; openaiService := OpenAIService.new;
     requests := [] |}.

(** The frames sent so far on the socket [ws]. *)
Definition pushed (ws : nat) (w : t) : list Envelope :=
  match sockets w !! ws with
  | Some sock => sent sock
  | None => []
  end.

End WebSocketService.

(* ===================================================================== *)
(** ** Vocabulary of the properties                                       *)
(* ===================================================================== *)

Module Encouragement.
Import OpenAIService.

(** The three tiers of encouragement. *)
Inductive Tier := StrongestPraise | AlmostPerfect | GoodEffort.

(** The tier the specification assigns to a number of corrections:
    none, one or two, three or more. *)
Definition tier_of_count (n : nat) : Tier :=
  match n with
  | O => StrongestPraise
  | 1%nat | 2%nat => AlmostPerfect
  | _ => GoodEffort
  end.

Definition opening (t : Tier) : string :=
  match t with
  | StrongestPraise => "Perfect! Your English is spot on! "
  | AlmostPerfect => "Almost perfect! Just small tweaks! "
  | GoodEffort => "Good effort! We're learning together! "
  end.

(** The phrases of a tier. *)
Definition tier_phrases (t : Tier) : list string :=
  map (fun phrase => opening t ++ phrase) encouragements.

(** Membership of a tier, as a test. *)
Definition in_tier (s : string) (t : Tier) : bool :=
  existsb (String.eqb s) (tier_phrases t).

End Encouragement.

Module Faults.
Import Provider.

(** The corrections call failed, answered without a usable choice, or
    answered with output that does not parse to an object. *)
Inductive corrections_fault : Completion GrammarContent -> Prop :=
| fault_rejected : corrections_fault Rejected
| fault_no_choice : corrections_fault (Resolved [])
| fault_syntax rest :
    corrections_fault (Resolved (Some (Json SyntaxError) :: rest))
| fault_null rest :
    corrections_fault (Resolved (Some (Json ParsedNull) :: rest)).

(** The reply call failed: the promise was rejected, or the response has
    no first choice to read. *)
Inductive reply_fault : Completion string -> Prop :=
| reply_rejected : reply_fault Rejected
| reply_no_choice : reply_fault (Resolved []).

End Faults.

Module Envelopes.
Import WebSocketService.

(** The session identifiers an outbound envelope carries. *)
Definition session_ids (e : Envelope) : list string :=
  (match out_sessionId e with Some s => [s] | None => [] end
   ++ match out_payload e with
      | StatusPayload _ (Some s) _ => [s]
      | _ => []
      end)%list.

(** A reply envelope: what [processUserInput] sends for the bot's turn. *)
Definition is_reply (e : Envelope) : bool :=
  String.eqb (out_type e) "text_message".

(** The tags [handleMessage] dispatches on. *)
Definition handled_tags : list string :=
  [ "audio_start"; "audio_chunk"; "audio_end"; "text_message" ].

End Envelopes.

(** What one user turn on the session [sid] may change. *)
Module Frames.
Import WebSocketService.

(** The envelope names no session other than [sid]. *)
Definition only_about (sid : string) (e : Envelope) : Prop :=
  forall x, In x (Envelopes.session_ids e) -> x = sid.

(** From [w] to [w']: the two maps of the relay are as they were, every
    stored session other than [sid] is as it was, no stored session is
    lost, and each socket has at most been sent further envelopes, all of
    them about [sid]. *)
Definition turn_of (sid : string) (w w' : t) : Prop :=
  connections w' = connections w
  /\ sessions w' = sessions w
  /\ (forall k, k <> sid ->
        MemStorage.getSession k (storage w')
        = MemStorage.getSession k (storage w))
  /\ (forall k, is_Some (MemStorage.getSession k (storage w)) ->
        is_Some (MemStorage.getSession k (storage w')))
  /\ forall ws, exists new,
       pushed ws w' = (pushed ws w ++ new)%list
       /\ Forall (only_about sid) new.

(** The computation stays within a turn of [sid], thrown or not. *)
Definition keeps {A} (sid : string) (m : M A) : Prop :=
  forall w, turn_of sid w (m w).1.

(** The computation returns; it does not throw. *)
Definition returns {A} (m : M A) : Prop :=
  forall w, exists a, (m w).2 = inr a.

(** The user message that [processUserInput] stores first. *)
Definition userMessage (sid : string) (userText topic : option string)
    : InsertMessage.t :=
  {| InsertMessage.sessionId := sid;
     InsertMessage.type := user;
     InsertMessage.content := userText;
     InsertMessage.audioUrl := None;
     InsertMessage.corrections := None;
     InsertMessage.metadata :=
       Some {| md_topicId := topic; md_encouragement := None;
               md_nextPrompt := None |} |}.

(** The state in which [handleTextMessage] leaves a connection that had no
    session, before the turn is processed. *)
Definition with_new_session (o : Oracle.t) (cid : string)
    (message : WSMessage) (w : t) : t :=
  set_sessions <[cid := Oracle.sessionUuid o]>
    (set_storage
       (MemStorage.createSession (Oracle.sessionUuid o) (Oracle.sessionNow o)
          (guestSession message) (storage w)).1 w).

End Frames.

(** Inputs on which the statements below are exercised. *)
Module Samples.
Import WebSocketService.

Definition i_are : GrammarCorrection :=
  {| original := "I are"; corrected := "I am";
     explanation := "Use I am instead of I are"; ctype := grammar |}.

(** A turn in which both provider calls answer. *)
Definition answering : Oracle.t :=
  {| Oracle.sessionUuid := "session-2";
     Oracle.userMessageUuid := "message-1";
     Oracle.botMessageUuid := "message-2";
     Oracle.sessionNow := 1000; Oracle.userMessageNow := 1001;
     Oracle.botMessageNow := 1002; Oracle.replyNow := 1003;
     Oracle.grammarCall :=
       Provider.Resolved
         [ Some (Provider.Json (Provider.ParsedValue (Some [i_are]))) ];
     Oracle.replyCall := Provider.Resolved [ Some "Nice to hear!" ];
     Oracle.encouragementIndex := 3%nat;
     Oracle.promptIndex := 1%nat |}.

(** A turn in which only the corrections call fails. *)
Definition grammar_down : Oracle.t :=
  {| Oracle.sessionUuid := "session-2";
     Oracle.userMessageUuid := "message-1";
     Oracle.botMessageUuid := "message-2";
     Oracle.sessionNow := 1000; Oracle.userMessageNow := 1001;
     Oracle.botMessageNow := 1002; Oracle.replyNow := 1003;
     Oracle.grammarCall := Provider.Rejected;
     Oracle.replyCall := Provider.Resolved [ Some "Nice to hear!" ];
     Oracle.encouragementIndex := 0%nat;
     Oracle.promptIndex := 0%nat |}.

(** A turn in which the provider is unreachable. *)
Definition unreachable : Oracle.t :=
  {| Oracle.sessionUuid := "session-2";
     Oracle.userMessageUuid := "message-1";
     Oracle.botMessageUuid := "message-2";
     Oracle.sessionNow := 1000; Oracle.userMessageNow := 1001;
     Oracle.botMessageNow := 1002; Oracle.replyNow := 1003;
     Oracle.grammarCall := Provider.Rejected;
     Oracle.replyCall := Provider.Rejected;
     Oracle.encouragementIndex := 0%nat;
     Oracle.promptIndex := 0%nat |}.

(** The draft of the scenario POST /sessions {userId, topicId}. *)
Definition travel_draft : InsertSession.t :=
  {| InsertSession.userId := Some "guest";
     InsertSession.endTime := None;
     InsertSession.durationMinutes := None;
     InsertSession.messagesCount := None;
     InsertSession.correctionsCount := None;
     InsertSession.accuracyScore := None;
     InsertSession.topicId := Some "travel";
     InsertSession.isActive := None |}.

(** A draft whose user identifier is the empty string. *)
Definition anonymous_draft : InsertSession.t :=
  {| InsertSession.userId := Some EmptyString;
     InsertSession.endTime := None;
     InsertSession.durationMinutes := None;
     InsertSession.messagesCount := Some (Number.of_Z 0);
     InsertSession.correctionsCount := Some (Number.of_Z 0);
     InsertSession.accuracyScore := None;
     InsertSession.topicId := Some "travel";
     InsertSession.isActive := Some true |}.

(** Request bodies of the one-shot route. *)
Definition hello_request : Routes.ConversationRequest :=
  {| Routes.message := Some "Hello there";
     Routes.sessionId := Some "demo-session" |}.

Definition empty_message_request : Routes.ConversationRequest :=
  {| Routes.message := Some EmptyString;
     Routes.sessionId := Some "demo-session" |}.

(** A server with one open connection [conn_a] on socket 0. *)
Definition one_connection : t :=
  run (on_connection "conn_a" 0%nat) (accept 0%nat initial).

Definition text_envelope (s : string) : WSMessage :=
  {| type := "text_message";
     payload := Some {| text := Some s; transcribedText := None;
                        topicId := Some "travel" |};
     sessionId := None |}.

Definition tagged (tag : string) : WSMessage :=
  {| type := tag; payload := None; sessionId := None |}.

(** An audio_end frame that carries a transcript. *)
Definition spoken_envelope : WSMessage :=
  {| type := "audio_end";
     payload := Some {| text := None;
                        transcribedText := Some "I are happy";
                        topicId := Some "travel" |};
     sessionId := None |}.

(** The same server after [conn_a] has had one answered turn, which
    created the session [session-1]. *)
Definition first_turn : Oracle.t :=
  {| Oracle.sessionUuid := "session-1";
     Oracle.userMessageUuid := "message-a";
     Oracle.botMessageUuid := "message-b";
     Oracle.sessionNow := 10; Oracle.userMessageNow := 11;
     Oracle.botMessageNow := 12; Oracle.replyNow := 13;
     Oracle.grammarCall := Provider.Resolved [ None ];
     Oracle.replyCall := Provider.Resolved [ Some "Welcome!" ];
     Oracle.encouragementIndex := 1%nat;
     Oracle.promptIndex := 2%nat |}.

Definition in_session : t :=
  run (on_message first_turn "conn_a" 0%nat (Some (text_envelope "Hello")))
    one_connection.

(** An utterance of forty words, and a turn in which the provider finds
    seventeen corrections in it. *)
Definition forty_words : string :=
  String.concat " " (repeat "word" 40).

Definition seventeen_corrections : Oracle.t :=
  {| Oracle.sessionUuid := "session-1";
     Oracle.userMessageUuid := "message-a";
     Oracle.botMessageUuid := "message-b";
     Oracle.sessionNow := 10; Oracle.userMessageNow := 11;
     Oracle.botMessageNow := 12; Oracle.replyNow := 13;
     Oracle.grammarCall :=
       Provider.Resolved
         [ Some (Provider.Json
                   (Provider.ParsedValue (Some (repeat i_are 17)))) ];
     Oracle.replyCall := Provider.Resolved [ Some "Let us look at these." ];
     Oracle.encouragementIndex := 0%nat;
     Oracle.promptIndex := 0%nat |}.

(** The socket of [conn_a] and the session record of [session-1] there. *)
Definition socket_a : WebSocket :=
  {| readyState := OPEN; sent := pushed 0%nat in_session |}.

Definition session_1 : Session.t :=
  Eval vm_compute in
    default
      (MemStorage.createSession "none" 0 travel_draft MemStorage.empty).2
      (MemStorage.getSession "session-1" (storage in_session)).

(** [in_session] after the provider has become unreachable and [conn_a]
    has sent another text. *)
Definition after_outage : t :=
  run (on_message unreachable "conn_a" 0%nat
         (Some (text_envelope "I are happy")))
    in_session.

End Samples.

(* ===================================================================== *)
(** ** The rest of the store: active sessions, topics, progress           *)
(* ===================================================================== *)

Module StoreQueries.

(** [s.isActive] as a condition. *)
Definition active (s : Session.t) : bool :=
  match Session.isActive s with
  | Some b => b
  | None => false
  end.

(** [getActiveSessions()].  A [gmap] does not keep the order in which the
    JavaScript Map iterates; the sessions come in the order of
    [map_to_list], and only what the result contains is meaningful. *)
Definition getActiveSessions (st : MemStorage.t) : list Session.t :=
  List.filter active (map_to_list (MemStorage.sessions st)).*2.

End StoreQueries.

Inductive Difficulty := beginner | intermediate | advanced.

(** [ConversationTopic], the select type of the [conversation_topics]
    table. *)
Module ConversationTopic.
Record t := {
  id : string;
  title : string;
  description : option string;
  icon : option string;
  difficulty : option Difficulty;
  prompts : option (list string);
  isActive : option bool
}.
End ConversationTopic.

(** The [topics] map of the store. *)
Module Topics.

Definition defaultTopics : list ConversationTopic.t :=
  [ {| ConversationTopic.id := "daily-routines";
       ConversationTopic.title := "Daily Routines & Habits";
       ConversationTopic.description :=
         Some "Talk about your daily life and habits";
       ConversationTopic.icon := Some "fas fa-coffee";
       ConversationTopic.difficulty := Some beginner;
       ConversationTopic.prompts :=
         Some [ "What does your typical morning routine look like?";
                "How do you usually spend your weekends?";
                "What healthy habits are you trying to develop?" ];
       ConversationTopic.isActive := Some true |};
    {| ConversationTopic.id := "travel";
       ConversationTopic.title := "Travel Experiences";
       ConversationTopic.description :=
         Some "Share your travel stories and dreams";
       ConversationTopic.icon := Some "fas fa-plane";
       ConversationTopic.difficulty := Some intermediate;
       ConversationTopic.prompts :=
         Some [ "Tell me about your most memorable travel experience";
                "Where would you like to visit next and why?";
                "What's the best local food you've tried while traveling?" ];
       ConversationTopic.isActive := Some true |};
    {| ConversationTopic.id := "hobbies";
       ConversationTopic.title := "Hobbies & Interests";
       ConversationTopic.description :=
         Some "Discuss your favorite activities and pastimes";
       ConversationTopic.icon := Some "fas fa-gamepad";
       ConversationTopic.difficulty := Some beginner;
       ConversationTopic.prompts :=
         Some [ "What hobbies do you enjoy in your free time?";
                "How did you get started with your favorite hobby?";
                "What new skill would you like to learn?" ];
       ConversationTopic.isActive := Some true |};
    {| ConversationTopic.id := "food-cooking";
       ConversationTopic.title := "Food & Cooking";
       ConversationTopic.description :=
         Some "Talk about cuisine, recipes, and cooking experiences";
       ConversationTopic.icon := Some "fas fa-utensils";
       ConversationTopic.difficulty := Some intermediate;
       ConversationTopic.prompts :=
         Some [ "What's your favorite dish to cook?";
                "Tell me about the cuisine from your country";
                "Do you prefer cooking at home or eating out?" ];
       ConversationTopic.isActive := Some true |};
    {| ConversationTopic.id := "books-movies";
       ConversationTopic.title := "Books & Movies";
       ConversationTopic.description :=
         Some "Discuss entertainment, stories, and recommendations";
       ConversationTopic.icon := Some "fas fa-book";
       ConversationTopic.difficulty := Some advanced;
       ConversationTopic.prompts :=
         Some [ "What's the last book you read that you really enjoyed?";
                "Can you recommend a movie that made you think?";
                "Do you prefer reading books or watching their movie adaptations?" ];
       ConversationTopic.isActive := Some true |} ].

(** [initializeDefaultTopics()], on the [topics] map. *)
Definition initializeDefaultTopics (topics : JsMap.t ConversationTopic.t)
    : JsMap.t ConversationTopic.t :=
  foldl (fun m topic => JsMap.set (ConversationTopic.id topic) topic m)
    topics defaultTopics.

(** The [topics] map after the constructor. *)
Definition seeded : JsMap.t ConversationTopic.t := initializeDefaultTopics [].

(** [t.isActive] as a condition. *)
Definition active (topic : ConversationTopic.t) : bool :=
  match ConversationTopic.isActive topic with
  | Some b => b
  | None => false
  end.

(** [getTopics()]. *)
Definition getTopics (topics : JsMap.t ConversationTopic.t)
    : list ConversationTopic.t :=
  List.filter active (JsMap.values topics).

(** [getTopic(id)]. *)
Definition getTopic (id : string) (topics : JsMap.t ConversationTopic.t)
    : option ConversationTopic.t :=
  JsMap.get id topics.

End Topics.

(** [UserProgress], the select type of the [user_progress] table. *)
Module UserProgress.
Record t := {
  id : string;
  userId : option string;
  totalSessions : option Z;
  totalMinutes : option Z;
  streak : option Z;
  lastSessionDate : option Z;
  avgAccuracy : option Z;
  achievements : option (list string)
}.
End UserProgress.

(** [Partial<UserProgress>]: [None] for an absent key. *)
Module ProgressPatch.
Record t := {
  id : option string;
  userId : option (option string);
  totalSessions : option (option Z);
  totalMinutes : option (option Z);
  streak : option (option Z);
  lastSessionDate : option (option Z);
  avgAccuracy : option (option Z);
  achievements : option (option (list string))
}.

Definition empty : t :=
  {| id := None; userId := None; totalSessions := None;
     totalMinutes := None; streak := None; lastSessionDate := None;
     avgAccuracy := None; achievements := None |}.
End ProgressPatch.

(** The [userProgress] map of the store, keyed by user id. *)
Module ProgressStore.

(** [{ ...record, ...progress }]. *)
Definition spread (record : UserProgress.t) (progress : ProgressPatch.t)
    : UserProgress.t :=
  {| UserProgress.id :=
       default (UserProgress.id record) (ProgressPatch.id progress);
     UserProgress.userId :=
       default (UserProgress.userId record) (ProgressPatch.userId progress);
     UserProgress.totalSessions :=
       default (UserProgress.totalSessions record)
         (ProgressPatch.totalSessions progress);
     UserProgress.totalMinutes :=
       default (UserProgress.totalMinutes record)
         (ProgressPatch.totalMinutes progress);
     UserProgress.streak :=
       default (UserProgress.streak record) (ProgressPatch.streak progress);
     UserProgress.lastSessionDate :=
       default (UserProgress.lastSessionDate record)
         (ProgressPatch.lastSessionDate progress);
     UserProgress.avgAccuracy :=
       default (UserProgress.avgAccuracy record)
         (ProgressPatch.avgAccuracy progress);
     UserProgress.achievements :=
       default (UserProgress.achievements record)
         (ProgressPatch.achievements progress) |}.

(** [getUserProgress(userId)]. *)
Definition getUserProgress (userId : string)
    (st : gmap string UserProgress.t) : option UserProgress.t :=
  st !! userId.

(** [updateUserProgress(userId, progress)]; [uuid] is what [randomUUID()]
    returns if it is called.  A stored record has every key, so spreading
    [existing] over the defaults leaves [existing]. *)
Definition updateUserProgress (uuid userId : string)
    (progress : ProgressPatch.t) (st : gmap string UserProgress.t)
    : gmap string UserProgress.t * UserProgress.t :=
  let existing := st !! userId in
  let defaults :=
    {| UserProgress.id :=
         match existing with
         | Some e =>
             if Js.truthy_string (UserProgress.id e) then UserProgress.id e
             else uuid
         | None => uuid
         end;
       UserProgress.userId := Some userId;
       UserProgress.totalSessions := Some 0;
       UserProgress.totalMinutes := Some 0;
       UserProgress.streak := Some 0;
       UserProgress.lastSessionDate := None;
       UserProgress.avgAccuracy := Some 0;
       UserProgress.achievements := Some [] |} in
  let updated := spread (default defaults existing) progress in
  (<[userId := updated]> st, updated).

End ProgressStore.

(* ===================================================================== *)
(** ** The read and merge routes of routes.ts                             *)
(* ===================================================================== *)

Module RestRoutes.

(** What a handler sends: the status and either the record asked for or
    the [message] of an error body. *)
Record Answer (A : Type) := { status : Z; body : A + string }.
Arguments status {A} _.
Arguments body {A} _.

Definition ok {A} (a : A) : Answer A := {| status := 200; body := inl a |}.
Definition notFound {A} (message : string) : Answer A :=
  {| status := 404; body := inr message |}.

(** GET /api/topics. *)
Definition getTopics (topics : JsMap.t ConversationTopic.t)
    : Answer (list ConversationTopic.t) :=
  ok (Topics.getTopics topics).

(** GET /api/topics/:id. *)
Definition getTopic (id : string) (topics : JsMap.t ConversationTopic.t)
    : Answer ConversationTopic.t :=
  match Topics.getTopic id topics with
  | None => notFound "Topic not found"
  | Some topic => ok topic
  end.

(** GET /api/sessions/:id. *)
Definition getSession (id : string) (st : MemStorage.t)
    : Answer Session.t :=
  match MemStorage.getSession id st with
  | None => notFound "Session not found"
  | Some session => ok session
  end.

(** PATCH /api/sessions/:id, with [req.body] as the updates. *)
Definition patchSession (id : string) (updates : SessionPatch.t)
    (st : MemStorage.t) : MemStorage.t * Answer Session.t :=
  match MemStorage.updateSession id updates st with
  | (st', None) => (st', notFound "Session not found")
  | (st', Some session) => (st', ok session)
  end.

(** GET /api/sessions/:id/messages. *)
Definition getSessionMessages (id : string) (st : MemStorage.t)
    : Answer (list Message.t) :=
  ok (MemStorage.getSessionMessages id st).

(** The patch GET /api/progress/:userId creates a record from. *)
Definition zeroProgress : ProgressPatch.t :=
  {| ProgressPatch.id := None;
     ProgressPatch.userId := None;
     ProgressPatch.totalSessions := Some (Some 0);
     ProgressPatch.totalMinutes := Some (Some 0);
     ProgressPatch.streak := Some (Some 0);
     ProgressPatch.lastSessionDate := None;
     ProgressPatch.avgAccuracy := Some (Some 0);
     ProgressPatch.achievements := Some (Some []) |}.

(** GET /api/progress/:userId. *)
Definition getProgress (uuid userId : string)
    (st : gmap string UserProgress.t)
    : gmap string UserProgress.t * Answer UserProgress.t :=
  match ProgressStore.getUserProgress userId st with
  | None =>
      let '(st', defaultProgress) :=
        ProgressStore.updateUserProgress uuid userId zeroProgress st in
      (st', ok defaultProgress)
  | Some progress => (st, ok progress)
  end.

(** PATCH /api/progress/:userId. *)
Definition patchProgress (uuid userId : string) (progress : ProgressPatch.t)
    (st : gmap string UserProgress.t)
    : gmap string UserProgress.t * Answer UserProgress.t :=
  let '(st', updated) :=
    ProgressStore.updateUserProgress uuid userId progress st in
  (st', ok updated).

(** POST /api/sessions.  [validated] is what
    [insertSessionSchema.parse(req.body)] returns, [None] when it throws;
    [uuid] and [now] are what [createSession] draws. *)
Definition postSession (uuid : string) (now : Z)
    (validated : option InsertSession.t) (st : MemStorage.t)
    : MemStorage.t * Answer Session.t :=
  match validated with
  | None => (st, {| status := 400; body := inr "Invalid session data" |})
  | Some validatedData =>
      let '(st', session) :=
        MemStorage.createSession uuid now validatedData st in
      (st', {| status := 201; body := inl session |})
  end.

(** POST /api/sessions/:id/messages.  [validated] is what
    [insertMessageSchema.parse({...req.body, sessionId: req.params.id})]
    returns, [None] when it throws; its session id is the one of the
    path. *)
Definition postMessage (uuid : string) (now : Z) (id : string)
    (validated : option InsertMessage.t) (st : MemStorage.t)
    : MemStorage.t * Answer Message.t :=
  match validated with
  | None => (st, {| status := 400; body := inr "Invalid message data" |})
  | Some parsed =>
      let validatedData :=
        {| InsertMessage.sessionId := id;
           InsertMessage.type := InsertMessage.type parsed;
           InsertMessage.content := InsertMessage.content parsed;
           InsertMessage.audioUrl := InsertMessage.audioUrl parsed;
           InsertMessage.corrections := InsertMessage.corrections parsed;
           InsertMessage.metadata := InsertMessage.metadata parsed |} in
      let '(st', message) :=
        MemStorage.createMessage uuid now validatedData st in
      (st', {| status := 201; body := inl message |})
  end.

End RestRoutes.

(* ===================================================================== *)
(** ** The conversation service over several turns                        *)
(* ===================================================================== *)

Module Conversation.
Import Provider OpenAIService.

(** [clearHistory()]. *)
Definition clearHistory (svc : OpenAIService.t) : OpenAIService.t :=
  {| conversationHistory := take 1 (conversationHistory svc) |}.

(** One call of [processUserMessage]: the environment's answers and the
    arguments. *)
Record Turn := {
  oracle : Oracle.t;
  userText : option string;
  topicId : option string
}.

(** The instance after a sequence of calls, whatever each returned. *)
Definition converse (turns : list Turn) (svc : OpenAIService.t)
    : OpenAIService.t :=
  foldl (fun s turn =>
           (processUserMessage (oracle turn) (userText turn) (topicId turn)
              s).1.1)
    svc turns.

(** The context a reply request carries. *)
Definition context_of (r : Request) : list HistoryEntry :=
  match r with
  | ReplyRequest _ _ context => context
  | AnalyzeRequest _ => []
  end.

End Conversation.

(* ===================================================================== *)
(** ** Vocabulary of the further properties                               *)
(* ===================================================================== *)

Module Patches.

(** The later of two optional settings of a key. *)
Definition later {A} (first second : option A) : option A :=
  match second with
  | Some v => Some v
  | None => first
  end.

(** The patch that does what [first] and then [second] do. *)
Definition overlay (first second : SessionPatch.t) : SessionPatch.t :=
  {| SessionPatch.id :=
       later (SessionPatch.id first) (SessionPatch.id second);
     SessionPatch.userId :=
       later (SessionPatch.userId first) (SessionPatch.userId second);
     SessionPatch.startTime :=
       later (SessionPatch.startTime first) (SessionPatch.startTime second);
     SessionPatch.endTime :=
       later (SessionPatch.endTime first) (SessionPatch.endTime second);
     SessionPatch.durationMinutes :=
       later (SessionPatch.durationMinutes first)
         (SessionPatch.durationMinutes second);
     SessionPatch.messagesCount :=
       later (SessionPatch.messagesCount first)
         (SessionPatch.messagesCount second);
     SessionPatch.correctionsCount :=
       later (SessionPatch.correctionsCount first)
         (SessionPatch.correctionsCount second);
     SessionPatch.accuracyScore :=
       later (SessionPatch.accuracyScore first)
         (SessionPatch.accuracyScore second);
     SessionPatch.topicId :=
       later (SessionPatch.topicId first) (SessionPatch.topicId second);
     SessionPatch.isActive :=
       later (SessionPatch.isActive first) (SessionPatch.isActive second) |}.

(** The updates that end a session at time [at]. *)
Definition ending (at_time : Z) : SessionPatch.t :=
  {| SessionPatch.id := None; SessionPatch.userId := None;
     SessionPatch.startTime := None;
     SessionPatch.endTime := Some (Some at_time);
     SessionPatch.durationMinutes := None;
     SessionPatch.messagesCount := None;
     SessionPatch.correctionsCount := None;
     SessionPatch.accuracyScore := None;
     SessionPatch.topicId := None;
     SessionPatch.isActive := Some (Some false) |}.

End Patches.

(** Further inputs on which statements are exercised. *)
Module MoreSamples.

(** A store with the session [session-1] of the scenario draft. *)
Definition one_session : MemStorage.t :=
  (MemStorage.createSession "session-1" 1000 Samples.travel_draft
     MemStorage.empty).1.

Definition hello_message : InsertMessage.t :=
  {| InsertMessage.sessionId := "session-1";
     InsertMessage.type := user;
     InsertMessage.content := Some "I want talk about travel";
     InsertMessage.audioUrl := None;
     InsertMessage.corrections := None;
     InsertMessage.metadata := None |}.

(** The same store after that message has been posted at time 1001, and
    the draft of an answer to it. *)
Definition one_message : MemStorage.t :=
  (MemStorage.createMessage "message-1" 1001 hello_message one_session).1.

Definition answer_message : InsertMessage.t :=
  {| InsertMessage.sessionId := "session-1";
     InsertMessage.type := bot;
     InsertMessage.content := Some "Where would you like to go?";
     InsertMessage.audioUrl := None;
     InsertMessage.corrections := Some [];
     InsertMessage.metadata := None |}.

End MoreSamples.

Module ProgressSamples.

(** The record a first update with an empty patch creates for [guest]. *)
Definition fresh_guest : gmap string UserProgress.t :=
  (ProgressStore.updateUserProgress "progress-1" "guest" ProgressPatch.empty
     ∅).1.

(** A patch that records a streak of three days. *)
Definition streak_of_three : ProgressPatch.t :=
  {| ProgressPatch.id := None;
     ProgressPatch.userId := None;
     ProgressPatch.totalSessions := None;
     ProgressPatch.totalMinutes := None;
     ProgressPatch.streak := Some (Some 3);
     ProgressPatch.lastSessionDate := None;
     ProgressPatch.avgAccuracy := None;
     ProgressPatch.achievements := None |}.

End ProgressSamples.

Module ConversationSamples.
Import Conversation.

(** Six calls in a row: the provider answers four, then is down for one,
    then answers again. *)
Definition say (o : Oracle.t) (s : string) : Turn :=
  {| oracle := o; userText := Some s; topicId := None |}.

Definition six_turns : list Turn :=
  [ say Samples.answering "one"; say Samples.answering "two";
    say Samples.answering "three"; say Samples.answering "four";
    say Samples.unreachable "five"; say Samples.answering "six" ].

End ConversationSamples.

(* ===================================================================== *)
(** ** Vocabulary of the relay's further properties                       *)
(* ===================================================================== *)

Module RelayVocabulary.
Import WebSocketService.

(** Every run of the computation relates the state before to the state
    after, thrown or not. *)
Definition preserves {A} (R : t -> t -> Prop) (m : M A) : Prop :=
  forall w, R w (m w).1.

(** From [w] to [w'] the relay has at most sent on the socket [ws]: its
    two maps are as they were, every other socket is as it was, and [ws]
    has kept its state and has been sent further frames, none at all
    unless it is open. *)
Definition quiet (ws : nat) (w w' : t) : Prop :=
  connections w' = connections w
  /\ sessions w' = sessions w
  /\ (forall other, other <> ws -> sockets w' !! other = sockets w !! other)
  /\ match sockets w !! ws with
     | Some sock =>
         exists new,
           sockets w' !! ws
           = Some {| readyState := readyState sock;
                     sent := (sent sock ++ new)%list |}
           /\ (readyState sock <> OPEN -> new = [])
     | None => sockets w' !! ws = None
     end.

(** The fields of a session that a turn does not touch. *)
Definition same_identity (s s' : Session.t) : Prop :=
  Session.id s' = Session.id s
  /\ Session.userId s' = Session.userId s
  /\ Session.startTime s' = Session.startTime s
  /\ Session.endTime s' = Session.endTime s
  /\ Session.durationMinutes s' = Session.durationMinutes s
  /\ Session.topicId s' = Session.topicId s
  /\ Session.isActive s' = Session.isActive s.

(** From [w] to [w'] the store has served a turn of the session [sid]:
    the same sessions are stored, all but [sid] unchanged and [sid] with
    its identity; no message has been removed, and every message that is
    new belongs to [sid]; the provider has only received further
    requests. *)
Definition stores_for (sid : string) (w w' : t) : Prop :=
  (forall k s', MemStorage.getSession k (storage w') = Some s' ->
     exists s, MemStorage.getSession k (storage w) = Some s
               /\ same_identity s s' /\ (k <> sid -> s' = s))
  /\ (forall k, is_Some (MemStorage.getSession k (storage w)) ->
        is_Some (MemStorage.getSession k (storage w')))
  /\ (forall m, In m (JsMap.values (MemStorage.messages (storage w'))) ->
        In m (JsMap.values (MemStorage.messages (storage w)))
        \/ Message.sessionId m = sid)
  /\ (length (MemStorage.messages (storage w))
      <= length (MemStorage.messages (storage w')))%nat
  /\ exists more, requests w' = (requests w ++ more)%list.

(** The updates [processUserInput] makes to a session. *)
Definition statsPatch (messagesCount correctionsCount accuracy : Number.number)
    : SessionPatch.t :=
  {| SessionPatch.id := None;
     SessionPatch.userId := None;
     SessionPatch.startTime := None;
     SessionPatch.endTime := None;
     SessionPatch.durationMinutes := None;
     SessionPatch.messagesCount := Some (Some messagesCount);
     SessionPatch.correctionsCount := Some (Some correctionsCount);
     SessionPatch.accuracyScore := Some (Some accuracy);
     SessionPatch.topicId := None;
     SessionPatch.isActive := None |}.

(** The bot message [processUserInput] stores for a response. *)
Definition botMessage (sid : string)
    (response : OpenAIService.ConversationResponse) : InsertMessage.t :=
  {| InsertMessage.sessionId := sid;
     InsertMessage.type := bot;
     InsertMessage.content := Some (OpenAIService.reply response);
     InsertMessage.audioUrl := None;
     InsertMessage.corrections := Some (OpenAIService.corrections response);
     InsertMessage.metadata :=
       Some {| md_topicId := None;
               md_encouragement :=
                 Some (OpenAIService.encouragement response);
               md_nextPrompt := OpenAIService.nextPrompt response |} |}.

(** The frames of a turn that succeeds. *)
Definition replyEnvelope (sid : string)
    (response : OpenAIService.ConversationResponse) (now : Z) : Envelope :=
  {| out_type := "text_message";
     out_sessionId := Some sid;
     out_payload :=
       BotPayload (OpenAIService.reply response)
         (OpenAIService.corrections response)
         (OpenAIService.encouragement response)
         (OpenAIService.nextPrompt response) now |}.

Definition correctionEnvelope (sid : string)
    (response : OpenAIService.ConversationResponse) : Envelope :=
  {| out_type := "correction";
     out_sessionId := Some sid;
     out_payload :=
       CorrectionsPayload (OpenAIService.corrections response)
         (OpenAIService.encouragement response) |}.

(** The record of a session that the relay opens: a guest's, started at
    [now], active, not ended, about [topic] when that is a non-empty
    string, and with no duration, counts or score yet (the zeros the
    relay passes are stored as null). *)
Definition guestRecord (id : string) (now : Z) (topic : option string)
    : Session.t :=
  {| Session.id := id;
     Session.userId := Some "guest";
     Session.startTime := Some now;
     Session.endTime := None;
     Session.durationMinutes := None;
     Session.messagesCount := None;
     Session.correctionsCount := None;
     Session.accuracyScore := None;
     Session.topicId :=
       match topic with
       | Some (String c rest) => Some (String c rest)
       | _ => None
       end;
     Session.isActive := Some true |}.

(** The frame that answers audio_start. *)
Definition recordingEnvelope (sid : string) : Envelope :=
  {| out_type := "session_update";
     out_sessionId := None;
     out_payload :=
       StatusPayload "recording" (Some sid)
         "I'm listening! Speak naturally." |}.

(** What [processUserMessage] returns when the reply call resolves. *)
Definition responseOf (o : Oracle.t) (topicId userText : option string)
    (content : option string) : OpenAIService.ConversationResponse :=
  let corrections := OpenAIService.analyzeGrammar (Oracle.grammarCall o) in
  {| OpenAIService.reply :=
       Js.or_default Js.truthy_string content EmptyString;
     OpenAIService.corrections := corrections;
     OpenAIService.encouragement :=
       OpenAIService.generateEncouragement userText corrections
         (Oracle.encouragementIndex o);
     OpenAIService.nextPrompt :=
       OpenAIService.suggestNextPrompt topicId (Oracle.promptIndex o) |}.

(** The text [handleAudioEnd] processes. *)
Definition transcriptOf (message : WSMessage) : string :=
  Js.or_default Js.truthy_string
    (p ← payload message; transcribedText p)
    "I want to practice my English speaking skills.".

(** *** Runs of the server *)

(** What happens to the server: a socket is accepted and its connection
    handler runs; a frame arrives in the closure of a connection; a close
    or error event fires; the library moves a socket to another state. *)
Inductive Event :=
| Connected (connectionId : string) (ws : nat)
| Received (o : Oracle.t) (connectionId : string) (ws : nat)
    (data : option WSMessage)
| Closed (connectionId : string)
| Errored (connectionId : string)
| Moved (ws : nat) (state : ReadyState).

Definition move (ws : nat) (state : ReadyState) (w : t) : t :=
  set_sockets
    (alter (fun sock => {| readyState := state; sent := sent sock |}) ws) w.

Definition step (w : t) (e : Event) : t :=
  match e with
  | Connected c ws => run (on_connection c ws) (accept ws w)
  | Received o c ws data => run (on_message o c ws data) w
  | Closed c => run (on_close c) w
  | Errored c => run (on_error c) w
  | Moved ws state => move ws state w
  end.

(** The server after a sequence of events, from its start. *)
Definition after (events : list Event) : t := foldl step initial events.

(** Every session a connection is mapped to is stored, every stored
    message belongs to a stored session, and every stored session is a
    guest's, is stored under its own id, is active and has no end time. *)
Definition consistent (w : t) : Prop :=
  (forall c sid, sessions w !! c = Some sid ->
     is_Some (MemStorage.getSession sid (storage w)))
  /\ (forall m, In m (JsMap.values (MemStorage.messages (storage w))) ->
        is_Some (MemStorage.getSession (Message.sessionId m) (storage w)))
  /\ (forall k s, MemStorage.getSession k (storage w) = Some s ->
        Session.id s = k
        /\ Session.userId s = Some "guest"
        /\ Session.isActive s = Some true
        /\ Session.endTime s = None).

(** What a frame received for the connection [c] on the socket [ws] may
    have done between [w] and [w']: first, at most, created a session for
    a connection that had none; then sent on one socket and served a turn
    of one session, which is the connection's. *)
Definition outcome (o : Oracle.t) (c : string) (ws : nat)
    (data : option WSMessage) (w w' : t) : Prop :=
  exists w0 sid target,
    quiet target w0 w'
    /\ stores_for sid w0 w'
    /\ (connections w !! c = None \/ connections w !! c = Some ws ->
        target = ws)
    /\ ((w0 = w /\ (sessions w !! c = Some sid \/ storage w' = storage w))
        \/ (exists message,
              data = Some message
              /\ Js.falsy (sessions w !! c) = true
              /\ w0 = Frames.with_new_session o c message w
              /\ sid = Oracle.sessionUuid o)).

End RelayVocabulary.

(** [broadcast(message)] of the relay (websocket.ts). *)
Module Broadcast.
Import WebSocketService.

(** [xs.forEach(f)] for a callback that runs in the relay. *)
Fixpoint forEach {A} (f : A -> M unit) (xs : list A) : M unit :=
  match xs with
  | [] => mret tt
  | x :: rest => f x;; forEach f rest
  end.

(** [this.connections.forEach((ws) => this.sendMessage(ws, message))],
    for the order in which the Map yields its entries. *)
Definition broadcast_over (order : list (string * nat)) (message : Envelope)
    : M unit :=
  forEach (fun entry => sendMessage entry.2 message) order.

(** [broadcast(message)].  A [gmap] does not keep the insertion order the
    JavaScript Map iterates in; [map_to_list] is one enumeration of the
    entries. *)
Definition broadcast (message : Envelope) : M unit := fun w =>
  broadcast_over (map_to_list (connections w)) message w.

(** How often the socket [ws] is met in an enumeration. *)
Definition met (ws : nat) (order : list (string * nat)) : nat :=
  count_occ Nat.eq_dec order.*2 ws.

End Broadcast.

(** The relay and the REST routes in one process ([registerRoutes]). *)
Module Server.
Import WebSocketService RelayVocabulary.

(** What reaches the process: an event of the relay, or a request to one
    of the routes that write the sessions and messages the relay reads.
    The other routes only read them, or write the topics and progress
    maps, and the one-shot conversation route has a conversation service
    of its own. *)
Inductive Call :=
| Relay (e : Event)
| PostSession (uuid : string) (now : Z) (validated : option InsertSession.t)
| PatchSession (id : string) (updates : SessionPatch.t)
| PostMessage (uuid : string) (now : Z) (id : string)
    (validated : option InsertMessage.t).

Definition serve (w : t) (call : Call) : t :=
  match call with
  | Relay e => step w e
  | PostSession uuid now validated =>
      set_storage (RestRoutes.postSession uuid now validated (storage w)).1 w
  | PatchSession id updates =>
      set_storage (RestRoutes.patchSession id updates (storage w)).1 w
  | PostMessage uuid now id validated =>
      set_storage
        (RestRoutes.postMessage uuid now id validated (storage w)).1 w
  end.

(** The server after a sequence of calls, from its start. *)
Definition reached (calls : list Call) : t := foldl serve initial calls.

(** Every session a connection is mapped to is stored. *)
Definition attached (w : t) : Prop :=
  forall c sid,
    sessions w !! c = Some sid ->
    is_Some (MemStorage.getSession sid (storage w)).

End Server.

(** Sums of small counters. *)
Module Counters.

(** [(count || 0) + n] is the exact sum, for these counts and increments. *)
Definition exact_sums (counts increments : list nat) : bool :=
  forallb
    (fun count =>
       forallb
         (fun n =>
            Number.same
              (Number.add
                 (Js.or_default Number.truthy
                    (Some (Number.of_Z (Z.of_nat count))) (Number.of_Z 0))
                 (Number.of_Z (Z.of_nat n)))
              (Number.of_Z (Z.of_nat count + Z.of_nat n)))
         increments)
    counts.

End Counters.

Module RelaySamples.
Import WebSocketService.

Definition start_envelope : WSMessage :=
  {| type := "audio_start";
     payload := Some {| text := None; transcribedText := None;
                        topicId := Some "hobbies" |};
     sessionId := None |}.

(** An audio_end frame without transcript. *)
Definition end_envelope : WSMessage :=
  {| type := "audio_end"; payload := None; sessionId := None |}.

(** A text_message frame whose payload has no text. *)
Definition textless_envelope : WSMessage :=
  {| type := "text_message";
     payload := Some {| text := None; transcribedText := None;
                        topicId := None |};
     sessionId := None |}.

(** A second turn of [conn_a], with fresh message ids. *)
Definition second_turn : Oracle.t :=
  {| Oracle.sessionUuid := "session-2";
     Oracle.userMessageUuid := "message-c";
     Oracle.botMessageUuid := "message-d";
     Oracle.sessionNow := 20; Oracle.userMessageNow := 21;
     Oracle.botMessageNow := 22; Oracle.replyNow := 23;
     Oracle.grammarCall :=
       Provider.Resolved
         [ Some (Provider.Json
                   (Provider.ParsedValue (Some [Samples.i_are]))) ];
     Oracle.replyCall := Provider.Resolved [ Some "Nice to hear!" ];
     Oracle.encouragementIndex := 3%nat;
     Oracle.promptIndex := 1%nat |}.

(** [conn_a] connects and sends its first text. *)
Definition opening : list RelayVocabulary.Event :=
  [ RelayVocabulary.Connected "conn_a" 0%nat;
    RelayVocabulary.Received Samples.first_turn "conn_a" 0%nat
      (Some (Samples.text_envelope "Hello")) ].


(** Two clients connect. *)
Definition two_clients : WebSocketService.t :=
  RelayVocabulary.after
    [ RelayVocabulary.Connected "conn_a" 0%nat;
      RelayVocabulary.Connected "conn_b" 1%nat ].

(** An enumeration of the connections of [two_clients], latest first. *)
Definition everyone : list (string * nat) :=
  [ ("conn_b", 1%nat); ("conn_a", 0%nat) ].

End RelaySamples.

(* ===================================================================== *)
(** * Properties                                                          *)
(* ===================================================================== *)

(** ** The accuracy score *)

Module AccuracyFacts.
Import Number Accuracy.

(** An utterance of zero words scores 100, whatever the corrections. *)
Lemma calculateAccuracy_no_words (corrections : number) :
  calculateAccuracy corrections (of_Z 0) = of_Z 100.
Proof. reflexivity. Qed.

(** The example of the specification: ten words, two corrections. *)
Lemma calculateAccuracy_example :
  to_Z (calculateAccuracy (of_Z 2) (of_Z 10)) = Some 80
  /\ accuracy_formula 2 10 = 80.
Proof. split; vm_compute; reflexivity. Qed.

(** A tie that binary64 represents exactly is rounded up, as the formula
    says: one correction in eight words is 87.5, scored 88. *)
Lemma calculateAccuracy_exact_tie :
  to_Z (calculateAccuracy (of_Z 1) (of_Z 8)) = Some 88
  /\ accuracy_formula 1 8 = 88.
Proof. split; vm_compute; reflexivity. Qed.

(** Code and formula agree on every utterance of fewer than forty words
    with up to eighty corrections. *)
Lemma calculateAccuracy_short_utterances (C W : nat) :
  (1 <= W < 40)%nat -> (C <= 80)%nat ->
  to_Z (calculateAccuracy (of_Z (Z.of_nat C)) (of_Z (Z.of_nat W)))
  = Some (accuracy_formula (Z.of_nat C) (Z.of_nat W)).
Proof.
  intros HW HC.
  assert (Hall : agree_on (seq 1 39) (seq 0 81) = true)
    by (vm_compute; reflexivity).
  unfold agree_on in Hall. rewrite forallb_forall in Hall.
  assert (Hin : In W (seq 1 39)) by (apply in_seq; lia).
  specialize (Hall W Hin). rewrite forallb_forall in Hall.
  assert (HinC : In C (seq 0 81)) by (apply in_seq; lia).
  specialize (Hall C HinC). unfold agrees in Hall.
  destruct (to_Z _) as [a|]; [|discriminate].
  apply Z.eqb_eq in Hall. congruence.
Qed.

(** The same score at the end of a whole turn of the relay: forty words
    sent as a text message, seventeen corrections found. *)
Lemma accuracyScore_after_turn :
  Js.split_space_length Samples.forty_words = 40
  /\ Session.accuracyScore
       <$> MemStorage.getSession "session-1"
             (WebSocketService.storage
                (WebSocketService.run
                   (WebSocketService.on_message Samples.seventeen_corrections
                      "conn_a" 0%nat
                      (Some (Samples.text_envelope Samples.forty_words)))
                   Samples.one_connection))
     = Some (Some (of_Z 57)).
Proof. split; vm_compute; reflexivity. Qed.

(** C1.  The accuracy is meant to be
    clamp(round(100 * (1 - C / W)), 0, 100).  At C = 17 corrections in
    W = 40 words the formula gives round(57.5) = 58, while the code,
    computing in binary64, reaches 57.49999999999999 and returns 57. *)
Theorem calculateAccuracy_tie_17_of_40 :
  to_Z (calculateAccuracy (of_Z 17) (of_Z 40)) = Some 57
  /\ accuracy_formula 17 40 = 58
  /\ mul (sub (of_Z 1) (div (of_Z 17) (of_Z 40))) (of_Z 100)
     = S754_finite false 8092405580431359 (-47).
Proof. repeat split; vm_compute; reflexivity. Qed.

End AccuracyFacts.

(** ** The session store *)

Module SortFacts.
Section ByKey.
Context {A : Type} (key : A -> Z).
Local Abbreviation compareKeys := (JsArray.compareKeys key).
Local Abbreviation ascending := (JsArray.ascending key).

Lemma insert_Permutation (x : A) (l : list A) :
  Permutation (JsArray.insert compareKeys x l) (x :: l).
Proof.
  induction l as [|y r IH]; simpl; [reflexivity|].
  destruct (compareKeys x y <=? 0); [reflexivity|].
  rewrite IH. apply perm_swap.
Qed.

Lemma sort_Permutation (l : list A) :
  Permutation (JsArray.sort compareKeys l) l.
Proof.
  induction l as [|x r IH]; simpl; [reflexivity|].
  unfold JsArray.sort in *. simpl.
  rewrite insert_Permutation. now constructor.
Qed.

Lemma insert_ascending (x : A) (l : list A) :
  StronglySorted ascending l ->
  StronglySorted ascending (JsArray.insert compareKeys x l).
Proof.
  induction 1 as [|y r Hr IH Hy]; simpl.
  - repeat constructor.
  - destruct (Z.leb_spec (compareKeys x y) 0) as [Hle|Hgt].
    + constructor; [now constructor|].
      unfold JsArray.compareKeys in Hle.
      constructor; [unfold JsArray.ascending; lia|].
      eapply Forall_impl; [exact Hy|].
      unfold JsArray.ascending. intros a Ha. lia.
    + constructor; [exact IH|].
      rewrite (insert_Permutation x r).
      constructor; [|exact Hy].
      unfold JsArray.compareKeys in Hgt. unfold JsArray.ascending. lia.
Qed.

Lemma sort_ascending (l : list A) :
  StronglySorted ascending (JsArray.sort compareKeys l).
Proof.
  induction l as [|x r IH]; [constructor|].
  unfold JsArray.sort in *. simpl. now apply insert_ascending.
Qed.

End ByKey.
End SortFacts.

Module StoreFacts.
Import MemStorage.

(** What [createSession] stores is what it returns, under the id drawn. *)
Lemma createSession_get (id : string) (now : Z) (d : InsertSession.t)
    (st : t) :
  getSession id (createSession id now d st).1
  = Some (createSession id now d st).2.
Proof. unfold getSession, createSession; simpl. apply lookup_insert_eq. Qed.

Lemma createSession_id (id : string) (now : Z) (d : InsertSession.t)
    (st : t) :
  Session.id (createSession id now d st).2 = id.
Proof. reflexivity. Qed.

(** Other sessions and all messages are left alone. *)
Lemma createSession_frame (id : string) (now : Z) (d : InsertSession.t)
    (st : t) (other : string) :
  other <> id ->
  getSession other (createSession id now d st).1 = getSession other st.
Proof.
  intros Hne. unfold getSession, createSession; simpl.
  now apply lookup_insert_ne.
Qed.

(** C5, as stated, fails twice over.  The draft of the scenario,
    {userId: guest, topicId: travel}, is stored with a null message count,
    not 0; and a draft whose user id is the empty string is stored with a
    null user id. *)
Lemma createSession_not_verbatim :
  (let s := (createSession "session-1" 1000 Samples.travel_draft empty).2 in
   getSession "session-1"
     (createSession "session-1" 1000 Samples.travel_draft empty).1 = Some s
   /\ Session.messagesCount s = None
   /\ Session.messagesCount s <> Some (Number.of_Z 0))
  /\
  (let s := (createSession "session-1" 1000 Samples.anonymous_draft empty).2 in
   getSession "session-1"
     (createSession "session-1" 1000 Samples.anonymous_draft empty).1 = Some s
   /\ InsertSession.userId Samples.anonymous_draft = Some EmptyString
   /\ Session.userId s = None
   /\ Session.userId s <> InsertSession.userId Samples.anonymous_draft).
Proof.
  split; cbv zeta; (split; [apply createSession_get|]);
    simpl; repeat split; discriminate.
Qed.

(** C5, amended.  For every draft whose user id and topic id are absent
    or non-empty, [createSession] followed by [getSession] of the returned
    id yields the record created, with the draft's user id and topic id
    and with the draft's active flag, true when the draft leaves it out.
    The draft {userId: guest, topicId: travel} gives a session with the
    generated id, user id guest, topic id travel and isActive = true. *)
Theorem createSession_then_getSession (id : string) (now : Z)
    (draft : InsertSession.t) (st : t) :
  InsertSession.userId draft <> Some EmptyString ->
  InsertSession.topicId draft <> Some EmptyString ->
  let '(st', created) := createSession id now draft st in
  getSession (Session.id created) st' = Some created
  /\ Session.id created = id
  /\ Session.userId created = InsertSession.userId draft
  /\ Session.topicId created = InsertSession.topicId draft
  /\ Session.isActive created
     = Some (match InsertSession.isActive draft with
             | Some b => b
             | None => true
             end)
  /\ (let '(st2, s) := createSession id now Samples.travel_draft st in
      getSession (Session.id s) st2 = Some s
      /\ Session.id s = id
      /\ Session.userId s = Some "guest"
      /\ Session.topicId s = Some "travel"
      /\ Session.isActive s = Some true).
Proof.
  intros Huser Htopic.
  pose proof (createSession_get id now draft st) as Hget.
  pose proof (createSession_get id now Samples.travel_draft st) as Hget2.
  destruct (createSession id now draft st) as [st' created] eqn:E.
  destruct (createSession id now Samples.travel_draft st) as [st2 s] eqn:E2.
  unfold createSession in E, E2. injection E as <- <-. injection E2 as <- <-.
  simpl in *.
  repeat split; try assumption.
  - destruct (InsertSession.userId draft) as [[|ch u]|];
      [congruence|reflexivity|reflexivity].
  - destruct (InsertSession.topicId draft) as [[|ch u]|];
      [congruence|reflexivity|reflexivity].
Qed.

Lemma createSession_then_getSession_witness :
  InsertSession.userId Samples.travel_draft <> Some EmptyString
  /\ InsertSession.topicId Samples.travel_draft <> Some EmptyString
  /\ (let '(st', created) :=
        createSession "session-1" 1000 Samples.travel_draft empty in
      getSession "session-1" st' = Some created
      /\ Session.userId created = Some "guest"
      /\ Session.topicId created = Some "travel"
      /\ Session.isActive created = Some true).
Proof.
  assert (Hu : InsertSession.userId Samples.travel_draft <> Some EmptyString)
    by (simpl; discriminate).
  assert (Ht : InsertSession.topicId Samples.travel_draft <> Some EmptyString)
    by (simpl; discriminate).
  split; [exact Hu|]. split; [exact Ht|].
  pose proof (createSession_then_getSession "session-1" 1000
                Samples.travel_draft empty Hu Ht) as H.
  destruct (createSession "session-1" 1000 Samples.travel_draft empty)
    as [st' created].
  destruct H as (Hget & Hid & Huser & Htopic & Hactive & _).
  rewrite Hid in Hget. repeat split; assumption.
Defined.

(** C6.  For every session id and every state of the store,
    [getSessionMessages] returns exactly the messages of the store whose
    sessionId is that id (each as often as the store holds it), in
    non-decreasing order of timestamp. *)
Theorem getSessionMessages_sorted (sessionId : string) (st : t) :
  let result := getSessionMessages sessionId st in
  (forall m : Message.t,
     In m result <->
     In m (JsMap.values (messages st)) /\ Message.sessionId m = sessionId)
  /\ Permutation result
       (List.filter (fun m => String.eqb (Message.sessionId m) sessionId)
          (JsMap.values (messages st)))
  /\ StronglySorted
       (fun a b => Message.timestamp a <= Message.timestamp b) result.
Proof.
  cbv zeta. unfold getSessionMessages.
  pose proof (SortFacts.sort_Permutation Message.timestamp
    (List.filter (fun m => String.eqb (Message.sessionId m) sessionId)
       (JsMap.values (messages st)))) as Hperm.
  split; [|split].
  - intros m. split.
    + intros Hin. eapply Permutation_in in Hin; [|exact Hperm].
      apply filter_In in Hin as [Hin Heq].
      split; [exact Hin|now apply String.eqb_eq].
    + intros [Hin Heq]. eapply Permutation_in; [symmetry; exact Hperm|].
      apply filter_In. split; [exact Hin|now apply String.eqb_eq].
  - exact Hperm.
  - apply (SortFacts.sort_ascending Message.timestamp).
Qed.

End StoreFacts.

(** ** The conversation service *)

Module ServiceFacts.
Import Provider OpenAIService Encouragement Faults.

Lemma generateEncouragement_shape (userText : option string)
    (corrections : list GrammarCorrection) (i : nat) :
  generateEncouragement userText corrections i
  = opening (tier_of_count (length corrections))
    ++ element_text encouragements i.
Proof.
  unfold generateEncouragement.
  destruct corrections as [|c1 [|c2 [|c3 more]]]; reflexivity.
Qed.

Lemma element_of_encouragements (i : nat) :
  (i < length encouragements)%nat ->
  In (element_text encouragements i) encouragements.
Proof.
  intros Hi. unfold element_text.
  destruct (encouragements !! i) as [phrase|] eqn:E.
  - apply list_elem_of_In. eapply list_elem_of_lookup_2. exact E.
  - apply lookup_ge_None in E. lia.
Qed.

(** A phrase belongs to one tier only: the openings differ from their
    first letter on. *)
Lemma tier_phrases_apart (t1 t2 : Tier) (phrase : string) :
  In (opening t1 ++ phrase) (tier_phrases t2) -> t2 = t1.
Proof.
  unfold tier_phrases. intros Hin. apply in_map_iff in Hin as [p [Heq _]].
  destruct t1, t2; try reflexivity; simpl in Heq; discriminate.
Qed.

(** C4.  The tier of the encouragement depends on the number of
    corrections alone: with no correction the phrase is one of the
    strongest-praise tier, with one or two it is one of the almost-perfect
    tier, with three or more one of the good-effort tier, and it belongs to
    no other tier.  Which phrase of the tier is said depends on the random
    index only. *)
Theorem generateEncouragement_tier (userText : option string)
    (corrections : list GrammarCorrection) (i : nat) :
  (i < length encouragements)%nat ->
  let said := generateEncouragement userText corrections i in
  (length corrections = 0%nat -> In said (tier_phrases StrongestPraise))
  /\ ((1 <= length corrections <= 2)%nat ->
      In said (tier_phrases AlmostPerfect))
  /\ ((3 <= length corrections)%nat -> In said (tier_phrases GoodEffort))
  /\ (forall t : Tier,
        In said (tier_phrases t) <-> t = tier_of_count (length corrections)).
Proof.
  intros Hi. cbv zeta. rewrite generateEncouragement_shape.
  assert (Hown : In (opening (tier_of_count (length corrections))
                       ++ element_text encouragements i)
                   (tier_phrases (tier_of_count (length corrections)))).
  { unfold tier_phrases.
    apply (in_map (fun phrase => opening _ ++ phrase)).
    now apply element_of_encouragements. }
  repeat split.
  - intros H0. rewrite H0 in *. exact Hown.
  - intros [H1 H2].
    destruct (length corrections) as [|[|[|n]]]; try lia; exact Hown.
  - intros H3.
    destruct (length corrections) as [|[|[|n]]]; try lia; exact Hown.
  - apply tier_phrases_apart.
  - intros ->. exact Hown.
Qed.

Lemma generateEncouragement_tier_witness :
  (3 < length encouragements)%nat
  /\ In (generateEncouragement (Some "I are happy") [Samples.i_are] 3)
       (tier_phrases AlmostPerfect).
Proof.
  assert (Hi : (3 < length encouragements)%nat) by (simpl; lia).
  split; [exact Hi|].
  destruct (generateEncouragement_tier (Some "I are happy") [Samples.i_are]
              3 Hi) as (_ & Hsome & _).
  apply Hsome. simpl; lia.
Defined.

(** Within a tier the phrase follows the random index. *)
Lemma generateEncouragement_varies (userText : option string) :
  generateEncouragement userText [] 0 <> generateEncouragement userText [] 1.
Proof. simpl. discriminate. Qed.

(** A faulty corrections call counts as no correction. *)
Lemma analyzeGrammar_fault (call : Completion GrammarContent) :
  corrections_fault call -> analyzeGrammar call = [].
Proof. destruct 1; reflexivity. Qed.

(** C3.  When the corrections call fails or its output does not parse,
    and the reply call answers, [processUserMessage] returns a response:
    its corrections are the empty list and its reply is the content the
    provider sent (the empty string for an empty content). *)
Theorem processUserMessage_survives_grammar_fault (o : Oracle.t)
    (userText topicId : option string) (svc : OpenAIService.t)
    (content : option string) (rest : list (option string)) :
  corrections_fault (Oracle.grammarCall o) ->
  Oracle.replyCall o = Resolved (content :: rest) ->
  exists svc' sent response,
    processUserMessage o userText topicId svc = (svc', sent, inr response)
    /\ corrections response = []
    /\ reply response = Js.or_default Js.truthy_string content EmptyString.
Proof.
  intros Hfault Hreply. unfold processUserMessage.
  rewrite Hreply. simpl. rewrite (analyzeGrammar_fault _ Hfault).
  eexists _, _, _. repeat split.
Qed.

Lemma processUserMessage_survives_grammar_fault_witness :
  exists svc' sent response,
    processUserMessage Samples.grammar_down (Some "I are happy") None
      OpenAIService.new = (svc', sent, inr response)
    /\ corrections response = []
    /\ reply response = "Nice to hear!".
Proof.
  apply (processUserMessage_survives_grammar_fault Samples.grammar_down
           (Some "I are happy") None OpenAIService.new
           (Some "Nice to hear!") []).
  - simpl. constructor.
  - reflexivity.
Defined.

(** The only way [processUserMessage] fails is a failed reply call, and
    then it fails whatever the corrections call did. *)
Lemma processUserMessage_fails_iff (o : Oracle.t)
    (userText topicId : option string) (svc : OpenAIService.t) :
  reply_fault (Oracle.replyCall o) <->
  exists e, (processUserMessage o userText topicId svc).2 = inl e.
Proof.
  unfold processUserMessage.
  destruct (Oracle.replyCall o) as [|[|content rest]]; simpl; split;
    try (intros _; eexists; reflexivity);
    try (intros _; constructor).
  - inversion 1.
  - intros [e He]. discriminate.
Qed.

End ServiceFacts.

(** ** The one-shot route *)

Module RouteFacts.
Import Routes OpenAIService.

(** C2, as stated, fails: a body whose message is present but empty is
    answered with status 400. *)
Lemma postConversationMessage_empty_message :
  is_Some (message Samples.empty_message_request)
  /\ is_Some (sessionId Samples.empty_message_request)
  /\ status (postConversationMessage Samples.unreachable
               Samples.empty_message_request) = 400
  /\ status (postConversationMessage Samples.answering
               Samples.empty_message_request) = 400.
Proof. repeat split; eexists; reflexivity. Qed.

(** C2, amended.  For every request body whose message and sessionId are
    both present and non-empty, the route answers with status 200: with
    the reply, corrections and encouragement of the processing call when
    it succeeds, and with the canned fallback body, which quotes the
    message and has no corrections, when it fails.  A body whose message
    or sessionId is missing or empty is answered with status 400 and the
    error [Message and sessionId required], whatever the provider would
    have answered. *)
Theorem postConversationMessage_never_fails (o : Oracle.t)
    (req : ConversationRequest) :
  let answer := postConversationMessage o req in
  (forall said sid,
     message req = Some said -> said <> EmptyString ->
     sessionId req = Some sid -> sid <> EmptyString ->
     status answer = 200
     /\ match (processUserMessage o (Some said) None OpenAIService.new).2 with
        | inl _ =>
            body answer
            = ReplyBody
                ("Thank you for saying: "
                 ++ String "034"%char
                      (said
                       ++ String "034"%char
                            ". That's excellent English practice!"))
                [] "Keep practicing - you're doing great!"
        | inr response =>
            body answer
            = ReplyBody (reply response) (corrections response)
                (encouragement response)
        end)
  /\ (message req = None \/ message req = Some EmptyString
      \/ sessionId req = None \/ sessionId req = Some EmptyString ->
      status answer = 400
      /\ body answer = ErrorBody "Message and sessionId required").
Proof.
  cbv zeta. unfold postConversationMessage. split.
  - intros said sid Hm Hsaid Hs Hsid. rewrite Hm, Hs.
    destruct said as [|c said]; [contradiction|].
    destruct sid as [|c' sid]; [contradiction|]. simpl.
    destruct (processUserMessage o (Some (String c said)) None
                OpenAIService.new) as [[svc sent] [e|response]]; simpl;
      (split; [reflexivity|]); [|reflexivity].
    unfold fallback. rewrite Hm. reflexivity.
  - intros [Hm|[Hm|[Hs|Hs]]]; rewrite ?Hm, ?Hs; simpl;
      rewrite ?orb_true_r; split; reflexivity.
Qed.

Lemma postConversationMessage_never_fails_witness :
  status (postConversationMessage Samples.unreachable Samples.hello_request)
  = 200
  /\ body (postConversationMessage Samples.unreachable
             Samples.hello_request)
     = ReplyBody
         ("Thank you for saying: "
          ++ String "034"%char
               ("Hello there"
                ++ String "034"%char ". That's excellent English practice!"))
         [] "Keep practicing - you're doing great!"
  /\ status (postConversationMessage Samples.answering
               Samples.empty_message_request) = 400.
Proof.
  destruct (postConversationMessage_never_fails Samples.unreachable
              Samples.hello_request) as [Hok _].
  destruct (Hok "Hello there" "demo-session" eq_refl ltac:(discriminate)
              eq_refl ltac:(discriminate)) as [Hstatus Hbody].
  destruct (postConversationMessage_never_fails Samples.answering
              Samples.empty_message_request) as [_ Hbad].
  split; [exact Hstatus|]. split; [exact Hbody|].
  exact (proj1 (Hbad (or_intror (or_introl eq_refl)))).
Defined.

End RouteFacts.

(** ** The relay *)

Module RelayFacts.
Import WebSocketService Envelopes Frames Faults.

Ltac unfold_m :=
  unfold mbind, M_bind, mret, M_ret, gets, modify, throw, try_catch;
  cbn beta iota.

(** *** Sending *)

Lemma sendMessage_open (ws : nat) (e : Envelope) (w : t) (sock : WebSocket) :
  sockets w !! ws = Some sock -> readyState sock = OPEN ->
  sendMessage ws e w
  = (set_sockets <[ws := {| readyState := OPEN;
                            sent := (sent sock ++ [e])%list |}]> w, inr tt).
Proof.
  intros Hs Ho. unfold sendMessage. unfold_m. unfold set_sockets at 1.
  rewrite Hs, Ho. reflexivity.
Qed.

Lemma pushed_insert (ws r0 : nat) (sock : WebSocket) (w : t) :
  pushed r0 (set_sockets <[ws := sock]> w)
  = if decide (ws = r0) then sent sock else pushed r0 w.
Proof.
  unfold pushed, set_sockets; simpl. rewrite lookup_insert.
  destruct (decide (ws = r0)); reflexivity.
Qed.

(** What any [sendMessage] leaves alone, and the most it can add. *)
Lemma sendMessage_effects (ws : nat) (e : Envelope) (w : t) :
  exists w',
    sendMessage ws e w = (w', inr tt)
    /\ connections w' = connections w
    /\ sessions w' = sessions w
    /\ storage w' = storage w
    /\ openaiService w' = openaiService w
    /\ requests w' = requests w
    /\ forall r0, exists new,
         pushed r0 w' = (pushed r0 w ++ new)%list /\ (new = [] \/ new = [e]).
Proof.
  unfold sendMessage. unfold_m. eexists. split; [reflexivity|].
  repeat split.
  intros r0. unfold pushed, set_sockets; simpl.
  destruct (sockets w !! ws) as [sock|] eqn:Hs.
  - destruct (ReadyState_eqb (readyState sock) OPEN).
    + rewrite lookup_insert. destruct (decide (ws = r0)) as [<-|Hne].
      * rewrite Hs. simpl. exists [e]. auto.
      * simpl. exists []. rewrite app_nil_r. auto.
    + exists []. rewrite app_nil_r. auto.
  - exists []. rewrite app_nil_r. auto.
Qed.

(** *** Turns compose *)

Lemma turn_of_refl (sid : string) (w : t) : turn_of sid w w.
Proof.
  repeat split; auto. intros r0. exists []. rewrite app_nil_r. auto.
Qed.

Lemma turn_of_trans (sid : string) (w1 w2 w3 : t) :
  turn_of sid w1 w2 -> turn_of sid w2 w3 -> turn_of sid w1 w3.
Proof.
  intros (Hc & Hs & Hst & Hk & Hp) (Hc' & Hs' & Hst' & Hk' & Hp').
  repeat split; try congruence.
  - intros k Hne. rewrite Hst', Hst; auto.
  - auto.
  - intros r0. destruct (Hp r0) as (n1 & E1 & F1).
    destruct (Hp' r0) as (n2 & E2 & F2).
    exists (n1 ++ n2)%list. rewrite E2, E1, app_assoc. split; [reflexivity|].
    apply Forall_app; auto.
Qed.

Lemma keeps_ret {A} (sid : string) (a : A) : keeps sid (mret a).
Proof. intros w. apply turn_of_refl. Qed.

Lemma keeps_throw {A} (sid : string) (e : Error) : keeps sid (@throw A e).
Proof. intros w. apply turn_of_refl. Qed.

Lemma keeps_gets {A} (sid : string) (f : t -> A) : keeps sid (gets f).
Proof. intros w. apply turn_of_refl. Qed.

Lemma keeps_bind {A B} (sid : string) (m : M A) (k : A -> M B) :
  keeps sid m -> (forall a, keeps sid (k a)) -> keeps sid (m ≫= k).
Proof.
  intros Hm Hk w. unfold mbind, M_bind. specialize (Hm w).
  destruct (m w) as [w' [e|a]]; simpl in *; [exact Hm|].
  eapply turn_of_trans; [exact Hm|apply Hk].
Qed.

Lemma keeps_try {A} (sid : string) (body : M A) (handler : Error -> M A) :
  keeps sid body -> (forall e, keeps sid (handler e)) ->
  keeps sid (try_catch body handler).
Proof.
  intros Hm Hk w. unfold try_catch. specialize (Hm w).
  destruct (body w) as [w' [e|a]]; simpl in *; [|exact Hm].
  eapply turn_of_trans; [exact Hm|apply Hk].
Qed.

Lemma keeps_send (sid : string) (ws : nat) (e : Envelope) :
  only_about sid e -> keeps sid (sendMessage ws e).
Proof.
  intros He w. destruct (sendMessage_effects ws e w)
    as (w' & E & Hc & Hs & Hst & _ & _ & Hp).
  rewrite E; simpl. repeat split; try congruence.
  intros r0. destruct (Hp r0) as (new & Hn & [->| ->]).
  - exists []. auto.
  - exists [e]. auto.
Qed.

Lemma keeps_error (sid : string) (ws : nat) (msg : string) :
  keeps sid (sendError ws msg).
Proof. apply keeps_send. intros x []. Qed.

Lemma keeps_createMessage (sid id : string) (now : Z) (d : InsertMessage.t) :
  keeps sid (storage_createMessage id now d).
Proof.
  intros w. unfold storage_createMessage; simpl.
  repeat split; auto. intros r0. exists []. rewrite app_nil_r. auto.
Qed.

Lemma keeps_getSession (sid k : string) : keeps sid (storage_getSession k).
Proof. apply keeps_gets. Qed.

Lemma keeps_updateSession (sid : string) (updates : SessionPatch.t) :
  keeps sid (storage_updateSession sid updates).
Proof.
  intros w. unfold storage_updateSession, MemStorage.updateSession.
  unfold turn_of, MemStorage.getSession.
  destruct (MemStorage.sessions (storage w) !! sid) eqn:E; simpl.
  - repeat split.
    + intros k Hne. now rewrite lookup_insert_ne.
    + intros k Hk. rewrite lookup_insert. case_decide; eauto.
    + intros r0. exists []. rewrite app_nil_r. auto.
  - repeat split; auto. intros r0. exists []. rewrite app_nil_r. auto.
Qed.

Lemma keeps_openai (sid : string) (o : Oracle.t)
    (userText topic : option string) :
  keeps sid (openai_processUserMessage o userText topic).
Proof.
  intros w. unfold openai_processUserMessage.
  destruct (OpenAIService.processUserMessage _ _ _ _) as [[svc sent_now] r].
  simpl. repeat split; auto. intros r0. exists []. rewrite app_nil_r. auto.
Qed.

Lemma keeps_accuracyOf (sid : string) cs (userText : option string) :
  keeps sid (accuracyOf cs userText).
Proof. destruct userText; [apply keeps_ret|apply keeps_throw]. Qed.

Lemma returns_try {A} (body : M A) (handler : Error -> M A) :
  (forall e, returns (handler e)) -> returns (try_catch body handler).
Proof.
  intros H w. unfold try_catch. destruct (body w) as [w' [e|a]]; simpl.
  - apply H.
  - eauto.
Qed.

Lemma returns_send (ws : nat) (e : Envelope) : returns (sendMessage ws e).
Proof. intros w. exists tt. reflexivity. Qed.

(** [processUserInput] always returns, and stays within a turn of the
    session it was called for. *)
Lemma processUserInput_returns o cid sid userText topic :
  returns (processUserInput o cid sid userText topic).
Proof.
  intros w. unfold processUserInput. unfold mbind at 1. unfold M_bind, gets.
  destruct (connections w !! cid); [|exists tt; reflexivity].
  apply returns_try. intros e. apply returns_send.
Qed.

Lemma processUserInput_keeps o cid sid userText topic :
  keeps sid (processUserInput o cid sid userText topic).
Proof.
  unfold processUserInput.
  apply keeps_bind; [apply keeps_gets|]. intros [ws|]; [|apply keeps_ret].
  apply keeps_try; [|intros; apply keeps_error].
  apply keeps_bind; [apply keeps_createMessage|]. intros _.
  apply keeps_bind; [apply keeps_openai|]. intros response.
  cbv zeta.
  apply keeps_bind; [apply keeps_createMessage|]. intros _.
  apply keeps_bind; [apply keeps_getSession|]. intros session.
  apply keeps_bind.
  { destruct session as [session|]; [|apply keeps_ret].
    apply keeps_bind; [apply keeps_accuracyOf|]. intros accuracy.
    apply keeps_bind; [apply keeps_updateSession|]. intros _. apply keeps_ret. }
  intros _.
  apply keeps_bind.
  { apply keeps_send. intros x [<-|[]]. reflexivity. }
  intros _. destruct (0 <? _)%nat; [|apply keeps_ret].
  apply keeps_send. intros x [<-|[]]. reflexivity.
Qed.


(** *** Dispatch *)

Lemma not_handled (tag : string) :
  ~ In tag handled_tags ->
  String.eqb tag "audio_start" = false
  /\ String.eqb tag "audio_chunk" = false
  /\ String.eqb tag "audio_end" = false
  /\ String.eqb tag "text_message" = false.
Proof.
  intros Hn. unfold handled_tags in Hn. simpl in Hn.
  repeat split; apply String.eqb_neq; intros ->; apply Hn; auto 6.
Qed.

(** [handleMessage] on an open, registered connection: dispatch inside the
    [try]. *)
Lemma handleMessage_open o cid message w ws sock :
  connections w !! cid = Some ws -> sockets w !! ws = Some sock ->
  readyState sock = OPEN ->
  handleMessage o cid message w
  = try_catch
      (if String.eqb (type message) "audio_start" then
         handleAudioStart o cid message
       else if String.eqb (type message) "audio_chunk" then
         handleAudioChunk cid message
       else if String.eqb (type message) "audio_end" then
         handleAudioEnd o cid message
       else if String.eqb (type message) "text_message" then
         handleTextMessage o cid message
       else sendError ws "Unknown message type")
      (fun error => sendError ws "Failed to process message") w.
Proof.
  intros Hc Hs Ho. unfold handleMessage.
  unfold mbind at 1 2. unfold M_bind, gets. rewrite Hc. simpl.
  rewrite Hs, Ho. reflexivity.
Qed.

(** [handleMessage] returns on every envelope: its [catch] only sends. *)
Lemma handleMessage_returns o cid message :
  returns (handleMessage o cid message).
Proof.
  intros w. unfold handleMessage. unfold mbind at 1 2. unfold M_bind, gets.
  destruct (connections w !! cid) as [ws|]; [|exists tt; reflexivity].
  destruct (negb _); [exists tt; reflexivity|].
  apply returns_try. intros e. apply returns_send.
Qed.

Lemma on_message_parsed o cid ws message w :
  on_message o cid ws (Some message) w = handleMessage o cid message w.
Proof.
  unfold on_message, try_catch.
  destruct (handleMessage_returns o cid message w) as [a Ha].
  destruct (handleMessage o cid message w) as [w' r]. simpl in Ha.
  subst r. reflexivity.
Qed.


(** C7.  An envelope whose tag is none of audio_start, audio_chunk,
    audio_end and text_message, arriving on a registered connection whose
    socket is open, is answered with the error status update
    [Unknown message type] on that socket and with nothing else: the
    store, the conversation service, the provider log and both maps of the
    relay are as before, the socket is still open and still registered,
    and no other socket is touched. *)
Theorem unknown_tag_rejected (o : Oracle.t) (w : t) (connectionId : string)
    (ws : nat) (sock : WebSocket) (message : WSMessage) :
  connections w !! connectionId = Some ws ->
  sockets w !! ws = Some sock ->
  readyState sock = OPEN ->
  ~ In (type message) handled_tags ->
  let w' := run (on_message o connectionId ws (Some message)) w in
  pushed ws w'
  = (pushed ws w
     ++ [{| out_type := "session_update"; out_sessionId := None;
            out_payload :=
              StatusPayload "error" None "Unknown message type" |}])%list
  /\ storage w' = storage w
  /\ openaiService w' = openaiService w
  /\ requests w' = requests w
  /\ sessions w' = sessions w
  /\ connections w' = connections w
  /\ readyState <$> sockets w' !! ws = Some OPEN
  /\ (forall other, other <> ws -> sockets w' !! other = sockets w !! other).
Proof.
  intros Hc Hs Ho Htag. cbv zeta. unfold run.
  rewrite on_message_parsed, (handleMessage_open _ _ _ _ _ _ Hc Hs Ho).
  destruct (not_handled _ Htag) as (-> & -> & -> & ->).
  unfold try_catch, sendError. rewrite (sendMessage_open _ _ _ _ Hs Ho). simpl.
  repeat split.
  - rewrite pushed_insert. rewrite decide_True by reflexivity.
    simpl. unfold pushed. now rewrite Hs.
  - now rewrite lookup_insert_eq.
  - intros other Hne. now rewrite lookup_insert_ne.
Qed.

Lemma unknown_tag_rejected_witness :
  connections Samples.one_connection !! "conn_a" = Some 0%nat
  /\ ~ In (type (Samples.tagged "session_update")) handled_tags
  /\ pushed 0%nat
       (run (on_message Samples.answering "conn_a" 0%nat
               (Some (Samples.tagged "session_update")))
          Samples.one_connection)
     = [ welcome;
         {| out_type := "session_update"; out_sessionId := None;
            out_payload :=
              StatusPayload "error" None "Unknown message type" |} ].
Proof.
  assert (Hc : connections Samples.one_connection !! "conn_a" = Some 0%nat)
    by (vm_compute; reflexivity).
  assert (Hs : sockets Samples.one_connection !! 0%nat
               = Some {| readyState := OPEN; sent := [welcome] |})
    by (vm_compute; reflexivity).
  assert (Ht : ~ In (type (Samples.tagged "session_update")) handled_tags).
  { simpl. intros [H|[H|[H|[H|[]]]]]; discriminate H. }
  split; [exact Hc|]. split; [exact Ht|].
  destruct (unknown_tag_rejected Samples.answering Samples.one_connection
              "conn_a" 0%nat _ (Samples.tagged "session_update")
              Hc Hs eq_refl Ht) as [Hpushed _].
  rewrite Hpushed. vm_compute. reflexivity.
Defined.

(** An unparseable frame is answered the same way. *)
Lemma unparseable_rejected (o : Oracle.t) (w : t) (connectionId : string)
    (ws : nat) (sock : WebSocket) :
  sockets w !! ws = Some sock ->
  readyState sock = OPEN ->
  let w' := run (on_message o connectionId ws None) w in
  pushed ws w' = (pushed ws w ++ [errorEnvelope "Invalid message format"])%list
  /\ storage w' = storage w
  /\ sessions w' = sessions w
  /\ connections w' = connections w.
Proof.
  intros Hs Ho. cbv zeta. unfold run, on_message, try_catch, throw, sendError.
  rewrite (sendMessage_open _ _ _ _ Hs Ho). simpl. repeat split.
  rewrite pushed_insert. rewrite decide_True by reflexivity.
  simpl. unfold pushed. now rewrite Hs.
Qed.

(** C10.  An audio_end envelope on a connection that has no session
    changes nothing at all: no session is created, no message is stored,
    no request goes to the provider and nothing is sent on any socket.  A
    text_message in the same situation, on an open connection, does create
    a session first (see [text_message_new_session] below). *)
Theorem audio_end_without_session (o : Oracle.t) (w : t)
    (connectionId : string) (ws : nat) (message : WSMessage) :
  type message = "audio_end" ->
  sessions w !! connectionId = None ->
  on_message o connectionId ws (Some message) w = (w, inr tt).
Proof.
  intros Htag Hnone. rewrite on_message_parsed.
  unfold handleMessage. unfold mbind at 1 2. unfold M_bind, gets.
  destruct (connections w !! connectionId) as [r|] eqn:Hc; [|reflexivity].
  destruct (negb _); [reflexivity|].
  rewrite Htag. simpl. unfold try_catch, handleAudioEnd.
  unfold mbind at 1 2. unfold M_bind, gets. rewrite Hc, Hnone. reflexivity.
Qed.

Lemma audio_end_without_session_witness :
  sessions Samples.one_connection !! "conn_a" = None
  /\ on_message Samples.answering "conn_a" 0%nat
       (Some (Samples.tagged "audio_end")) Samples.one_connection
     = (Samples.one_connection, inr tt).
Proof.
  assert (Hn : sessions Samples.one_connection !! "conn_a" = None)
    by (vm_compute; reflexivity).
  split; [exact Hn|].
  exact (audio_end_without_session Samples.answering Samples.one_connection
           "conn_a" 0%nat (Samples.tagged "audio_end") eq_refl Hn).
Defined.

(** A failed reply call makes [processUserMessage] throw its one error. *)
Lemma processUserMessage_reply_fault o userText topic svc :
  reply_fault (Oracle.replyCall o) ->
  exists svc' sent_now,
    OpenAIService.processUserMessage o userText topic svc
    = (svc', sent_now, inl (MkError "Failed to process message with AI")).
Proof.
  intros Hf. unfold OpenAIService.processUserMessage.
  destruct Hf; simpl; eexists _, _; reflexivity.
Qed.

(** C8, as stated, fails.  With the provider unreachable, the turn of
    [conn_a] ends with one more frame on its socket, and that frame is the
    error status update, not a reply envelope: no reply is substituted. *)
Lemma reply_failure_sends_no_reply :
  let before := pushed 0%nat Samples.in_session in
  let after := pushed 0%nat Samples.after_outage in
  after
  = (before
     ++ [{| out_type := "session_update"; out_sessionId := None;
            out_payload :=
              StatusPayload "error" None
                "Failed to process your message. Please try again." |}])%list
  /\ existsb is_reply (drop (length before) after) = false.
Proof. cbv zeta. split; vm_compute; reflexivity. Qed.

(** C8, amended.  When the reply call fails during a turn on a registered,
    open connection, [processUserInput] catches the failure and returns;
    it sends exactly one frame on the originating socket, the canned error
    status update [Failed to process your message. Please try again.],
    which is not a reply envelope.  The user message of the turn has been
    stored; nothing else in the store and neither map of the relay has
    changed. *)
Theorem processUserInput_reply_failure (o : Oracle.t) (w : t)
    (connectionId sessionId : string) (userText topicId : option string)
    (ws : nat) (sock : WebSocket) :
  connections w !! connectionId = Some ws ->
  sockets w !! ws = Some sock ->
  readyState sock = OPEN ->
  reply_fault (Oracle.replyCall o) ->
  exists w',
    processUserInput o connectionId sessionId userText topicId w
    = (w', inr tt)
    /\ pushed ws w'
       = (pushed ws w
          ++ [{| out_type := "session_update"; out_sessionId := None;
                 out_payload :=
                   StatusPayload "error" None
                     "Failed to process your message. Please try again." |}])%list
    /\ is_reply
         ({| out_type := "session_update"; out_sessionId := None;
            out_payload :=
              StatusPayload "error" None
                "Failed to process your message. Please try again." |})
       = false
    /\ storage w'
       = (MemStorage.createMessage (Oracle.userMessageUuid o)
            (Oracle.userMessageNow o)
            (userMessage sessionId userText topicId) (storage w)).1
    /\ sessions w' = sessions w
    /\ connections w' = connections w.
Proof.
  intros Hc Hs Ho Hf.
  destruct (processUserMessage_reply_fault o userText topicId
              (openaiService w) Hf) as (svc' & sent_now & Hfail).
  assert (E : processUserInput o connectionId sessionId userText topicId w
              = sendError ws
                  "Failed to process your message. Please try again."
                  (set_openai svc' sent_now
                     (set_storage
                        (MemStorage.createMessage (Oracle.userMessageUuid o)
                           (Oracle.userMessageNow o)
                           (userMessage sessionId userText topicId)
                           (storage w)).1 w))).
  { unfold processUserInput. unfold_m. rewrite Hc.
    unfold storage_createMessage, openai_processUserMessage. cbn.
    rewrite Hfail. reflexivity. }
  rewrite E. unfold sendError.
  erewrite sendMessage_open; [|exact Hs|exact Ho].
  eexists. split; [reflexivity|]. simpl. repeat split.
  rewrite pushed_insert. rewrite decide_True by reflexivity.
  simpl. unfold pushed. now rewrite Hs.
Qed.


Lemma processUserInput_reply_failure_witness :
  reply_fault (Oracle.replyCall Samples.unreachable)
  /\ exists w',
       processUserInput Samples.unreachable "conn_a" "session-1"
         (Some "I are happy") (Some "travel") Samples.in_session
       = (w', inr tt)
       /\ pushed 0%nat w'
          = (pushed 0%nat Samples.in_session
             ++ [{| out_type := "session_update"; out_sessionId := None;
                    out_payload :=
                      StatusPayload "error" None
                        "Failed to process your message. Please try again." |}])%list.
Proof.
  assert (Hf : reply_fault (Oracle.replyCall Samples.unreachable))
    by (simpl; constructor).
  split; [exact Hf|].
  destruct (processUserInput_reply_failure Samples.unreachable
              Samples.in_session "conn_a" "session-1" (Some "I are happy")
              (Some "travel") 0%nat Samples.socket_a)
    as (w' & Hrun & Hpushed & _); try exact Hf;
    try (vm_compute; reflexivity).
  exists w'. split; [exact Hrun|exact Hpushed].
Defined.

(** *** Connections come and go *)

Lemma on_close_run (c : string) (w : t) :
  on_close c w
  = (set_sessions (delete c) (set_connections (delete c) w), inr tt).
Proof. reflexivity. Qed.

Lemma on_error_run (c : string) (w : t) :
  on_error c w
  = (set_sessions (delete c) (set_connections (delete c) w), inr tt).
Proof. reflexivity. Qed.

Lemma on_connection_run (c : string) (ws : nat) (w : t) :
  on_connection c ws (accept ws w)
  = (set_sockets <[ws := {| readyState := OPEN; sent := [welcome] |}]>
       (set_connections <[c := ws]> (accept ws w)), inr tt).
Proof.
  unfold on_connection. unfold_m.
  rewrite (sendMessage_open ws welcome _ {| readyState := OPEN; sent := [] |});
    [reflexivity| |reflexivity].
  unfold accept, set_connections, set_sockets; simpl.
  apply lookup_insert_eq.
Qed.

Lemma handleTextMessage_new (o : Oracle.t) (cid : string)
    (message : WSMessage) (w : t) (ws : nat) :
  connections w !! cid = Some ws ->
  sessions w !! cid = None ->
  handleTextMessage o cid message w
  = match payload message with
    | None => (with_new_session o cid message w, inl (MkError "TypeError"))
    | Some p =>
        processUserInput o cid (Oracle.sessionUuid o) (text p)
          (payload_topicId message) (with_new_session o cid message w)
    end.
Proof.
  intros Hc Hn. unfold handleTextMessage. unfold_m. rewrite Hc, Hn.
  unfold storage_createSession. cbn.
  destruct (payload message); reflexivity.
Qed.

(** A text message on an open connection without session: a session is
    created under the identifier drawn, and the rest is a turn of it. *)
Lemma text_message_new_session (o : Oracle.t) (cid : string) (ws : nat)
    (sock : WebSocket) (message : WSMessage) (w : t) :
  connections w !! cid = Some ws ->
  sockets w !! ws = Some sock ->
  readyState sock = OPEN ->
  sessions w !! cid = None ->
  type message = "text_message" ->
  exists w',
    on_message o cid ws (Some message) w = (w', inr tt)
    /\ turn_of (Oracle.sessionUuid o) (with_new_session o cid message w) w'.
Proof.
  intros Hc Hs Ho Hn Htag.
  rewrite on_message_parsed, (handleMessage_open _ _ _ _ _ _ Hc Hs Ho), Htag.
  simpl String.eqb. cbv iota. unfold try_catch.
  rewrite (handleTextMessage_new _ _ _ _ _ Hc Hn).
  destruct (payload message) as [p|].
  - pose proof (processUserInput_returns o cid (Oracle.sessionUuid o) (text p)
                  (payload_topicId message) (with_new_session o cid message w))
      as [[] Hr].
    pose proof (processUserInput_keeps o cid (Oracle.sessionUuid o) (text p)
                  (payload_topicId message) (with_new_session o cid message w))
      as Hk.
    destruct (processUserInput _ _ _ _ _ _) as [w' r]. simpl in *. subst r.
    exists w'. split; [reflexivity|exact Hk].
  - pose proof (keeps_error (Oracle.sessionUuid o) ws
                  "Failed to process message"
                  (with_new_session o cid message w)) as Hk.
    destruct (returns_send ws (errorEnvelope "Failed to process message")
                (with_new_session o cid message w)) as [[] Hr].
    unfold sendError in *.
    destruct (sendMessage _ _ _) as [w' r]. simpl in *. subst r.
    exists w'. split; [reflexivity|exact Hk].
Qed.


Lemma handleAudioStart_new (o : Oracle.t) (cid : string)
    (message : WSMessage) (w : t) (ws : nat) :
  connections w !! cid = Some ws ->
  sessions w !! cid = None ->
  handleAudioStart o cid message w
  = sendMessage ws
      {| out_type := "session_update";
         out_sessionId := None;
         out_payload :=
           StatusPayload "recording" (Some (Oracle.sessionUuid o))
             "I'm listening! Speak naturally." |}
      (with_new_session o cid message w).
Proof.
  intros Hc Hn. unfold handleAudioStart. unfold_m. rewrite Hc, Hn.
  unfold storage_createSession. reflexivity.
Qed.

(** Whatever the first envelope on an open connection without session is,
    handling it returns, and it is a turn of the session identifier drawn:
    from the state the connection was in, or from that state with the new
    session, the latter whenever the tag is text_message or audio_start. *)
Lemma first_message_effects (o : Oracle.t) (cid : string) (ws : nat)
    (sock : WebSocket) (message : WSMessage) (w : t) :
  connections w !! cid = Some ws ->
  sockets w !! ws = Some sock ->
  readyState sock = OPEN ->
  sessions w !! cid = None ->
  exists w',
    on_message o cid ws (Some message) w = (w', inr tt)
    /\ (turn_of (Oracle.sessionUuid o) w w'
        \/ turn_of (Oracle.sessionUuid o) (with_new_session o cid message w)
             w')
    /\ (type message = "text_message" \/ type message = "audio_start" ->
        turn_of (Oracle.sessionUuid o) (with_new_session o cid message w) w').
Proof.
  intros Hc Hs Ho Hn.
  destruct (String.eqb_spec (type message) "text_message") as [Htext|Hnt].
  { destruct (text_message_new_session o cid ws sock message w)
      as (w' & Hrun & Hturn); try assumption.
    exists w'. auto. }
  rewrite on_message_parsed, (handleMessage_open _ _ _ _ _ _ Hc Hs Ho).
  unfold try_catch.
  destruct (String.eqb_spec (type message) "audio_start") as [Hstart|Hns].
  { rewrite (handleAudioStart_new _ _ _ _ _ Hc Hn).
    match goal with
    | |- context [sendMessage ws ?e ?w0] =>
        pose proof (keeps_send (Oracle.sessionUuid o) ws e) as Hk;
        destruct (returns_send ws e w0) as [[] Hr];
        specialize (Hk ltac:(intros x [<-|[]]; reflexivity) w0);
        destruct (sendMessage ws e w0) as [w' r]
    end.
    simpl in *. subst r. exists w'. auto. }
  assert (Hrefl : turn_of (Oracle.sessionUuid o) w w) by apply turn_of_refl.
  destruct (String.eqb (type message) "audio_chunk").
  { exists w. split; [reflexivity|]. split; [auto|]. intros [?|?]; congruence. }
  destruct (String.eqb_spec (type message) "audio_end") as [Hend|Hne].
  { unfold handleAudioEnd. unfold_m. rewrite Hc, Hn. simpl.
    exists w. split; [reflexivity|]. split; [auto|]. intros [?|?]; congruence. }
  apply String.eqb_neq in Hnt. rewrite Hnt.
  pose proof (keeps_error (Oracle.sessionUuid o) ws "Unknown message type" w)
    as Hk.
  destruct (returns_send ws (errorEnvelope "Unknown message type") w)
    as [[] Hr].
  unfold sendError in *. destruct (sendMessage _ _ _) as [w' r].
  simpl in *. subst r. exists w'.
  split; [reflexivity|]. split; [auto|].
  apply String.eqb_neq in Hnt. intros [?|?]; congruence.
Qed.

(** A first audio_end or audio_chunk frame does nothing at all. *)
Lemma first_message_idle (o : Oracle.t) (cid : string) (ws : nat)
    (sock : WebSocket) (message : WSMessage) (w : t) :
  connections w !! cid = Some ws ->
  sockets w !! ws = Some sock ->
  readyState sock = OPEN ->
  sessions w !! cid = None ->
  type message = "audio_end" \/ type message = "audio_chunk" ->
  on_message o cid ws (Some message) w = (w, inr tt).
Proof.
  intros Hc Hs Ho Hn Htag.
  rewrite on_message_parsed, (handleMessage_open _ _ _ _ _ _ Hc Hs Ho).
  destruct Htag as [Htag|Htag]; rewrite Htag; simpl String.eqb; cbv iota;
    unfold try_catch.
  - unfold handleAudioEnd. unfold_m. rewrite Hc, Hn. reflexivity.
  - reflexivity.
Qed.

(** C9, as stated, fails.  After [conn_a] has closed and [conn_b] has
    connected, a first audio_end frame that carries a transcript, which is
    a content-bearing message, creates no session: [conn_b] stays without
    session, the store is as it was, no session exists under the id that
    would have been generated, and nothing is sent but the welcome. *)
Lemma reconnect_audio_end_creates_nothing :
  let closed := run (on_close "conn_a") Samples.in_session in
  let connected :=
    run (on_connection "conn_b" 1%nat) (accept 1%nat closed) in
  let answered :=
    run (on_message Samples.answering "conn_b" 1%nat
           (Some Samples.spoken_envelope)) connected in
  type Samples.spoken_envelope = "audio_end"
  /\ (payload Samples.spoken_envelope ≫= transcribedText)
     = Some "I are happy"
  /\ sessions connected !! "conn_b" = None
  /\ sessions answered !! "conn_b" = None
  /\ storage answered = storage Samples.in_session
  /\ MemStorage.getSession (Oracle.sessionUuid Samples.answering)
       (storage answered) = None
  /\ pushed 1%nat answered = [welcome].
Proof. cbv zeta. repeat split; vm_compute; reflexivity. Qed.

(** C9, amended.  Closing a connection, or an error on it, removes its entries
    from the two maps of the relay and nothing else: the store is
    untouched, so the session the connection had is still there with the
    same fields, its active flag included.  A connection that then arrives
    under a brand-new identifier starts without session, and whatever its
    first envelope is, it is not given the old session: the old identifier
    is neither mapped to it nor named in any frame sent to it, and the old
    record stays as it was.  If that envelope is a text_message or an
    audio_start, a session is created under the identifier [randomUUID()]
    returns, which, being fresh, is not the old one, and the connection is
    mapped to it.  If it is an audio_end or an audio_chunk, with or
    without transcript, nothing happens: no session is created. *)
Theorem reconnect_gets_fresh_session (o : Oracle.t) (w : t)
    (c sid : string) (s : Session.t) (c' : string) (ws' : nat)
    (message : WSMessage) :
  sessions w !! c = Some sid ->
  MemStorage.getSession sid (storage w) = Some s ->
  sessions w !! c' = None ->
  MemStorage.getSession (Oracle.sessionUuid o) (storage w) = None ->
  let closed := run (on_close c) w in
  let errored := run (on_error c) w in
  let connected := run (on_connection c' ws') (accept ws' closed) in
  let answered := run (on_message o c' ws' (Some message)) connected in
  (sessions closed = delete c (sessions w)
   /\ connections closed = delete c (connections w)
   /\ storage closed = storage w
   /\ sockets closed = sockets w
   /\ MemStorage.getSession sid (storage closed) = Some s
   /\ errored = closed)
  /\ sessions connected !! c' = None
  /\ sessions answered !! c' <> Some sid
  /\ Forall (fun e => ~ In sid (session_ids e)) (pushed ws' answered)
  /\ MemStorage.getSession sid (storage answered) = Some s
  /\ Oracle.sessionUuid o <> sid
  /\ (type message = "text_message" \/ type message = "audio_start" ->
      sessions answered !! c' = Some (Oracle.sessionUuid o)
      /\ is_Some (MemStorage.getSession (Oracle.sessionUuid o)
                    (storage answered)))
  /\ (type message = "audio_end" \/ type message = "audio_chunk" ->
      answered = connected).
Proof.
  intros Hmap Hstored Hnew Hfresh. cbv zeta.
  assert (Hne : Oracle.sessionUuid o <> sid) by congruence.
  unfold run. rewrite on_error_run, on_close_run. cbn [fst].
  set (closed := set_sessions (delete c) (set_connections (delete c) w)).
  rewrite on_connection_run. cbn [fst].
  set (connected := set_sockets _ (set_connections _ (accept ws' closed))).
  assert (Hnone : sessions connected !! c' = None).
  { unfold connected, closed; simpl.
    destruct (decide (c = c')) as [->|Hcc].
    - apply lookup_delete_eq.
    - rewrite lookup_delete_ne by exact Hcc. exact Hnew. }
  assert (Hpushed : pushed ws' connected = [welcome]).
  { unfold pushed, connected; simpl. now rewrite lookup_insert_eq. }
  assert (Hkept : MemStorage.getSession sid (storage connected) = Some s)
    by exact Hstored.
  set (created := with_new_session o c' message connected).
  assert (Hpushed' : pushed ws' created = [welcome]) by exact Hpushed.
  assert (Hkept' : MemStorage.getSession sid (storage created) = Some s).
  { unfold created, with_new_session, MemStorage.getSession; simpl.
    rewrite lookup_insert_ne by exact Hne. exact Hstored. }
  assert (Hcc : connections connected !! c' = Some ws')
    by (unfold connected; simpl; apply lookup_insert_eq).
  assert (Hss : sockets connected !! ws'
                = Some {| readyState := OPEN; sent := [welcome] |})
    by (unfold connected; simpl; apply lookup_insert_eq).
  pose proof (first_message_idle o c' ws' _ message connected Hcc Hss
                eq_refl Hnone) as Hidle.
  destruct (first_message_effects o c' ws'
              {| readyState := OPEN; sent := [welcome] |} message connected
              Hcc Hss eq_refl Hnone)
    as (answered & Hrun & Heither & Htext).
  rewrite Hrun in Hidle.
  rewrite Hrun. cbn [fst].
  assert (Hsent : forall from,
            pushed ws' from = [welcome] ->
            turn_of (Oracle.sessionUuid o) from answered ->
            Forall (fun e => ~ In sid (session_ids e)) (pushed ws' answered)).
  { intros from Hfrom (_ & _ & _ & _ & Hp).
    destruct (Hp ws') as (new & -> & Hall). rewrite Hfrom.
    apply Forall_app. split.
    - repeat constructor. simpl. tauto.
    - eapply Forall_impl; [exact Hall|]. intros e He Hin.
      apply Hne. symmetry. apply He. exact Hin. }
  assert (Hrecord : forall from,
            MemStorage.getSession sid (storage from) = Some s ->
            turn_of (Oracle.sessionUuid o) from answered ->
            MemStorage.getSession sid (storage answered) = Some s).
  { intros from Hfrom (_ & _ & Hst & _).
    rewrite Hst by (intros ->; apply Hne; reflexivity). exact Hfrom. }
  split; [repeat split; exact Hstored|].
  split; [exact Hnone|].
  split.
  { destruct Heither as [(_ & Hs & _)|(_ & Hs & _)]; rewrite Hs.
    - rewrite Hnone. discriminate.
    - unfold created, with_new_session; simpl. rewrite lookup_insert_eq.
      intros [= E]. exact (Hne E). }
  split; [destruct Heither; eauto|].
  split; [destruct Heither; eauto|].
  split; [exact Hne|].
  split.
  - intros Htag. destruct (Htext Htag) as (_ & Hs & _ & Hk & _).
    split.
    + rewrite Hs. unfold with_new_session; simpl. apply lookup_insert_eq.
    + apply Hk. unfold with_new_session, MemStorage.getSession; simpl.
      rewrite lookup_insert_eq. eauto.
  - intros Htag. specialize (Hidle Htag). now injection Hidle.
Qed.

Lemma reconnect_gets_fresh_session_witness :
  sessions Samples.in_session !! "conn_a" = Some "session-1"
  /\ Session.isActive Samples.session_1 = Some true
  /\ (let closed := run (on_close "conn_a") Samples.in_session in
      let connected :=
        run (on_connection "conn_b" 1%nat) (accept 1%nat closed) in
      let answered :=
        run (on_message Samples.answering "conn_b" 1%nat
               (Some (Samples.text_envelope "I are happy"))) connected in
      sessions answered !! "conn_b" = Some "session-2"
      /\ MemStorage.getSession "session-1" (storage answered)
         = Some Samples.session_1).
Proof.
  assert (Hmap : sessions Samples.in_session !! "conn_a" = Some "session-1")
    by (vm_compute; reflexivity).
  split; [exact Hmap|]. split; [reflexivity|].
  destruct (reconnect_gets_fresh_session Samples.answering
              Samples.in_session "conn_a" "session-1" Samples.session_1
              "conn_b" 1%nat (Samples.text_envelope "I are happy"))
    as (_ & _ & _ & _ & Hold & _ & Hnew & _);
    try (vm_compute; reflexivity).
  cbv zeta. split; [exact (proj1 (Hnew (or_introl eq_refl)))|exact Hold].
Defined.

End RelayFacts.

(* ===================================================================== *)
(** * Further properties                                                  *)
(* ===================================================================== *)

(** ** Maps and sorting *)

Module MapFacts.
Section Map.
Context {V : Type}.

Lemma get_set_eq (k : string) (v : V) (m : JsMap.t V) :
  JsMap.get k (JsMap.set k v m) = Some v.
Proof.
  induction m as [|[k' v'] r IH]; simpl.
  - now rewrite String.eqb_refl.
  - destruct (String.eqb k k') eqn:E; simpl; rewrite ?String.eqb_refl, ?E;
      [reflexivity|exact IH].
Qed.

Lemma get_set_ne (k k' : string) (v : V) (m : JsMap.t V) :
  k <> k' -> JsMap.get k' (JsMap.set k v m) = JsMap.get k' m.
Proof.
  intros Hne. induction m as [|[k0 v0] r IH]; simpl.
  - apply String.eqb_neq in Hne. rewrite String.eqb_sym in Hne.
    now rewrite Hne.
  - destruct (String.eqb k k0) eqn:E; simpl.
    + apply String.eqb_eq in E. subst k0.
      assert (String.eqb k' k = false) as ->
        by (apply String.eqb_neq; congruence).
      reflexivity.
    + destruct (String.eqb k' k0); [reflexivity|exact IH].
Qed.

(** A new key goes last. *)
Lemma set_fresh (k : string) (v : V) (m : JsMap.t V) :
  JsMap.get k m = None -> JsMap.set k v m = (m ++ [(k, v)])%list.
Proof.
  induction m as [|[k' v'] r IH]; simpl; [reflexivity|].
  destruct (String.eqb k k'); [discriminate|].
  intros H. now rewrite IH.
Qed.

End Map.
End MapFacts.

Module StableSortFacts.
Section ByKey.
Context {A : Type} (key : A -> Z).
Local Abbreviation compareKeys := (JsArray.compareKeys key).

Lemma insert_snoc (x last : A) (l : list A) :
  key x <= key last ->
  JsArray.insert compareKeys x (l ++ [last])
  = (JsArray.insert compareKeys x l ++ [last])%list.
Proof.
  intros Hle. induction l as [|y r IH]; simpl.
  - unfold JsArray.compareKeys.
    destruct (Z.leb_spec (key x - key last) 0); [reflexivity|lia].
  - destruct (compareKeys x y <=? 0); [reflexivity|].
    simpl. now rewrite IH.
Qed.

(** An element that is no smaller than all others and comes last stays
    last. *)
Lemma sort_snoc (last : A) (l : list A) :
  Forall (fun x => key x <= key last) l ->
  JsArray.sort compareKeys (l ++ [last])
  = (JsArray.sort compareKeys l ++ [last])%list.
Proof.
  unfold JsArray.sort. induction 1 as [|x r Hx Hr IH]; [reflexivity|].
  simpl. simpl in IH. rewrite IH. now apply insert_snoc.
Qed.

(** Among elements of one key, sorting keeps the order of the input. *)
Lemma insert_same_key (k : Z) (x : A) (l : list A) :
  List.filter (fun a => key a =? k) (JsArray.insert compareKeys x l)
  = List.filter (fun a => key a =? k) (x :: l).
Proof.
  induction l as [|y r IH]; [reflexivity|].
  simpl JsArray.insert. unfold JsArray.compareKeys at 1.
  destruct (Z.leb_spec (key x - key y) 0) as [Hle|Hgt]; [reflexivity|].
  simpl in *. rewrite IH.
  destruct (Z.eqb_spec (key x) k) as [Hx|Hx];
    destruct (Z.eqb_spec (key y) k) as [Hy|Hy]; try reflexivity.
  lia.
Qed.

Lemma sort_same_key (k : Z) (l : list A) :
  List.filter (fun a => key a =? k) (JsArray.sort compareKeys l)
  = List.filter (fun a => key a =? k) l.
Proof.
  unfold JsArray.sort. induction l as [|x r IH]; [reflexivity|].
  simpl foldr. rewrite insert_same_key. simpl. now rewrite IH.
Qed.

End ByKey.
End StableSortFacts.

(** ** The store: updates, active sessions, message order *)

Module StoreMoreFacts.
Import MemStorage.

(** [updateSession] on an id the store does not hold returns undefined
    and leaves the store as it was. *)
Lemma updateSession_missing (id : string) (updates : SessionPatch.t)
    (st : t) :
  getSession id st = None -> updateSession id updates st = (st, None).
Proof. unfold getSession, updateSession. now intros ->. Qed.

Lemma merge_empty (s : Session.t) : merge s SessionPatch.empty = s.
Proof. destruct s; reflexivity. Qed.

Lemma updateSession_effects (id : string) (updates : SessionPatch.t)
    (st : t) (s : Session.t) :
  getSession id st = Some s ->
  getSession id (updateSession id updates st).1 = Some (merge s updates)
  /\ (forall other, other <> id ->
        getSession other (updateSession id updates st).1
        = getSession other st).
Proof.
  unfold getSession, updateSession. intros Hs. rewrite Hs. simpl. split.
  - apply lookup_insert_eq.
  - intros other Hne. now apply lookup_insert_ne.
Qed.

(** X1.  [updateSession] on a stored session returns the merged record
    and stores it under the same id: a later [getSession] yields it; an
    empty patch changes nothing; every other session and every message is
    untouched. *)
Theorem updateSession_then_getSession (id : string)
    (updates : SessionPatch.t) (st : t) (s : Session.t) :
  getSession id st = Some s ->
  let '(st', answer) := updateSession id updates st in
  answer = Some (merge s updates)
  /\ getSession id st' = Some (merge s updates)
  /\ (forall other, other <> id -> getSession other st' = getSession other st)
  /\ messages st' = messages st
  /\ updateSession id SessionPatch.empty st = (st, Some s).
Proof.
  unfold getSession, updateSession. intros Hs. rewrite Hs. simpl.
  repeat split.
  - apply lookup_insert_eq.
  - intros other Hne. now apply lookup_insert_ne.
  - rewrite merge_empty. destruct st as [ss ms]; simpl in *.
    now rewrite insert_id.
Qed.

Lemma updateSession_then_getSession_witness :
  exists s,
    getSession "session-1" MoreSamples.one_session = Some s
    /\ getSession "session-1"
         (updateSession "session-1" (Patches.ending 2000)
            MoreSamples.one_session).1
       = Some (merge s (Patches.ending 2000)).
Proof.
  destruct (getSession "session-1" MoreSamples.one_session) as [s|] eqn:E;
    [|vm_compute in E; discriminate E].
  exists s. split; [reflexivity|].
  pose proof (updateSession_then_getSession "session-1" (Patches.ending 2000)
                MoreSamples.one_session s E) as H.
  destruct (updateSession "session-1" (Patches.ending 2000)
              MoreSamples.one_session) as [st' answer].
  exact (proj1 (proj2 H)).
Defined.

Lemma merge_overlay (s : Session.t) (first second : SessionPatch.t) :
  merge (merge s first) second = merge s (Patches.overlay first second).
Proof.
  destruct s, first, second; unfold merge, Patches.overlay; simpl.
  f_equal;
    match goal with
    | |- default (default _ ?a) ?b = _ => destruct a, b; reflexivity
    end.
Qed.

(** X2.  Two updates of a session in a row leave the store as the single
    update with both patches overlaid, the later winning key by key. *)
Theorem updateSession_twice (id : string) (first second : SessionPatch.t)
    (st : t) :
  updateSession id second (updateSession id first st).1
  = updateSession id (Patches.overlay first second) st.
Proof.
  unfold updateSession.
  destruct (sessions st !! id) as [s|] eqn:E; simpl.
  - rewrite lookup_insert_eq. simpl. rewrite insert_insert_eq.
    now rewrite merge_overlay.
  - now rewrite E.
Qed.

End StoreMoreFacts.

Module ActiveSessionsFacts.
Import MemStorage StoreQueries.

Lemma In_getActiveSessions (st : t) (s : Session.t) :
  In s (getActiveSessions st) <->
  exists id, getSession id st = Some s /\ Session.isActive s = Some true.
Proof.
  unfold getActiveSessions, getSession. rewrite filter_In.
  rewrite <- list_elem_of_In, list_elem_of_fmap.
  split.
  - intros [[[id s'] [-> Hin]] Hact]. apply elem_of_map_to_list in Hin.
    exists id. split; [exact Hin|].
    unfold active in Hact. simpl in *.
    destruct (Session.isActive s') as [[|]|]; congruence.
  - intros [id [Hs Hact]]. split.
    + exists (id, s). split; [reflexivity|]. now apply elem_of_map_to_list.
    + unfold active. now rewrite Hact.
Qed.

(** X3.  [getActiveSessions] returns exactly the stored sessions whose
    active flag is true: a session with a false or null flag is left out,
    and nothing is returned that is not stored. *)
Theorem getActiveSessions_spec (st : t) (s : Session.t) :
  In s (getActiveSessions st) <->
  exists id, getSession id st = Some s /\ Session.isActive s = Some true.
Proof. apply In_getActiveSessions. Qed.

(** X4.  Ending a session with an update that sets its active flag to
    false takes it off the list of active sessions and no other session
    with it, while the record itself stays in the store with its end
    time. *)
Theorem ended_session_not_active (id : string) (at_time : Z) (st : t)
    (s : Session.t) :
  getSession id st = Some s ->
  let st' := (updateSession id (Patches.ending at_time) st).1 in
  (forall s', In s' (getActiveSessions st') <->
     exists id', id' <> id /\ getSession id' st = Some s'
                 /\ Session.isActive s' = Some true)
  /\ (exists ended, getSession id st' = Some ended
                    /\ Session.isActive ended = Some false
                    /\ Session.endTime ended = Some at_time
                    /\ Session.messagesCount ended = Session.messagesCount s).
Proof.
  intros Hs. cbv zeta.
  destruct (StoreMoreFacts.updateSession_effects id (Patches.ending at_time)
              st s Hs) as [Hget Hframe].
  set (st' := (updateSession id (Patches.ending at_time) st).1) in *.
  split.
  - intros s'. rewrite In_getActiveSessions. split.
    + intros [id' [Hs' Hact]]. exists id'.
      destruct (decide (id' = id)) as [->|Hne].
      * rewrite Hget in Hs'. injection Hs' as <-. simpl in Hact.
        discriminate Hact.
      * rewrite Hframe in Hs' by exact Hne. auto.
    + intros [id' (Hne & Hs' & Hact)]. exists id'.
      rewrite Hframe by exact Hne. auto.
  - eexists. split; [exact Hget|]. repeat split.
Qed.

Lemma ended_session_not_active_witness :
  exists s ended,
    getSession "session-1" MoreSamples.one_session = Some s
    /\ getSession "session-1"
         (updateSession "session-1" (Patches.ending 2000)
            MoreSamples.one_session).1 = Some ended
    /\ Session.isActive ended = Some false
    /\ Session.endTime ended = Some 2000.
Proof.
  destruct (getSession "session-1" MoreSamples.one_session) as [s|] eqn:E;
    [|vm_compute in E; discriminate E].
  destruct (ended_session_not_active "session-1" 2000
              MoreSamples.one_session s E)
    as (_ & ended & Hget & Hactive & Hend & _).
  exists s, ended. auto.
Defined.

End ActiveSessionsFacts.

Module MessageOrderFacts.
Import MemStorage.

(** X5.  A message created under a new id, at a time not before any
    message already stored for its session, is read back last in that
    session: the list of the session grows by exactly this message at its
    end.  The lists of all other sessions and the sessions themselves are
    unchanged. *)
Theorem createMessage_read_back_last (id : string) (now : Z)
    (draft : InsertMessage.t) (st : t) :
  JsMap.get id (messages st) = None ->
  (forall m, In m (getSessionMessages (InsertMessage.sessionId draft) st) ->
             Message.timestamp m <= now) ->
  let '(st', created) := createMessage id now draft st in
  getSessionMessages (InsertMessage.sessionId draft) st'
  = (getSessionMessages (InsertMessage.sessionId draft) st ++ [created])%list
  /\ (forall other, other <> InsertMessage.sessionId draft ->
        getSessionMessages other st' = getSessionMessages other st)
  /\ sessions st' = sessions st
  /\ Message.sessionId created = InsertMessage.sessionId draft
  /\ Message.content created = InsertMessage.content draft
  /\ Message.timestamp created = now.
Proof.
  intros Hfresh Hclock. unfold createMessage. cbv zeta.
  set (created := {| Message.id := id |}).
  unfold getSessionMessages in *. simpl.
  rewrite (MapFacts.set_fresh _ _ _ Hfresh).
  unfold JsMap.values. rewrite map_app, List.filter_app. simpl.
  split; [|split; [|repeat split]].
  - rewrite String.eqb_refl.
    apply (StableSortFacts.sort_snoc Message.timestamp created).
    apply List.Forall_forall. intros m Hin. apply Hclock.
    eapply Permutation_in; [|exact Hin].
    symmetry. apply (SortFacts.sort_Permutation Message.timestamp).
  - intros other Hne. subst created. rewrite List.filter_app. simpl.
    assert (String.eqb (InsertMessage.sessionId draft) other = false) as ->
      by (apply String.eqb_neq; congruence).
    now rewrite app_nil_r.
Qed.

(** An answer posted one millisecond after the message already stored for
    the session is read back after it. *)
Lemma createMessage_read_back_last_witness :
  JsMap.get "message-2" (messages MoreSamples.one_message) = None
  /\ Message.timestamp <$> getSessionMessages "session-1"
                             MoreSamples.one_message = [1001]
  /\ (let '(st', created) :=
        createMessage "message-2" 1002 MoreSamples.answer_message
          MoreSamples.one_message in
      Message.content <$> getSessionMessages "session-1" st'
      = [ Some "I want talk about travel";
          Some "Where would you like to go?" ]).
Proof.
  assert (Hfresh : JsMap.get "message-2"
                     (messages MoreSamples.one_message) = None)
    by reflexivity.
  assert (Hstored : exists first,
             getSessionMessages "session-1" MoreSamples.one_message = [first]
             /\ Message.timestamp first = 1001
             /\ Message.content first = Some "I want talk about travel").
  { eexists. split; [vm_compute; reflexivity|]. split; reflexivity. }
  destruct Hstored as (first & Hlist & Htime & Hcontent).
  assert (Hlater : forall m,
             In m (getSessionMessages
                     (InsertMessage.sessionId MoreSamples.answer_message)
                     MoreSamples.one_message) ->
             Message.timestamp m <= 1002).
  { intros m Hin. change (InsertMessage.sessionId MoreSamples.answer_message)
      with "session-1" in Hin.
    rewrite Hlist in Hin. destruct Hin as [<-|[]]. rewrite Htime. lia. }
  split; [exact Hfresh|]. split; [now rewrite Hlist, <- Htime|].
  pose proof (createMessage_read_back_last "message-2" 1002
                MoreSamples.answer_message MoreSamples.one_message
                Hfresh Hlater) as H.
  destruct (createMessage "message-2" 1002 MoreSamples.answer_message
              MoreSamples.one_message) as [st' created].
  destruct H as (Hread & _ & _ & _ & Hcreated & _).
  change (InsertMessage.sessionId MoreSamples.answer_message)
    with "session-1" in Hread.
  rewrite Hread, Hlist. simpl. now rewrite Hcontent, Hcreated.
Defined.

(** X6.  Messages of a session that carry the same timestamp are returned
    in the order in which they were stored: the sort is stable. *)
Theorem getSessionMessages_stable (sessionId : string) (st : t)
    (time : Z) :
  List.filter (fun m => Message.timestamp m =? time)
    (getSessionMessages sessionId st)
  = List.filter (fun m => Message.timestamp m =? time)
      (List.filter (fun m => String.eqb (Message.sessionId m) sessionId)
         (JsMap.values (messages st))).
Proof.
  unfold getSessionMessages.
  apply (StableSortFacts.sort_same_key Message.timestamp).
Qed.

End MessageOrderFacts.

(** ** Topics and progress *)

Module TopicFacts.
Import Topics.

Lemma getTopic_seeded (id : string) :
  getTopic id seeded
  = List.find (fun topic => String.eqb id (ConversationTopic.id topic))
      defaultTopics.
Proof. reflexivity. Qed.

(** X7.  The topics the store is seeded with are the topics the
    conversation service has follow-up prompts for: an id is found by
    [getTopic] exactly when [suggestNextPrompt] knows it.  Every seeded
    topic is active, is listed by [getTopics] and is found under its own
    id; for an id that is not seeded [getTopic] finds nothing, the route
    answers 404 and no next prompt is suggested. *)
Theorem seeded_topics_and_prompts :
  (forall id,
     is_Some (getTopic id seeded)
     <-> is_Some (JsMap.get id OpenAIService.prompts))
  /\ getTopics seeded = defaultTopics
  /\ (forall topic, In topic (getTopics seeded) ->
        getTopic (ConversationTopic.id topic) seeded = Some topic
        /\ forall i, (i < 3)%nat ->
             is_Some (OpenAIService.suggestNextPrompt
                        (Some (ConversationTopic.id topic)) i))
  /\ (forall id i, getTopic id seeded = None ->
        RestRoutes.status (RestRoutes.getTopic id seeded) = 404
        /\ OpenAIService.suggestNextPrompt (Some id) i = None).
Proof.
  assert (Hsame : forall id,
            is_Some (getTopic id seeded)
            <-> is_Some (JsMap.get id OpenAIService.prompts)).
  { intros id. rewrite getTopic_seeded. unfold OpenAIService.prompts.
    simpl.
    repeat match goal with
           | |- context [String.eqb id ?s] => destruct (String.eqb id s)
           end;
      split; intros H; try (eexists; reflexivity);
      destruct H as [? H]; discriminate H. }
  split; [exact Hsame|]. split; [reflexivity|]. split.
  - intros topic Hin.
    assert (Hcases : In topic defaultTopics) by exact Hin.
    simpl in Hcases.
    repeat destruct Hcases as [<-|Hcases]; try contradiction;
      (split; [reflexivity|]);
      intros [|[|[|i]]] Hi; try lia; eexists; reflexivity.
  - intros id i Hnone. split.
    + unfold RestRoutes.getTopic. now rewrite Hnone.
    + unfold OpenAIService.suggestNextPrompt.
      destruct (Js.falsy (Some id)); [reflexivity|]. simpl default.
      destruct (JsMap.get id OpenAIService.prompts) eqn:E; [|reflexivity].
      assert (Hs : is_Some (getTopic id seeded)) by (apply Hsame; eauto).
      rewrite Hnone in Hs. destruct Hs as [? Hs]. discriminate Hs.
Qed.

End TopicFacts.

Module ProgressFacts.
Import ProgressStore.

Lemma spread_empty (record : UserProgress.t) :
  spread record ProgressPatch.empty = record.
Proof. destruct record; reflexivity. Qed.

(** X8.  [updateUserProgress] never fails to find: for every user and
    patch it returns a record and stores it under the user id, so that
    [getUserProgress] yields the record returned; the records of all other
    users are untouched. *)
Theorem updateUserProgress_then_get (uuid userId : string)
    (progress : ProgressPatch.t) (st : gmap string UserProgress.t) :
  let '(st', updated) := updateUserProgress uuid userId progress st in
  getUserProgress userId st' = Some updated
  /\ forall other, other <> userId ->
       getUserProgress other st' = getUserProgress other st.
Proof.
  unfold updateUserProgress, getUserProgress. cbv zeta. split.
  - apply lookup_insert_eq.
  - intros other Hne. now apply lookup_insert_ne.
Qed.

(** X9.  For a user without record, [updateUserProgress] creates one from
    all-zero defaults under the generated id and overlays the patch. *)
Theorem updateUserProgress_creates (uuid userId : string)
    (progress : ProgressPatch.t) (st : gmap string UserProgress.t) :
  getUserProgress userId st = None ->
  (updateUserProgress uuid userId progress st).2
  = spread
      {| UserProgress.id := uuid;
         UserProgress.userId := Some userId;
         UserProgress.totalSessions := Some 0;
         UserProgress.totalMinutes := Some 0;
         UserProgress.streak := Some 0;
         UserProgress.lastSessionDate := None;
         UserProgress.avgAccuracy := Some 0;
         UserProgress.achievements := Some [] |}
      progress.
Proof.
  unfold getUserProgress, updateUserProgress. intros ->. reflexivity.
Qed.

Lemma updateUserProgress_creates_witness :
  getUserProgress "guest" (∅ : gmap string UserProgress.t) = None
  /\ UserProgress.streak
       (updateUserProgress "progress-1" "guest"
          ProgressSamples.streak_of_three ∅).2 = Some 3
  /\ UserProgress.totalMinutes
       (updateUserProgress "progress-1" "guest"
          ProgressSamples.streak_of_three ∅).2 = Some 0.
Proof.
  assert (H : getUserProgress "guest" (∅ : gmap string UserProgress.t) = None)
    by apply lookup_empty.
  split; [exact H|].
  rewrite (updateUserProgress_creates "progress-1" "guest"
             ProgressSamples.streak_of_three ∅ H).
  split; reflexivity.
Defined.

(** X10.  For a user with a record, [updateUserProgress] merges: the
    result is the stored record with the keys of the patch overlaid, the
    generated id plays no part, the record keeps its id unless the patch
    names one, and an empty patch leaves record and store as they are. *)
Theorem updateUserProgress_merges (uuid userId : string)
    (progress : ProgressPatch.t) (st : gmap string UserProgress.t)
    (existing : UserProgress.t) :
  getUserProgress userId st = Some existing ->
  (updateUserProgress uuid userId progress st).2 = spread existing progress
  /\ (ProgressPatch.id progress = None ->
      UserProgress.id (updateUserProgress uuid userId progress st).2
      = UserProgress.id existing)
  /\ (ProgressPatch.streak progress = None ->
      UserProgress.streak (updateUserProgress uuid userId progress st).2
      = UserProgress.streak existing)
  /\ updateUserProgress uuid userId ProgressPatch.empty st = (st, existing).
Proof.
  unfold getUserProgress, updateUserProgress. intros H. rewrite H. simpl.
  repeat split.
  - now intros ->.
  - now intros ->.
  - rewrite spread_empty. f_equal. now apply insert_id.
Qed.

Lemma updateUserProgress_merges_witness :
  exists existing,
    getUserProgress "guest" ProgressSamples.fresh_guest = Some existing
    /\ UserProgress.id
         (updateUserProgress "progress-2" "guest"
            ProgressSamples.streak_of_three ProgressSamples.fresh_guest).2
       = "progress-1".
Proof.
  destruct (getUserProgress "guest" ProgressSamples.fresh_guest)
    as [existing|] eqn:E; [|vm_compute in E; discriminate E].
  exists existing. split; [reflexivity|].
  destruct (updateUserProgress_merges "progress-2" "guest"
              ProgressSamples.streak_of_three ProgressSamples.fresh_guest
              existing E) as (_ & Hid & _).
  rewrite Hid by reflexivity.
  vm_compute in E. injection E as <-. reflexivity.
Defined.

End ProgressFacts.

(** ** The read and merge routes *)

Module RestFacts.
Import RestRoutes.

(** X11.  GET /progress/:userId never answers not-found.  For a user
    without record it creates the zeroed record and answers with it; asked
    again, it answers with the same record and changes nothing, whatever
    id would have been generated. *)
Theorem getProgress_creates_once (uuid uuid' userId : string)
    (st : gmap string UserProgress.t) :
  let '(st1, first) := getProgress uuid userId st in
  let '(st2, second) := getProgress uuid' userId st1 in
  status first = 200
  /\ second = first
  /\ st2 = st1
  /\ (exists record, body first = inl record
                     /\ ProgressStore.getUserProgress userId st1
                        = Some record)
  /\ (ProgressStore.getUserProgress userId st = None ->
      body first
      = inl {| UserProgress.id := uuid;
               UserProgress.userId := Some userId;
               UserProgress.totalSessions := Some 0;
               UserProgress.totalMinutes := Some 0;
               UserProgress.streak := Some 0;
               UserProgress.lastSessionDate := None;
               UserProgress.avgAccuracy := Some 0;
               UserProgress.achievements := Some [] |}).
Proof.
  unfold getProgress at 1. unfold ProgressStore.getUserProgress.
  destruct (st !! userId) as [record|] eqn:E.
  - unfold getProgress, ProgressStore.getUserProgress. rewrite E.
    repeat split; [eauto|discriminate].
  - unfold ProgressStore.updateUserProgress. rewrite E. simpl.
    unfold getProgress, ProgressStore.getUserProgress.
    rewrite lookup_insert_eq.
    repeat split. eexists. split; reflexivity.
Qed.

(** X12.  GET /sessions/:id answers 404 exactly when the store holds no
    session of that id, and otherwise 200 with the stored record.
    PATCH /sessions/:id on such an id answers 404 and leaves the store as
    it is; on a stored session it answers 200 with the merged record, and
    a GET that follows answers with the same body. *)
Theorem session_routes (id : string) (updates : SessionPatch.t)
    (st : MemStorage.t) :
  (status (getSession id st) = 404 <-> MemStorage.getSession id st = None)
  /\ (forall s, MemStorage.getSession id st = Some s ->
        getSession id st = ok s)
  /\ (MemStorage.getSession id st = None ->
      patchSession id updates st = (st, notFound "Session not found"))
  /\ (forall s, MemStorage.getSession id st = Some s ->
        let '(st', answer) := patchSession id updates st in
        answer = ok (MemStorage.merge s updates)
        /\ getSession id st' = answer).
Proof.
  unfold getSession, patchSession, MemStorage.updateSession,
    MemStorage.getSession.
  destruct (MemStorage.sessions st !! id) as [s|] eqn:E; simpl.
  - split; [split; discriminate|]. split; [now intros ? [= ->]|].
    split; [discriminate|]. intros s' [= <-].
    split; [reflexivity|]. now rewrite lookup_insert_eq.
  - split; [split; reflexivity|]. split; [discriminate|].
    split; [reflexivity|discriminate].
Qed.

End RestFacts.

(** ** The conversation service over several turns *)

Module ConversationFacts.
Import Provider OpenAIService Conversation Faults.

Lemma slice_last_length {A} (n : nat) (xs : list A) :
  length (Js.slice_last n xs) = Nat.min n (length xs).
Proof. unfold Js.slice_last. rewrite length_drop. lia. Qed.

Lemma slice_last_all {A} (n : nat) (xs : list A) :
  (length xs <= n)%nat -> Js.slice_last n xs = xs.
Proof.
  intros H. unfold Js.slice_last.
  replace (length xs - n)%nat with 0%nat by lia. reflexivity.
Qed.

Lemma slice_last_snoc {A} (n : nat) (xs : list A) (x : A) :
  Js.slice_last (S n) (xs ++ [x]) = (Js.slice_last n xs ++ [x])%list.
Proof.
  unfold Js.slice_last. rewrite length_app. simpl.
  replace (length xs + 1 - S n)%nat with (length xs - n)%nat by lia.
  rewrite drop_app_le by lia. reflexivity.
Qed.

(** X13.  [processUserMessage] only ever appends to the history of the
    instance: the user's turn always, and the reply after it when the
    reply call succeeded.  A failed call therefore leaves the user's turn
    in the history without an answer.  It fails exactly when the reply
    call does. *)
Theorem processUserMessage_history (o : Oracle.t)
    (userText topicId : option string) (svc : OpenAIService.t) :
  let '(svc', sent, result) := processUserMessage o userText topicId svc in
  let said := {| role := role_user; content := userText |} in
  match result with
  | inr response =>
      conversationHistory svc'
      = (conversationHistory svc
         ++ [ said;
              {| role := role_assistant;
                 content := Some (reply response) |} ])%list
      /\ ~ reply_fault (Oracle.replyCall o)
  | inl e =>
      conversationHistory svc' = (conversationHistory svc ++ [said])%list
      /\ reply_fault (Oracle.replyCall o)
      /\ e = MkError "Failed to process message with AI"
  end.
Proof.
  unfold processUserMessage.
  destruct (Oracle.replyCall o) as [|[|content rest]]; simpl.
  - repeat split. constructor.
  - repeat split. constructor.
  - split; [now rewrite <- app_assoc|]. inversion 1.
Qed.

(** X14.  Each call sends two requests, the analysis of the text and then
    the reply request, whether or not the first one fails.  The context of
    the reply request is the end of the history with the user's turn as
    its last entry: the whole history while that has fewer than ten
    entries, and otherwise its last nine entries and the user's turn, so
    never more than ten and, from then on, without the personality message
    the history starts with. *)
Theorem processUserMessage_context (o : Oracle.t)
    (userText topicId : option string) (svc : OpenAIService.t) :
  let '(svc', sent, result) := processUserMessage o userText topicId svc in
  let said := {| role := role_user; content := userText |} in
  let history := conversationHistory svc in
  exists context,
    sent = [ AnalyzeRequest userText;
             ReplyRequest userText (analyzeGrammar (Oracle.grammarCall o))
               context ]
    /\ context = (Js.slice_last 9 history ++ [said])%list
    /\ (length context <= 10)%nat
    /\ ((length history < 10)%nat -> context = (history ++ [said])%list)
    /\ ((10 <= length history)%nat ->
        length context = 10%nat
        /\ context
           = (drop (length history - 9) history ++ [said])%list).
Proof.
  unfold processUserMessage. cbv zeta.
  set (said := {| role := role_user; content := userText |}).
  set (history := conversationHistory svc).
  assert (Hctx : Js.slice_last 10 (history ++ [said])
                 = (Js.slice_last 9 history ++ [said])%list)
    by apply slice_last_snoc.
  assert (Hlen : length (Js.slice_last 9 history ++ [said])
                 = S (Nat.min 9 (length history))).
  { rewrite length_app, slice_last_length. simpl. lia. }
  destruct (Oracle.replyCall o) as [|[|content rest]]; simpl;
    (eexists; split; [rewrite Hctx; reflexivity|]);
    (split; [reflexivity|]);
    (split; [rewrite Hlen; lia|]);
    (split; [intros Hlt; rewrite slice_last_all by lia; reflexivity|]);
    (intros Hge; split; [rewrite Hlen; lia|reflexivity]).
Qed.

Lemma said_in_context (o : Oracle.t) (userText topicId : option string)
    (svc : OpenAIService.t) :
  exists more,
    conversationHistory (processUserMessage o userText topicId svc).1.1
    = (conversationHistory svc
       ++ {| role := role_user; content := userText |} :: more)%list
    /\ (length more <= 1)%nat.
Proof.
  unfold processUserMessage.
  destruct (Oracle.replyCall o) as [|[|content rest]]; simpl.
  - exists []. auto.
  - exists []. auto.
  - eexists [_]. rewrite <- app_assoc. auto.
Qed.

Lemma converse_appends (turns : list Turn) (svc : OpenAIService.t) :
  exists more,
    conversationHistory (converse turns svc)
    = (conversationHistory svc ++ more)%list.
Proof.
  revert svc. induction turns as [|turn rest IH]; intros svc.
  - exists []. simpl. now rewrite app_nil_r.
  - simpl. destruct (IH (processUserMessage (oracle turn) (userText turn)
                           (topicId turn) svc).1.1) as [more Hmore].
    unfold converse in *. rewrite Hmore.
    destruct (said_in_context (oracle turn) (userText turn) (topicId turn)
                svc) as (grown & -> & _).
    rewrite <- app_assoc. eauto.
Qed.

(** X15.  Whatever calls an instance has served, with whatever outcomes,
    [clearHistory] brings it back to the state of a new instance: only the
    personality message is left. *)
Theorem clearHistory_restores (turns : list Turn) :
  clearHistory (converse turns OpenAIService.new) = OpenAIService.new.
Proof.
  destruct (converse_appends turns OpenAIService.new) as [more Hmore].
  unfold clearHistory. rewrite Hmore. reflexivity.
Qed.

(** After the six sample calls the history holds twelve entries, and a
    seventh call sends the last nine of them with the user's turn. *)
Lemma processUserMessage_context_sample :
  length (conversationHistory
            (converse ConversationSamples.six_turns OpenAIService.new))
  = 12%nat
  /\ (length
        (context_of
           (nth 1
              (processUserMessage Samples.answering (Some "seven") None
                 (converse ConversationSamples.six_turns
                    OpenAIService.new)).1.2
              (AnalyzeRequest None)))
      = 10%nat).
Proof. split; vm_compute; reflexivity. Qed.

End ConversationFacts.

(** ** The relay: what a turn and an event may change *)

Module PreservationFacts.
Import WebSocketService RelayVocabulary.

Section Generic.
Context (R : t -> t -> Prop).
Hypothesis R_refl : forall w, R w w.
Hypothesis R_trans : forall w1 w2 w3, R w1 w2 -> R w2 w3 -> R w1 w3.

Lemma preserves_ret {A} (a : A) : preserves R (mret a).
Proof. intros w. apply R_refl. Qed.

Lemma preserves_throw {A} (e : Error) : preserves R (@throw A e).
Proof. intros w. apply R_refl. Qed.

Lemma preserves_gets {A} (f : t -> A) : preserves R (gets f).
Proof. intros w. apply R_refl. Qed.

Lemma preserves_bind {A B} (m : M A) (k : A -> M B) :
  preserves R m -> (forall a, preserves R (k a)) -> preserves R (m ≫= k).
Proof.
  intros Hm Hk w. unfold mbind, M_bind. specialize (Hm w).
  destruct (m w) as [w' [e|a]]; simpl in *; [exact Hm|].
  eapply R_trans; [exact Hm|apply Hk].
Qed.

Lemma preserves_try {A} (body : M A) (handler : Error -> M A) :
  preserves R body -> (forall e, preserves R (handler e)) ->
  preserves R (try_catch body handler).
Proof.
  intros Hm Hk w. unfold try_catch. specialize (Hm w).
  destruct (body w) as [w' [e|a]]; simpl in *; [|exact Hm].
  eapply R_trans; [exact Hm|apply Hk].
Qed.

(** A turn of [sid] answered on [ws] keeps every relation that its steps
    keep: storing a message of [sid], calling the service, updating the
    statistics of [sid], sending on [ws]. *)
Section Turn.
Context (sid : string) (ws : nat).
Hypothesis R_message : forall id now d,
  InsertMessage.sessionId d = sid ->
  preserves R (storage_createMessage id now d).
Hypothesis R_service : forall o userText topicId,
  preserves R (openai_processUserMessage o userText topicId).
Hypothesis R_stats : forall mc cc accuracy,
  preserves R (storage_updateSession sid (statsPatch mc cc accuracy)).
Hypothesis R_send : forall e, preserves R (sendMessage ws e).

Lemma processUserInput_preserves (o : Oracle.t) (cid : string)
    (userText topicId : option string) (w : t) :
  connections w !! cid = None \/ connections w !! cid = Some ws ->
  R w (processUserInput o cid sid userText topicId w).1.
Proof.
  intros Hc. unfold processUserInput.
  unfold mbind at 1. unfold M_bind at 1. unfold gets at 1.
  destruct Hc as [-> | ->]; [apply R_refl|].
  revert w. apply preserves_try; [|intros e; apply R_send].
  apply preserves_bind; [now apply R_message|]. intros _.
  apply preserves_bind; [apply R_service|]. intros response. cbv zeta.
  apply preserves_bind; [now apply R_message|]. intros _.
  apply preserves_bind; [apply preserves_gets|]. intros session.
  apply preserves_bind.
  { destruct session as [session|]; [|apply preserves_ret].
    apply preserves_bind.
    { destruct userText; [apply preserves_ret|apply preserves_throw]. }
    intros accuracy.
    apply preserves_bind; [apply R_stats|]. intros _. apply preserves_ret. }
  intros _. apply preserves_bind; [apply R_send|]. intros _.
  destruct (0 <? _)%nat; [apply R_send|apply preserves_ret].
Qed.

End Turn.
End Generic.

(** *** The sockets and maps of the relay *)

Lemma quiet_refl (ws : nat) (w : t) : quiet ws w w.
Proof.
  repeat split. destruct (sockets w !! ws) as [sock|]; [|reflexivity].
  exists []. rewrite app_nil_r. destruct sock. auto.
Qed.

Lemma quiet_trans (ws : nat) (w1 w2 w3 : t) :
  quiet ws w1 w2 -> quiet ws w2 w3 -> quiet ws w1 w3.
Proof.
  intros (Hc & Hs & Ho & Hw) (Hc' & Hs' & Ho' & Hw').
  repeat split; try congruence.
  - intros other Hne. rewrite Ho', Ho; auto.
  - destruct (sockets w1 !! ws) as [sock|].
    + destruct Hw as (n1 & E1 & Hn1). rewrite E1 in Hw'. simpl in Hw'.
      destruct Hw' as (n2 & E2 & Hn2).
      exists (n1 ++ n2)%list. rewrite E2, app_assoc. split; [reflexivity|].
      intros Hclosed. rewrite Hn1, Hn2 by exact Hclosed. reflexivity.
    + now rewrite Hw in Hw'.
Qed.

Lemma quiet_storage (ws : nat) (st : MemStorage.t) (w : t) :
  quiet ws w (set_storage st w).
Proof. apply (quiet_refl ws w). Qed.

Lemma quiet_send (ws : nat) (e : Envelope) :
  preserves (quiet ws) (sendMessage ws e).
Proof.
  intros w. unfold sendMessage, modify, set_sockets. simpl.
  repeat split.
  - intros other Hne.
    destruct (sockets w !! ws) as [sock|]; [|reflexivity].
    destruct (ReadyState_eqb (readyState sock) OPEN); [|reflexivity].
    simpl. now rewrite lookup_insert_ne.
  - destruct (sockets w !! ws) as [sock|] eqn:E; [|exact E].
    destruct (ReadyState_eqb (readyState sock) OPEN) eqn:Ho.
    + exists [e]. simpl. rewrite lookup_insert_eq. split; [reflexivity|].
      intros Hclosed. destruct (readyState sock); simpl in Ho;
        congruence.
    + exists []. simpl. rewrite E, app_nil_r. destruct sock. auto.
Qed.

Lemma quiet_processUserInput (o : Oracle.t) (cid sid : string) (ws : nat)
    (userText topicId : option string) (w : t) :
  connections w !! cid = None \/ connections w !! cid = Some ws ->
  quiet ws w (processUserInput o cid sid userText topicId w).1.
Proof.
  apply (processUserInput_preserves (quiet ws) (quiet_refl ws)
           (quiet_trans ws) sid ws).
  - intros id now d _ w0. unfold storage_createMessage. simpl.
    apply (quiet_refl ws w0).
  - intros o0 u t0 w0. unfold openai_processUserMessage.
    destruct (OpenAIService.processUserMessage _ _ _ _) as [[svc s] r].
    simpl. apply (quiet_refl ws w0).
  - intros mc cc acc w0. unfold storage_updateSession.
    destruct (MemStorage.updateSession _ _ _) as [st r]. simpl.
    apply (quiet_refl ws w0).
  - apply quiet_send.
Qed.

(** *** The store and the provider *)

Lemma in_values_set {V} (k : string) (v x : V) (m : JsMap.t V) :
  In x (JsMap.values (JsMap.set k v m)) -> x = v \/ In x (JsMap.values m).
Proof.
  unfold JsMap.values. induction m as [|[k' v'] r IH]; simpl.
  - intros [<-|[]]. auto.
  - destruct (String.eqb k k'); simpl.
    + intros [<-|H]; auto.
    + intros [<-|H]; [auto|]. destruct (IH H); auto.
Qed.

Lemma length_set {V} (k : string) (v : V) (m : JsMap.t V) :
  (length m <= length (JsMap.set k v m))%nat.
Proof.
  induction m as [|[k' v'] r IH]; simpl; [lia|].
  destruct (String.eqb k k'); simpl; lia.
Qed.

Lemma same_identity_refl (s : Session.t) : same_identity s s.
Proof. repeat split. Qed.

Lemma same_identity_trans (s1 s2 s3 : Session.t) :
  same_identity s1 s2 -> same_identity s2 s3 -> same_identity s1 s3.
Proof. unfold same_identity. intuition congruence. Qed.

Lemma stores_for_refl (sid : string) (w : t) : stores_for sid w w.
Proof.
  repeat split; auto.
  - intros k s' H. exists s'. auto using same_identity_refl.
  - exists []. now rewrite app_nil_r.
Qed.

Lemma stores_for_trans (sid : string) (w1 w2 w3 : t) :
  stores_for sid w1 w2 -> stores_for sid w2 w3 -> stores_for sid w1 w3.
Proof.
  intros (H1 & H2 & H3 & H4 & [m1 H5]) (H1' & H2' & H3' & H4' & [m2 H5']).
  repeat split.
  - intros k s3 Hs3. destruct (H1' k s3 Hs3) as (s2 & Hs2 & Hid2 & Hk2).
    destruct (H1 k s2 Hs2) as (s1 & Hs1 & Hid1 & Hk1).
    exists s1. split; [exact Hs1|]. split.
    + eapply same_identity_trans; eassumption.
    + intros Hne. rewrite Hk2, Hk1 by exact Hne. reflexivity.
  - auto.
  - intros m Hm. destruct (H3' m Hm) as [Hm2|Hm2]; auto.
  - lia.
  - exists (m1 ++ m2)%list. rewrite H5', H5. now rewrite app_assoc.
Qed.

Lemma stores_for_sockets (sid : string) (f : gmap nat WebSocket ->
                                             gmap nat WebSocket) (w : t) :
  stores_for sid w (set_sockets f w).
Proof. apply (stores_for_refl sid w). Qed.

Lemma stores_for_send (sid : string) (ws : nat) (e : Envelope) :
  preserves (stores_for sid) (sendMessage ws e).
Proof. intros w. apply (stores_for_refl sid w). Qed.

Lemma stores_for_message (sid id : string) (now : Z) (d : InsertMessage.t) :
  InsertMessage.sessionId d = sid ->
  preserves (stores_for sid) (storage_createMessage id now d).
Proof.
  intros Hd w. unfold storage_createMessage, MemStorage.createMessage.
  simpl. unfold stores_for, MemStorage.getSession. simpl.
  split; [|split; [|split; [|split]]].
  - intros k s' H. exists s'. auto using same_identity_refl.
  - auto.
  - intros m Hm. apply in_values_set in Hm as [->|Hm]; auto.
  - apply length_set.
  - exists []. now rewrite app_nil_r.
Qed.

Lemma stores_for_service (sid : string) (o : Oracle.t)
    (userText topicId : option string) :
  preserves (stores_for sid) (openai_processUserMessage o userText topicId).
Proof.
  intros w. unfold openai_processUserMessage.
  destruct (OpenAIService.processUserMessage _ _ _ _) as [[svc more] r].
  simpl. unfold stores_for. simpl.
  split; [|split; [|split; [|split]]]; auto.
  - intros k s' H. exists s'. auto using same_identity_refl.
  - eauto.
Qed.

Lemma stores_for_stats (sid : string) (mc cc acc : Number.number) :
  preserves (stores_for sid)
    (storage_updateSession sid (statsPatch mc cc acc)).
Proof.
  intros w. unfold storage_updateSession, MemStorage.updateSession.
  destruct (MemStorage.sessions (storage w) !! sid) as [s|] eqn:E; simpl;
    [|clear E; destruct w; apply stores_for_refl].
  unfold stores_for, MemStorage.getSession. simpl.
  split; [|split; [|split; [|split]]]; auto.
  - intros k s'. rewrite lookup_insert. case_decide as Hk.
    + subst k. intros [= <-]. exists s. split; [exact E|].
      split; [repeat split|congruence].
    + intros H. exists s'. auto using same_identity_refl.
  - intros k Hk. rewrite lookup_insert. case_decide; eauto.
  - exists []. now rewrite app_nil_r.
Qed.

Lemma stores_for_processUserInput (o : Oracle.t) (cid sid : string)
    (userText topicId : option string) (w : t) :
  stores_for sid w (processUserInput o cid sid userText topicId w).1.
Proof.
  destruct (connections w !! cid) as [ws|] eqn:Hc.
  - apply (processUserInput_preserves (stores_for sid) (stores_for_refl sid)
             (stores_for_trans sid) sid ws);
      auto using stores_for_message, stores_for_service, stores_for_stats,
        stores_for_send.
  - apply (processUserInput_preserves (stores_for sid) (stores_for_refl sid)
             (stores_for_trans sid) sid 0%nat);
      auto using stores_for_message, stores_for_service, stores_for_stats,
        stores_for_send.
Qed.

End PreservationFacts.

(** ** The relay: how frames are dispatched *)

Module DispatchFacts.
Import WebSocketService RelayVocabulary Frames.

Ltac unfold_m :=
  unfold mbind, M_bind, mret, M_ret, gets, modify, throw, try_catch;
  cbn beta iota.

Lemma falsy_known (sid : string) :
  Js.truthy_string sid = true -> Js.falsy (Some sid) = false.
Proof. simpl. now intros ->. Qed.

Lemma try_catch_returned {A} (body : M A) (handler : Error -> M A) (w : t) :
  (exists a, (body w).2 = inr a) -> try_catch body handler w = body w.
Proof.
  intros [a Ha]. unfold try_catch.
  destruct (body w) as [w' r]. simpl in Ha. now subst r.
Qed.

Lemma handleAudioStart_fresh (o : Oracle.t) (cid : string)
    (message : WSMessage) (w : t) (ws : nat) :
  connections w !! cid = Some ws ->
  Js.falsy (sessions w !! cid) = true ->
  handleAudioStart o cid message w
  = sendMessage ws (recordingEnvelope (Oracle.sessionUuid o))
      (with_new_session o cid message w).
Proof.
  intros Hc Hn. unfold handleAudioStart. unfold_m. rewrite Hc, Hn.
  unfold storage_createSession. reflexivity.
Qed.

Lemma handleAudioStart_known (o : Oracle.t) (cid sid : string)
    (message : WSMessage) (w : t) (ws : nat) :
  connections w !! cid = Some ws ->
  sessions w !! cid = Some sid ->
  Js.truthy_string sid = true ->
  handleAudioStart o cid message w
  = sendMessage ws (recordingEnvelope sid) w.
Proof.
  intros Hc Hs Ht. unfold handleAudioStart. unfold_m.
  rewrite Hc, Hs, (falsy_known _ Ht). reflexivity.
Qed.

Lemma handleAudioEnd_fresh (o : Oracle.t) (cid : string)
    (message : WSMessage) (w : t) :
  Js.falsy (sessions w !! cid) = true ->
  handleAudioEnd o cid message w = (w, inr tt).
Proof.
  intros Hn. unfold handleAudioEnd. unfold_m.
  destruct (connections w !! cid); [|reflexivity]. now rewrite Hn.
Qed.

Lemma handleAudioEnd_known (o : Oracle.t) (cid sid : string)
    (message : WSMessage) (w : t) (ws : nat) :
  connections w !! cid = Some ws ->
  sessions w !! cid = Some sid ->
  Js.truthy_string sid = true ->
  handleAudioEnd o cid message w
  = processUserInput o cid sid (Some (transcriptOf message))
      (payload_topicId message) w.
Proof.
  intros Hc Hs Ht. unfold handleAudioEnd. unfold_m.
  rewrite Hc, Hs, (falsy_known _ Ht). reflexivity.
Qed.

Lemma handleTextMessage_fresh (o : Oracle.t) (cid : string)
    (message : WSMessage) (w : t) (ws : nat) :
  connections w !! cid = Some ws ->
  Js.falsy (sessions w !! cid) = true ->
  handleTextMessage o cid message w
  = match payload message with
    | None => (with_new_session o cid message w, inl (MkError "TypeError"))
    | Some p =>
        processUserInput o cid (Oracle.sessionUuid o) (text p)
          (payload_topicId message) (with_new_session o cid message w)
    end.
Proof.
  intros Hc Hn. unfold handleTextMessage. unfold_m. rewrite Hc, Hn.
  unfold storage_createSession. cbn.
  destruct (payload message); reflexivity.
Qed.

Lemma handleTextMessage_known (o : Oracle.t) (cid sid : string)
    (message : WSMessage) (w : t) (ws : nat) :
  connections w !! cid = Some ws ->
  sessions w !! cid = Some sid ->
  Js.truthy_string sid = true ->
  handleTextMessage o cid message w
  = match payload message with
    | None => (w, inl (MkError "TypeError"))
    | Some p =>
        processUserInput o cid sid (text p) (payload_topicId message) w
    end.
Proof.
  intros Hc Hs Ht. unfold handleTextMessage. unfold_m.
  rewrite Hc, Hs, (falsy_known _ Ht). cbn.
  destruct (payload message); reflexivity.
Qed.

Lemma createSession_guest (id : string) (now : Z) (message : WSMessage)
    (st : MemStorage.t) :
  MemStorage.createSession id now (guestSession message) st
  = ({| MemStorage.sessions :=
          <[id := guestRecord id now (payload message ≫= topicId)]>
            (MemStorage.sessions st);
        MemStorage.messages := MemStorage.messages st |},
     guestRecord id now (payload message ≫= topicId)).
Proof.
  unfold MemStorage.createSession, guestSession, guestRecord, payload_topicId.
  simpl. destruct (payload message ≫= topicId) as [[|c rest]|]; reflexivity.
Qed.

(** X16.  audio_start ensures a session and never replaces one.  On a
    connection that has a session, the whole effect is the recording
    status naming that session: no session is created, whatever topic the
    frame names, and nothing is stored.  On a connection without session,
    one session is added to the store under the generated id: a guest's,
    started now, active, with the frame's topic and no counts yet; the
    connection is mapped to it, the recording status names the new id, and
    nothing else changes. *)
Theorem audio_start_ensures_session (o : Oracle.t) (w : t) (cid : string)
    (ws : nat) (sock : WebSocket) (message : WSMessage) :
  connections w !! cid = Some ws ->
  sockets w !! ws = Some sock ->
  readyState sock = OPEN ->
  type message = "audio_start" ->
  let w' := run (on_message o cid ws (Some message)) w in
  (forall sid, sessions w !! cid = Some sid -> Js.truthy_string sid = true ->
     on_message o cid ws (Some message) w
     = (set_sockets
          <[ws := {| readyState := OPEN;
                     sent := (sent sock ++ [recordingEnvelope sid])%list |}]>
          w, inr tt))
  /\ (sessions w !! cid = None ->
      (on_message o cid ws (Some message) w).2 = inr tt
      /\ MemStorage.sessions (storage w')
         = <[Oracle.sessionUuid o :=
               guestRecord (Oracle.sessionUuid o) (Oracle.sessionNow o)
                 (payload message ≫= topicId)]>
             (MemStorage.sessions (storage w))
      /\ MemStorage.messages (storage w') = MemStorage.messages (storage w)
      /\ sessions w' = <[cid := Oracle.sessionUuid o]> (sessions w)
      /\ connections w' = connections w
      /\ sockets w'
         = <[ws := {| readyState := OPEN;
                      sent := (sent sock
                               ++ [recordingEnvelope
                                     (Oracle.sessionUuid o)])%list |}]>
             (sockets w)
      /\ openaiService w' = openaiService w
      /\ requests w' = requests w).
Proof.
  intros Hc Hs Ho Htag. cbv zeta. unfold run.
  rewrite RelayFacts.on_message_parsed,
    (RelayFacts.handleMessage_open _ _ _ _ _ _ Hc Hs Ho), Htag.
  simpl String.eqb. cbv iota. split.
  - intros sid Hsid Ht.
    rewrite try_catch_returned;
      rewrite (handleAudioStart_known _ _ _ _ _ _ Hc Hsid Ht).
    + now apply RelayFacts.sendMessage_open.
    + apply RelayFacts.returns_send.
  - intros Hnone.
    assert (Hf : Js.falsy (sessions w !! cid) = true) by now rewrite Hnone.
    rewrite try_catch_returned;
      rewrite (handleAudioStart_fresh _ _ _ _ _ Hc Hf);
      [|apply RelayFacts.returns_send].
    rewrite (RelayFacts.sendMessage_open ws _ _ sock); [|exact Hs|exact Ho].
    unfold with_new_session. rewrite createSession_guest. simpl.
    repeat split.
Qed.

Lemma audio_start_ensures_session_witness :
  sessions Samples.in_session !! "conn_a" = Some "session-1"
  /\ on_message Samples.answering "conn_a" 0%nat
       (Some RelaySamples.start_envelope) Samples.in_session
     = (set_sockets
          <[0%nat := {| readyState := OPEN;
                        sent := (sent Samples.socket_a
                                 ++ [recordingEnvelope "session-1"])%list |}]>
          Samples.in_session, inr tt)
  /\ sessions Samples.one_connection !! "conn_a" = None
  /\ MemStorage.sessions
       (storage
          (run (on_message Samples.answering "conn_a" 0%nat
                  (Some RelaySamples.start_envelope))
             Samples.one_connection))
     = {[ "session-2" :=
            {| Session.id := "session-2";
               Session.userId := Some "guest";
               Session.startTime := Some 1000;
               Session.endTime := None;
               Session.durationMinutes := None;
               Session.messagesCount := None;
               Session.correctionsCount := None;
               Session.accuracyScore := None;
               Session.topicId := Some "hobbies";
               Session.isActive := Some true |} ]}.
Proof.
  assert (Hmap : sessions Samples.in_session !! "conn_a" = Some "session-1")
    by (vm_compute; reflexivity).
  split; [exact Hmap|].
  assert (Hc : connections Samples.in_session !! "conn_a" = Some 0%nat)
    by (vm_compute; reflexivity).
  assert (Hs : sockets Samples.in_session !! 0%nat = Some Samples.socket_a)
    by (vm_compute; reflexivity).
  destruct (audio_start_ensures_session Samples.answering Samples.in_session
              "conn_a" 0%nat Samples.socket_a RelaySamples.start_envelope
              Hc Hs eq_refl eq_refl) as [Hknown _].
  split; [apply Hknown; [exact Hmap|reflexivity]|].
  assert (Hn : sessions Samples.one_connection !! "conn_a" = None)
    by (vm_compute; reflexivity).
  split; [exact Hn|].
  assert (Hc1 : connections Samples.one_connection !! "conn_a" = Some 0%nat)
    by (vm_compute; reflexivity).
  assert (Hs1 : sockets Samples.one_connection !! 0%nat
                = Some {| readyState := OPEN; sent := [welcome] |})
    by (vm_compute; reflexivity).
  destruct (audio_start_ensures_session Samples.answering
              Samples.one_connection "conn_a" 0%nat
              {| readyState := OPEN; sent := [welcome] |}
              RelaySamples.start_envelope Hc1 Hs1 eq_refl eq_refl)
    as [_ Hfresh].
  destruct (Hfresh Hn) as (_ & Hstored & _).
  rewrite Hstored. reflexivity.
Defined.

(** X17.  On a connection with a session, audio_end and text_message are
    one and the same turn of that session, differing in the text only:
    audio_end takes the transcript of the payload and, when that is
    missing or empty, the sentence
    [I want to practice my English speaking skills.]; text_message takes
    the payload's text.  audio_chunk does nothing at all. *)
Theorem frames_are_turns (o : Oracle.t) (w : t) (cid sid : string)
    (ws : nat) (sock : WebSocket) (message : WSMessage) :
  connections w !! cid = Some ws ->
  sockets w !! ws = Some sock ->
  readyState sock = OPEN ->
  sessions w !! cid = Some sid ->
  Js.truthy_string sid = true ->
  (type message = "audio_end" ->
   on_message o cid ws (Some message) w
   = processUserInput o cid sid (Some (transcriptOf message))
       (payload_topicId message) w)
  /\ (forall p, type message = "text_message" -> payload message = Some p ->
        on_message o cid ws (Some message) w
        = processUserInput o cid sid (text p) (payload_topicId message) w)
  /\ (type message = "audio_chunk" ->
      on_message o cid ws (Some message) w = (w, inr tt))
  /\ ((exists p, payload message = Some p
                 /\ Js.falsy (transcribedText p) = false
                 /\ transcribedText p = Some (transcriptOf message))
      \/ transcriptOf message
         = "I want to practice my English speaking skills.").
Proof.
  intros Hc Hs Ho Hsid Ht.
  rewrite RelayFacts.on_message_parsed,
    (RelayFacts.handleMessage_open _ _ _ _ _ _ Hc Hs Ho).
  split; [|split; [|split]].
  - intros ->. simpl String.eqb. cbv iota.
    rewrite try_catch_returned;
      rewrite (handleAudioEnd_known _ _ _ _ _ _ Hc Hsid Ht);
      [reflexivity|].
    destruct (RelayFacts.processUserInput_returns o cid sid
                (Some (transcriptOf message)) (payload_topicId message) w)
      as [a Ha]. eauto.
  - intros p -> Hp. simpl String.eqb. cbv iota.
    rewrite try_catch_returned;
      rewrite (handleTextMessage_known _ _ _ _ _ _ Hc Hsid Ht), Hp;
      [reflexivity|].
    destruct (RelayFacts.processUserInput_returns o cid sid (text p)
                (payload_topicId message) w) as [a Ha]. eauto.
  - intros ->. reflexivity.
  - unfold transcriptOf.
    destruct (payload message) as [p|]; simpl; [|auto].
    destruct (transcribedText p) as [[|c s]|] eqn:E; simpl; auto.
    left. exists p. rewrite E. auto.
Qed.

Lemma frames_are_turns_witness :
  sessions Samples.in_session !! "conn_a" = Some "session-1"
  /\ on_message RelaySamples.second_turn "conn_a" 0%nat
       (Some RelaySamples.end_envelope) Samples.in_session
     = processUserInput RelaySamples.second_turn "conn_a" "session-1"
         (Some "I want to practice my English speaking skills.") None
         Samples.in_session.
Proof.
  assert (Hmap : sessions Samples.in_session !! "conn_a" = Some "session-1")
    by (vm_compute; reflexivity).
  split; [exact Hmap|].
  assert (Hc : connections Samples.in_session !! "conn_a" = Some 0%nat)
    by (vm_compute; reflexivity).
  assert (Hs : sockets Samples.in_session !! 0%nat = Some Samples.socket_a)
    by (vm_compute; reflexivity).
  destruct (frames_are_turns RelaySamples.second_turn Samples.in_session
              "conn_a" "session-1" 0%nat Samples.socket_a
              RelaySamples.end_envelope Hc Hs eq_refl Hmap eq_refl)
    as [Hend _].
  exact (Hend eq_refl).
Defined.

(** X18.  A text_message frame without payload on a connection without
    session still adds a session to the store, a guest's without topic,
    and maps the connection to it; then reading the text fails, no message
    is stored, the provider is not called, and the frame is answered with
    the error status [Failed to process message]. *)
Theorem text_message_without_payload (o : Oracle.t) (w : t) (cid : string)
    (ws : nat) (sock : WebSocket) (message : WSMessage) :
  connections w !! cid = Some ws ->
  sockets w !! ws = Some sock ->
  readyState sock = OPEN ->
  sessions w !! cid = None ->
  type message = "text_message" ->
  payload message = None ->
  let w' := run (on_message o cid ws (Some message)) w in
  sessions w' !! cid = Some (Oracle.sessionUuid o)
  /\ MemStorage.sessions (storage w')
     = <[Oracle.sessionUuid o :=
           guestRecord (Oracle.sessionUuid o) (Oracle.sessionNow o) None]>
         (MemStorage.sessions (storage w))
  /\ MemStorage.messages (storage w') = MemStorage.messages (storage w)
  /\ requests w' = requests w
  /\ pushed ws w'
     = (pushed ws w
        ++ [{| out_type := "session_update"; out_sessionId := None;
               out_payload :=
                 StatusPayload "error" None
                   "Failed to process message" |}])%list.
Proof.
  intros Hc Hs Ho Hn Htag Hp. cbv zeta. unfold run.
  rewrite RelayFacts.on_message_parsed,
    (RelayFacts.handleMessage_open _ _ _ _ _ _ Hc Hs Ho), Htag.
  simpl String.eqb. cbv iota. unfold try_catch.
  rewrite (RelayFacts.handleTextMessage_new _ _ _ _ _ Hc Hn), Hp.
  unfold sendError.
  rewrite (RelayFacts.sendMessage_open ws _ _ sock); [|exact Hs|exact Ho].
  unfold with_new_session. rewrite createSession_guest, Hp. simpl.
  repeat split.
  - apply lookup_insert_eq.
  - rewrite RelayFacts.pushed_insert. rewrite decide_True by reflexivity.
    simpl. unfold pushed. now rewrite Hs.
Qed.

Lemma text_message_without_payload_witness :
  sessions Samples.one_connection !! "conn_a" = None
  /\ sessions
       (run (on_message Samples.answering "conn_a" 0%nat
               (Some (Samples.tagged "text_message")))
          Samples.one_connection) !! "conn_a" = Some "session-2"
  /\ Session.userId
     <$> MemStorage.getSession "session-2"
           (storage
              (run (on_message Samples.answering "conn_a" 0%nat
                      (Some (Samples.tagged "text_message")))
                 Samples.one_connection))
     = Some (Some "guest")
  /\ pushed 0%nat
       (run (on_message Samples.answering "conn_a" 0%nat
               (Some (Samples.tagged "text_message")))
          Samples.one_connection)
     = [ welcome;
         {| out_type := "session_update"; out_sessionId := None;
            out_payload :=
              StatusPayload "error" None "Failed to process message" |} ].
Proof.
  assert (Hn : sessions Samples.one_connection !! "conn_a" = None)
    by (vm_compute; reflexivity).
  split; [exact Hn|].
  assert (Hc : connections Samples.one_connection !! "conn_a" = Some 0%nat)
    by (vm_compute; reflexivity).
  assert (Hs : sockets Samples.one_connection !! 0%nat
               = Some {| readyState := OPEN; sent := [welcome] |})
    by (vm_compute; reflexivity).
  destruct (text_message_without_payload Samples.answering
              Samples.one_connection "conn_a" 0%nat
              {| readyState := OPEN; sent := [welcome] |}
              (Samples.tagged "text_message") Hc Hs eq_refl Hn eq_refl
              eq_refl) as (Hmapped & Hstored & _ & _ & Hpushed).
  split; [exact Hmapped|]. split.
  - unfold MemStorage.getSession. rewrite Hstored, lookup_insert_eq.
    reflexivity.
  - rewrite Hpushed. unfold pushed. rewrite Hs. reflexivity.
Defined.

(** What a turn leaves in the store before the session is updated: the
    user message and then the bot message. *)
Lemma processUserInput_resolved (o : Oracle.t) (w : t) (cid sid : string)
    (userText topicId : option string) (ws : nat)
    (content : option string) (rest : list (option string)) :
  connections w !! cid = Some ws ->
  Oracle.replyCall o = Provider.Resolved (content :: rest) ->
  let response := responseOf o topicId userText content in
  let st1 :=
    (MemStorage.createMessage (Oracle.userMessageUuid o)
       (Oracle.userMessageNow o) (userMessage sid userText topicId)
       (storage w)).1 in
  let st2 :=
    (MemStorage.createMessage (Oracle.botMessageUuid o)
       (Oracle.botMessageNow o) (botMessage sid response) st1).1 in
  let w2 :=
    set_storage st2
      (set_openai
         (OpenAIService.processUserMessage o userText topicId
            (openaiService w)).1.1
         (OpenAIService.processUserMessage o userText topicId
            (openaiService w)).1.2 w) in
  processUserInput o cid sid userText topicId w
  = match MemStorage.getSession sid (storage w), userText with
    | Some session, Some said =>
        let found := length (OpenAIService.corrections response) in
        let w3 :=
          set_storage
            (MemStorage.updateSession sid
               (statsPatch
                  (Number.add
                     (Js.or_default Number.truthy
                        (Session.messagesCount session) (Number.of_Z 0))
                     (Number.of_Z 2))
                  (Number.add
                     (Js.or_default Number.truthy
                        (Session.correctionsCount session) (Number.of_Z 0))
                     (Number.of_Z (Z.of_nat found)))
                  (Accuracy.calculateAccuracy
                     (Number.of_Z (Z.of_nat found))
                     (Number.of_Z (Js.split_space_length said)))) st2).1
            w2 in
        ((sendMessage ws (replyEnvelope sid response (Oracle.replyNow o));;
          if (0 <? found)%nat
          then sendMessage ws (correctionEnvelope sid response)
          else mret tt) w3)
    | Some session, None =>
        sendError ws "Failed to process your message. Please try again." w2
    | None, _ =>
        ((sendMessage ws (replyEnvelope sid response (Oracle.replyNow o));;
          if (0 <? length (OpenAIService.corrections response))%nat
          then sendMessage ws (correctionEnvelope sid response)
          else mret tt) w2)
    end.
Proof.
  intros Hc Hr. cbv zeta.
  unfold processUserInput. unfold_m. rewrite Hc.
  unfold storage_createMessage, openai_processUserMessage,
    storage_getSession, storage_updateSession, gets. cbn.
  unfold OpenAIService.processUserMessage. rewrite Hr. cbn.
  unfold MemStorage.getSession.
  destruct (MemStorage.sessions (storage w) !! sid) as [session|] eqn:Hsess.
  - destruct userText as [said|]; cbn.
    + unfold MemStorage.updateSession. cbn. rewrite Hsess. cbn.
      unfold sendMessage, modify. cbn. rewrite ?Hsess. cbn.
      destruct (length (OpenAIService.analyzeGrammar (Oracle.grammarCall o)));
        reflexivity.
    + rewrite ?Hsess. cbn. reflexivity.
  - rewrite ?Hsess. unfold sendMessage, modify.
    destruct userText; cbn; rewrite ?Hsess; cbn;
      destruct (length (OpenAIService.analyzeGrammar (Oracle.grammarCall o)));
      reflexivity.
Qed.

End DispatchFacts.

(** ** Counting in JavaScript numbers *)

Module CounterFacts.
Import Number Counters.

Lemma same_eq (x y : number) : same x y = true -> x = y.
Proof.
  destruct x as [a|a| |s m e], y as [b|b| |s' m' e']; simpl;
    try discriminate; try reflexivity.
  - intros H. apply Bool.eqb_prop in H. now subst.
  - intros H. apply Bool.eqb_prop in H. now subst.
  - intros H. apply andb_prop in H as [H He]. apply andb_prop in H as [Hs Hm].
    apply Bool.eqb_prop in Hs. apply Pos.eqb_eq in Hm. apply Z.eqb_eq in He.
    now subst.
Qed.

Lemma exact_sums_spec (counts increments : list nat) :
  exact_sums counts increments = true ->
  forall count n,
    In count counts -> In n increments ->
    add (Js.or_default truthy (Some (of_Z (Z.of_nat count))) (of_Z 0))
      (of_Z (Z.of_nat n))
    = of_Z (Z.of_nat count + Z.of_nat n).
Proof.
  unfold exact_sums. rewrite forallb_forall. intros Hall count n Hc Hn.
  specialize (Hall count Hc). rewrite forallb_forall in Hall.
  exact (same_eq _ _ (Hall n Hn)).
Qed.

(** Up to a count of 1000 and an increment of 50, [(count || 0) + n] is
    the sum: no rounding occurs. *)
Lemma bump_small (count n : nat) :
  (count <= 1000)%nat -> (n <= 50)%nat ->
  add (Js.or_default truthy (Some (of_Z (Z.of_nat count))) (of_Z 0))
    (of_Z (Z.of_nat n))
  = of_Z (Z.of_nat count + Z.of_nat n).
Proof.
  intros Hcount Hn.
  apply (exact_sums_spec (seq 0 1001) (seq 0 51)).
  - vm_compute. reflexivity.
  - apply in_seq. lia.
  - apply in_seq. lia.
Qed.

(** From 2^53 on a count no longer grows by one. *)
Lemma bump_large :
  add (Js.or_default truthy (Some (of_Z (2 ^ 53))) (of_Z 0)) (of_Z 1)
  = of_Z (2 ^ 53).
Proof. vm_compute. reflexivity. Qed.

End CounterFacts.

(** ** The relay: what a turn does *)

Module TurnFacts.
Import WebSocketService RelayVocabulary Frames Envelopes.

Lemma send_frames (ws : nat) (sock : WebSocket) (e1 e2 : Envelope)
    (b : bool) (w : t) :
  sockets w !! ws = Some sock -> readyState sock = OPEN ->
  (sendMessage ws e1;; if b then sendMessage ws e2 else mret tt) w
  = (set_sockets
       <[ws := {| readyState := OPEN;
                  sent := (sent sock
                           ++ e1 :: (if b then [e2] else []))%list |}]> w,
     inr tt).
Proof.
  intros Hs Ho. unfold mbind, M_bind.
  rewrite (RelayFacts.sendMessage_open ws e1 w sock Hs Ho).
  destruct b; [|reflexivity].
  rewrite (RelayFacts.sendMessage_open ws e2 _
             {| readyState := OPEN; sent := (sent sock ++ [e1])%list |});
    [|simpl; apply lookup_insert_eq|reflexivity].
  unfold set_sockets. simpl. rewrite insert_insert_eq, <- app_assoc.
  reflexivity.
Qed.

Lemma updateSession_stored (sid : string) (patch : SessionPatch.t)
    (st : MemStorage.t) (session : Session.t) :
  MemStorage.getSession sid st = Some session ->
  MemStorage.updateSession sid patch st
  = ({| MemStorage.sessions :=
          <[sid := MemStorage.merge session patch]> (MemStorage.sessions st);
        MemStorage.messages := MemStorage.messages st |},
     Some (MemStorage.merge session patch)).
Proof.
  unfold MemStorage.getSession, MemStorage.updateSession. now intros ->.
Qed.

(** The session after the update of an answered turn. *)
Lemma counts_after (session : Session.t) (found : nat)
    (accuracy : Number.number) :
  let updated :=
    MemStorage.merge session
      (statsPatch
         (Number.add
            (Js.or_default Number.truthy
               (Session.messagesCount session) (Number.of_Z 0))
            (Number.of_Z 2))
         (Number.add
            (Js.or_default Number.truthy
               (Session.correctionsCount session) (Number.of_Z 0))
            (Number.of_Z (Z.of_nat found)))
         accuracy) in
  same_identity session updated
  /\ Session.messagesCount updated
     = Some (Number.add
               (Js.or_default Number.truthy
                  (Session.messagesCount session) (Number.of_Z 0))
               (Number.of_Z 2))
  /\ Session.correctionsCount updated
     = Some (Number.add
               (Js.or_default Number.truthy
                  (Session.correctionsCount session) (Number.of_Z 0))
               (Number.of_Z (Z.of_nat found)))
  /\ Session.accuracyScore updated = Some accuracy
  /\ (Session.messagesCount session = None ->
      Session.messagesCount updated = Some (Number.of_Z 2))
  /\ (forall count : nat,
        (count <= 1000)%nat ->
        Session.messagesCount session
        = Some (Number.of_Z (Z.of_nat count)) ->
        Session.messagesCount updated
        = Some (Number.of_Z (Z.of_nat count + 2)))
  /\ (Session.correctionsCount session = None -> (found <= 50)%nat ->
      Session.correctionsCount updated
      = Some (Number.of_Z (Z.of_nat found)))
  /\ (forall count : nat,
        (count <= 1000)%nat -> (found <= 50)%nat ->
        Session.correctionsCount session
        = Some (Number.of_Z (Z.of_nat count)) ->
        Session.correctionsCount updated
        = Some (Number.of_Z (Z.of_nat count + Z.of_nat found))).
Proof.
  cbv zeta. simpl.
  split; [repeat split|]. split; [reflexivity|]. split; [reflexivity|].
  split; [reflexivity|]. split; [|split; [|split]].
  - intros ->. reflexivity.
  - intros count Hcount ->. f_equal.
    apply (CounterFacts.bump_small count 2); lia.
  - intros -> Hfound. f_equal.
    apply (CounterFacts.bump_small 0 found); lia.
  - intros count Hcount Hfound ->. f_equal.
    now apply CounterFacts.bump_small.
Qed.

(** What a turn that is answered leaves behind. *)
Lemma processUserInput_answered (o : Oracle.t) (w : t) (cid sid said : string)
    (topicId : option string) (ws : nat) (sock : WebSocket)
    (session : Session.t) (content : option string)
    (rest : list (option string)) :
  connections w !! cid = Some ws ->
  sockets w !! ws = Some sock ->
  readyState sock = OPEN ->
  MemStorage.getSession sid (storage w) = Some session ->
  Oracle.replyCall o = Provider.Resolved (content :: rest) ->
  let response := responseOf o topicId (Some said) content in
  let found := length (OpenAIService.corrections response) in
  let w' := run (processUserInput o cid sid (Some said) topicId) w in
  pushed ws w'
  = (pushed ws w
     ++ replyEnvelope sid response (Oracle.replyNow o)
        :: (if (0 <? found)%nat then [correctionEnvelope sid response]
            else []))%list
  /\ MemStorage.messages (storage w')
     = JsMap.set (Oracle.botMessageUuid o)
         (MemStorage.createMessage (Oracle.botMessageUuid o)
            (Oracle.botMessageNow o) (botMessage sid response) (storage w)).2
         (JsMap.set (Oracle.userMessageUuid o)
            (MemStorage.createMessage (Oracle.userMessageUuid o)
               (Oracle.userMessageNow o)
               (userMessage sid (Some said) topicId) (storage w)).2
            (MemStorage.messages (storage w)))
  /\ MemStorage.getSession sid (storage w')
     = Some (MemStorage.merge session
               (statsPatch
                  (Number.add
                     (Js.or_default Number.truthy
                        (Session.messagesCount session) (Number.of_Z 0))
                     (Number.of_Z 2))
                  (Number.add
                     (Js.or_default Number.truthy
                        (Session.correctionsCount session) (Number.of_Z 0))
                     (Number.of_Z (Z.of_nat found)))
                  (Accuracy.calculateAccuracy
                     (Number.of_Z (Z.of_nat found))
                     (Number.of_Z (Js.split_space_length said)))))
  /\ (forall k, k <> sid ->
        MemStorage.getSession k (storage w')
        = MemStorage.getSession k (storage w)).
Proof.
  intros Hc Hs Ho Hsess Hr. cbv zeta. unfold run.
  rewrite (DispatchFacts.processUserInput_resolved o w cid sid (Some said)
             topicId ws content rest Hc Hr).
  cbv zeta. rewrite Hsess.
  rewrite (send_frames ws sock); [|exact Hs|exact Ho].
  erewrite updateSession_stored by exact Hsess.
  simpl. split; [|split; [|split]].
  - rewrite RelayFacts.pushed_insert, decide_True by reflexivity.
    simpl. unfold pushed. now rewrite Hs.
  - reflexivity.
  - unfold MemStorage.getSession. simpl. apply lookup_insert_eq.
  - intros k Hk. unfold MemStorage.getSession. simpl.
    now apply lookup_insert_ne.
Qed.

(** X19.  A turn that the provider answers, in a stored session and on an
    open connection: the user message and then the bot message are stored;
    the session's message count becomes [(old || 0) + 2] and its correction
    count [(old || 0) + found], in JavaScript numbers, and its accuracy
    score is replaced by the accuracy of this one utterance; the client is
    sent the reply frame, followed by a correction frame exactly when
    corrections were found.  No other session changes.  For a count that
    is null or an integer up to 1000, and up to 50 corrections, the new
    counts are the exact sums. *)
Theorem turn_answered (o : Oracle.t) (w : t) (cid sid said : string)
    (topicId : option string) (ws : nat) (sock : WebSocket)
    (session : Session.t) (content : option string)
    (rest : list (option string)) :
  connections w !! cid = Some ws ->
  sockets w !! ws = Some sock ->
  readyState sock = OPEN ->
  MemStorage.getSession sid (storage w) = Some session ->
  Oracle.replyCall o = Provider.Resolved (content :: rest) ->
  let response := responseOf o topicId (Some said) content in
  let found := length (OpenAIService.corrections response) in
  let w' := run (processUserInput o cid sid (Some said) topicId) w in
  pushed ws w'
  = (pushed ws w
     ++ replyEnvelope sid response (Oracle.replyNow o)
        :: (if (0 <? found)%nat then [correctionEnvelope sid response]
            else []))%list
  /\ MemStorage.messages (storage w')
     = JsMap.set (Oracle.botMessageUuid o)
         (MemStorage.createMessage (Oracle.botMessageUuid o)
            (Oracle.botMessageNow o) (botMessage sid response) (storage w)).2
         (JsMap.set (Oracle.userMessageUuid o)
            (MemStorage.createMessage (Oracle.userMessageUuid o)
               (Oracle.userMessageNow o)
               (userMessage sid (Some said) topicId) (storage w)).2
            (MemStorage.messages (storage w)))
  /\ (exists updated,
        MemStorage.getSession sid (storage w') = Some updated
        /\ same_identity session updated
        /\ Session.messagesCount updated
           = Some (Number.add
                     (Js.or_default Number.truthy
                        (Session.messagesCount session) (Number.of_Z 0))
                     (Number.of_Z 2))
        /\ Session.correctionsCount updated
           = Some (Number.add
                     (Js.or_default Number.truthy
                        (Session.correctionsCount session) (Number.of_Z 0))
                     (Number.of_Z (Z.of_nat found)))
        /\ Session.accuracyScore updated
           = Some (Accuracy.calculateAccuracy
                     (Number.of_Z (Z.of_nat found))
                     (Number.of_Z (Js.split_space_length said)))
        /\ (Session.messagesCount session = None ->
            Session.messagesCount updated = Some (Number.of_Z 2))
        /\ (forall count : nat,
              (count <= 1000)%nat ->
              Session.messagesCount session
              = Some (Number.of_Z (Z.of_nat count)) ->
              Session.messagesCount updated
              = Some (Number.of_Z (Z.of_nat count + 2)))
        /\ (Session.correctionsCount session = None -> (found <= 50)%nat ->
            Session.correctionsCount updated
            = Some (Number.of_Z (Z.of_nat found)))
        /\ (forall count : nat,
              (count <= 1000)%nat -> (found <= 50)%nat ->
              Session.correctionsCount session
              = Some (Number.of_Z (Z.of_nat count)) ->
              Session.correctionsCount updated
              = Some (Number.of_Z (Z.of_nat count + Z.of_nat found))))
  /\ (forall k, k <> sid ->
        MemStorage.getSession k (storage w')
        = MemStorage.getSession k (storage w)).
Proof.
  intros Hc Hs Ho Hsess Hr.
  destruct (processUserInput_answered o w cid sid said topicId ws sock
              session content rest Hc Hs Ho Hsess Hr)
    as (Hp & Hm & Hu & Hk).
  cbv zeta. split; [exact Hp|]. split; [exact Hm|]. split; [|exact Hk].
  eexists. split; [exact Hu|].
  apply (counts_after session
           (length (OpenAIService.corrections
                      (responseOf o topicId (Some said) content)))).
Qed.

Lemma turn_answered_witness :
  MemStorage.getSession "session-1" (storage Samples.in_session)
  = Some Samples.session_1
  /\ Session.messagesCount Samples.session_1 = Some (Number.of_Z 2)
  /\ pushed 0%nat
       (run (processUserInput RelaySamples.second_turn "conn_a" "session-1"
               (Some "I are happy") (Some "travel")) Samples.in_session)
     = (pushed 0%nat Samples.in_session
        ++ [ replyEnvelope "session-1"
               (responseOf RelaySamples.second_turn (Some "travel")
                  (Some "I are happy") (Some "Nice to hear!")) 23;
             correctionEnvelope "session-1"
               (responseOf RelaySamples.second_turn (Some "travel")
                  (Some "I are happy") (Some "Nice to hear!")) ])%list
  /\ Session.messagesCount
     <$> MemStorage.getSession "session-1"
           (storage
              (run (processUserInput RelaySamples.second_turn "conn_a"
                      "session-1" (Some "I are happy") (Some "travel"))
                 Samples.in_session))
     = Some (Some (Number.of_Z 4))
  /\ Session.correctionsCount
     <$> MemStorage.getSession "session-1"
           (storage
              (run (processUserInput RelaySamples.second_turn "conn_a"
                      "session-1" (Some "I are happy") (Some "travel"))
                 Samples.in_session))
     = Some (Some (Number.of_Z 1)).
Proof.
  assert (Hc : connections Samples.in_session !! "conn_a" = Some 0%nat)
    by (vm_compute; reflexivity).
  assert (Hs : sockets Samples.in_session !! 0%nat = Some Samples.socket_a)
    by (vm_compute; reflexivity).
  assert (Hsess : MemStorage.getSession "session-1"
                    (storage Samples.in_session)
                  = Some Samples.session_1)
    by (vm_compute; reflexivity).
  split; [exact Hsess|]. split; [vm_compute; reflexivity|].
  destruct (turn_answered RelaySamples.second_turn Samples.in_session
              "conn_a" "session-1" "I are happy" (Some "travel") 0%nat
              Samples.socket_a Samples.session_1 (Some "Nice to hear!") []
              Hc Hs eq_refl Hsess eq_refl)
    as (Hp & _ & (updated & Hu & _ & Hmc & Hcc & _) & _).
  split; [exact Hp|].
  rewrite Hu. simpl. rewrite Hmc, Hcc.
  split; vm_compute; reflexivity.
Defined.

(** X20.  A turn whose text is undefined, which is what a text_message
    frame whose payload has no text starts: when the provider answers
    nonetheless, the user message and the bot message are stored, but
    counting the words of the text fails before the session is updated.
    The session keeps its counters and score, the stored reply is never
    sent, and the client gets the error status
    [Failed to process your message. Please try again.] instead. *)
Theorem turn_without_text (o : Oracle.t) (w : t) (cid sid : string)
    (topicId : option string) (ws : nat) (sock : WebSocket)
    (session : Session.t) (content : option string)
    (rest : list (option string)) :
  connections w !! cid = Some ws ->
  sockets w !! ws = Some sock ->
  readyState sock = OPEN ->
  MemStorage.getSession sid (storage w) = Some session ->
  Oracle.replyCall o = Provider.Resolved (content :: rest) ->
  let response := responseOf o topicId None content in
  let w' := run (processUserInput o cid sid None topicId) w in
  pushed ws w'
  = (pushed ws w
     ++ [{| out_type := "session_update"; out_sessionId := None;
            out_payload :=
              StatusPayload "error" None
                "Failed to process your message. Please try again." |}])%list
  /\ MemStorage.messages (storage w')
     = JsMap.set (Oracle.botMessageUuid o)
         (MemStorage.createMessage (Oracle.botMessageUuid o)
            (Oracle.botMessageNow o) (botMessage sid response) (storage w)).2
         (JsMap.set (Oracle.userMessageUuid o)
            (MemStorage.createMessage (Oracle.userMessageUuid o)
               (Oracle.userMessageNow o)
               (userMessage sid None topicId) (storage w)).2
            (MemStorage.messages (storage w)))
  /\ MemStorage.sessions (storage w') = MemStorage.sessions (storage w).
Proof.
  intros Hc Hs Ho Hsess Hr. cbv zeta. unfold run.
  rewrite (DispatchFacts.processUserInput_resolved o w cid sid None
             topicId ws content rest Hc Hr).
  cbv zeta. rewrite Hsess. unfold sendError.
  rewrite (RelayFacts.sendMessage_open ws _ _ sock); [|exact Hs|exact Ho].
  simpl. split; [|split; reflexivity].
  rewrite RelayFacts.pushed_insert, decide_True by reflexivity.
  simpl. unfold pushed. now rewrite Hs.
Qed.

Lemma turn_without_text_witness :
  MemStorage.getSession "session-1" (storage Samples.in_session)
  = Some Samples.session_1
  /\ pushed 0%nat
       (run (processUserInput RelaySamples.second_turn "conn_a" "session-1"
               None None) Samples.in_session)
     = (pushed 0%nat Samples.in_session
        ++ [{| out_type := "session_update"; out_sessionId := None;
               out_payload :=
                 StatusPayload "error" None
                   "Failed to process your message. Please try again." |}])%list.
Proof.
  assert (Hc : connections Samples.in_session !! "conn_a" = Some 0%nat)
    by (vm_compute; reflexivity).
  assert (Hs : sockets Samples.in_session !! 0%nat = Some Samples.socket_a)
    by (vm_compute; reflexivity).
  assert (Hsess : MemStorage.getSession "session-1"
                    (storage Samples.in_session)
                  = Some Samples.session_1)
    by (vm_compute; reflexivity).
  split; [exact Hsess|].
  destruct (turn_without_text RelaySamples.second_turn Samples.in_session
              "conn_a" "session-1" None 0%nat Samples.socket_a
              Samples.session_1 (Some "Nice to hear!") []
              Hc Hs eq_refl Hsess eq_refl) as [Hp _].
  exact Hp.
Defined.

End TurnFacts.

(** ** The relay: events and the states they lead to *)

Module EventFacts.
Import WebSocketService RelayVocabulary Frames.
Import PreservationFacts.

Lemma truthy_known (known : option string) :
  Js.falsy known = false ->
  exists sid, known = Some sid /\ Js.truthy_string sid = true.
Proof.
  destruct known as [sid|]; simpl; [|discriminate].
  intros H. exists sid. split; [reflexivity|].
  now destruct (Js.truthy_string sid).
Qed.

Lemma outcome_idle o c ws data w : outcome o c ws data w w.
Proof.
  exists w, EmptyString, ws. split; [apply quiet_refl|].
  split; [apply stores_for_refl|]. split; [reflexivity|]. left. auto.
Qed.

(** A handler that has only sent. *)
Lemma outcome_sent o c ws data w target e :
  (connections w !! c = None \/ connections w !! c = Some ws ->
   target = ws) ->
  outcome o c ws data w (sendMessage target e w).1.
Proof.
  intros Ht. exists w, EmptyString, target.
  split; [apply quiet_send|]. split; [apply stores_for_send|].
  split; [exact Ht|]. left. split; [reflexivity|]. right. reflexivity.
Qed.

(** A handler that has created the session first. *)
Lemma outcome_fresh o c ws message w w' target :
  quiet target (with_new_session o c message w) w' ->
  stores_for (Oracle.sessionUuid o) (with_new_session o c message w) w' ->
  (connections w !! c = None \/ connections w !! c = Some ws ->
   target = ws) ->
  Js.falsy (sessions w !! c) = true ->
  outcome o c ws (Some message) w w'.
Proof.
  intros Hq Hst Ht Hf.
  exists (with_new_session o c message w), (Oracle.sessionUuid o), target.
  split; [exact Hq|]. split; [exact Hst|]. split; [exact Ht|].
  right. exists message. auto.
Qed.

Lemma on_message_outcome (o : Oracle.t) (c : string) (ws : nat)
    (data : option WSMessage) (w : t) :
  (on_message o c ws data w).2 = inr tt
  /\ outcome o c ws data w (run (on_message o c ws data) w).
Proof.
  destruct data as [message|].
  2:{ split; [reflexivity|]. unfold run, on_message, try_catch, throw.
      simpl. apply outcome_sent. auto. }
  unfold run. rewrite RelayFacts.on_message_parsed. split.
  { destruct (RelayFacts.handleMessage_returns o c message w) as [[] H].
    exact H. }
  unfold handleMessage. unfold mbind at 1 2. unfold M_bind, gets.
  destruct (connections w !! c) as [target|] eqn:Hc; [|apply outcome_idle].
  assert (Ht : connections w !! c = None \/ connections w !! c = Some ws ->
               target = ws) by (intros [H|H]; congruence).
  simpl. destruct (negb _); [apply outcome_idle|].
  assert (Hknown :
    Js.falsy (sessions w !! c) = false ->
    exists sid, sessions w !! c = Some sid /\ Js.truthy_string sid = true)
    by apply truthy_known.
  assert (Hbody :
    exists w' r,
      (if String.eqb (type message) "audio_start" then
         handleAudioStart o c message
       else if String.eqb (type message) "audio_chunk" then
         handleAudioChunk c message
       else if String.eqb (type message) "audio_end" then
         handleAudioEnd o c message
       else if String.eqb (type message) "text_message" then
         handleTextMessage o c message
       else sendError target "Unknown message type") w = (w', r)
      /\ exists w0 sid,
           quiet target w0 w' /\ stores_for sid w0 w'
           /\ ((w0 = w
                /\ (sessions w !! c = Some sid \/ storage w' = storage w))
               \/ (Js.falsy (sessions w !! c) = true
                   /\ w0 = with_new_session o c message w
                   /\ sid = Oracle.sessionUuid o))).
  { destruct (Js.falsy (sessions w !! c)) eqn:Hf.
    - (* no session yet *)
      destruct (String.eqb (type message) "audio_start").
      { rewrite (DispatchFacts.handleAudioStart_fresh _ _ _ _ _ Hc Hf).
        eexists _, _. split; [apply surjective_pairing|].
        exists (with_new_session o c message w), (Oracle.sessionUuid o).
        split; [apply quiet_send|]. split; [apply stores_for_send|]. auto. }
      destruct (String.eqb (type message) "audio_chunk").
      { eexists _, _. split; [reflexivity|]. exists w, EmptyString.
        split; [apply quiet_refl|]. split; [apply stores_for_refl|]. auto. }
      destruct (String.eqb (type message) "audio_end").
      { rewrite (DispatchFacts.handleAudioEnd_fresh _ _ _ _ Hf).
        eexists _, _. split; [reflexivity|]. exists w, EmptyString.
        split; [apply quiet_refl|]. split; [apply stores_for_refl|]. auto. }
      destruct (String.eqb (type message) "text_message").
      { rewrite (DispatchFacts.handleTextMessage_fresh _ _ _ _ _ Hc Hf).
        destruct (payload message) as [p|].
        - eexists _, _. split; [apply surjective_pairing|].
          exists (with_new_session o c message w), (Oracle.sessionUuid o).
          split; [apply quiet_processUserInput; right; exact Hc|].
          split; [apply stores_for_processUserInput|]. auto.
        - eexists _, _. split; [reflexivity|].
          exists (with_new_session o c message w), (Oracle.sessionUuid o).
          split; [apply quiet_refl|]. split; [apply stores_for_refl|].
          auto. }
      eexists _, _. split; [apply surjective_pairing|]. exists w, EmptyString.
      split; [apply quiet_send|]. split; [apply stores_for_send|]. auto.
    - (* a session is known *)
      destruct (Hknown eq_refl) as (sid & Hsid & Htruthy).
      destruct (String.eqb (type message) "audio_start").
      { rewrite (DispatchFacts.handleAudioStart_known _ _ _ _ _ _ Hc Hsid
                   Htruthy).
        eexists _, _. split; [apply surjective_pairing|]. exists w, sid.
        split; [apply quiet_send|]. split; [apply stores_for_send|]. auto. }
      destruct (String.eqb (type message) "audio_chunk").
      { eexists _, _. split; [reflexivity|]. exists w, sid.
        split; [apply quiet_refl|]. split; [apply stores_for_refl|]. auto. }
      destruct (String.eqb (type message) "audio_end").
      { rewrite (DispatchFacts.handleAudioEnd_known _ _ _ _ _ _ Hc Hsid
                   Htruthy).
        eexists _, _. split; [apply surjective_pairing|]. exists w, sid.
        split; [apply quiet_processUserInput; right; exact Hc|].
        split; [apply stores_for_processUserInput|]. auto. }
      destruct (String.eqb (type message) "text_message").
      { rewrite (DispatchFacts.handleTextMessage_known _ _ _ _ _ _ Hc Hsid
                   Htruthy).
        destruct (payload message) as [p|].
        - eexists _, _. split; [apply surjective_pairing|]. exists w, sid.
          split; [apply quiet_processUserInput; right; exact Hc|].
          split; [apply stores_for_processUserInput|]. auto.
        - eexists _, _. split; [reflexivity|]. exists w, sid.
          split; [apply quiet_refl|]. split; [apply stores_for_refl|].
          auto. }
      eexists _, _. split; [apply surjective_pairing|]. exists w, sid.
      split; [apply quiet_send|]. split; [apply stores_for_send|]. auto. }
  destruct Hbody as (w' & r & Hrun & w0 & sid & Hq & Hst & Hcase).
  unfold try_catch. rewrite Hrun.
  assert (Hsame :
    exists w0 sid,
      quiet target w0 w' /\ stores_for sid w0 w'
      /\ ((w0 = w /\ (sessions w !! c = Some sid \/ storage w' = storage w))
          \/ (exists m,
                Some message = Some m
                /\ Js.falsy (sessions w !! c) = true
                /\ w0 = with_new_session o c m w
                /\ sid = Oracle.sessionUuid o))).
  { exists w0, sid. split; [exact Hq|]. split; [exact Hst|].
    destruct Hcase as [?|(Hf & -> & ->)]; [left; assumption|].
    right. exists message. auto. }
  destruct r as [e|[]]; simpl.
  - destruct Hsame as (w1 & sid1 & Hq1 & Hst1 & Hcase1).
    exists w1, sid1, target.
    split; [eapply quiet_trans; [exact Hq1|apply quiet_send]|].
    split; [eapply stores_for_trans; [exact Hst1|apply stores_for_send]|].
    split; [exact Ht|].
    destruct Hcase1 as [[-> [Hs|Hs]]|Hnew]; auto.
  - destruct Hsame as (w1 & sid1 & Hq1 & Hst1 & Hcase1).
    exists w1, sid1, target. auto.
Qed.

(** X21.  A frame only concerns its own connection.  Whatever arrives for
    a connection, parseable or not, and whatever the provider does, the
    handler returns without throwing; the connection table is unchanged;
    the session of every other connection is unchanged, and a session this
    connection already has is kept; every other socket is as it was; and
    the connection's socket keeps its state and is only sent further
    frames, none at all unless it is open. *)
Theorem frame_confined (o : Oracle.t) (c : string) (ws : nat)
    (data : option WSMessage) (w : t) :
  connections w !! c = None \/ connections w !! c = Some ws ->
  let w' := run (on_message o c ws data) w in
  (on_message o c ws data w).2 = inr tt
  /\ connections w' = connections w
  /\ (forall c', c' <> c -> sessions w' !! c' = sessions w !! c')
  /\ (forall sid, sessions w !! c = Some sid -> Js.truthy_string sid = true ->
        sessions w' !! c = Some sid)
  /\ (forall other, other <> ws -> sockets w' !! other = sockets w !! other)
  /\ match sockets w !! ws with
     | Some sock =>
         exists new,
           sockets w' !! ws
           = Some {| readyState := readyState sock;
                     sent := (sent sock ++ new)%list |}
           /\ (readyState sock <> OPEN -> new = [])
     | None => sockets w' !! ws = None
     end.
Proof.
  intros Hc. cbv zeta.
  destruct (on_message_outcome o c ws data w)
    as (Hret & w0 & sid & target & Hq & _ & Ht & Hcase).
  split; [exact Hret|]. rewrite (Ht Hc) in Hq. clear Ht.
  destruct Hq as (Hconn & Hsess & Hother & Hsock).
  destruct Hcase as [[-> _]|(message & _ & Hf & -> & _)].
  - rewrite Hsess. repeat split; auto.
  - unfold with_new_session in *. simpl in *.
    rewrite Hsess. repeat split; auto.
    + intros c' Hne. now apply lookup_insert_ne.
    + intros known Hk Htruthy. rewrite Hk in Hf. simpl in Hf.
      rewrite Htruthy in Hf. discriminate.
Qed.

Lemma frame_confined_witness :
  connections Samples.in_session !! "conn_a" = Some 0%nat
  /\ connections
       (run (on_message RelaySamples.second_turn "conn_a" 0%nat
               (Some (Samples.text_envelope "I are happy")))
          Samples.in_session)
     = connections Samples.in_session.
Proof.
  assert (Hc : connections Samples.in_session !! "conn_a" = Some 0%nat)
    by (vm_compute; reflexivity).
  split; [exact Hc|].
  destruct (frame_confined RelaySamples.second_turn "conn_a" 0%nat
              (Some (Samples.text_envelope "I are happy"))
              Samples.in_session (or_intror Hc)) as (_ & Hconn & _).
  exact Hconn.
Defined.

(** *** What every reachable state satisfies *)

Lemma consistent_same (w w' : t) :
  sessions w' = sessions w -> storage w' = storage w ->
  consistent w -> consistent w'.
Proof. unfold consistent. intros -> ->. auto. Qed.

Lemma consistent_forget (c : string) (w : t) :
  consistent w ->
  consistent (set_sessions (delete c) (set_connections (delete c) w)).
Proof.
  intros (H1 & H2 & H3). split; [|split]; simpl; auto.
  intros c' sid Hl. apply lookup_delete_Some in Hl as [_ Hl]. eauto.
Qed.

Lemma consistent_new_session (o : Oracle.t) (c : string)
    (message : WSMessage) (w : t) :
  consistent w -> consistent (with_new_session o c message w).
Proof.
  intros (H1 & H2 & H3). unfold with_new_session, consistent,
    MemStorage.getSession in *. simpl.
  split; [|split].
  - intros c' sid. rewrite lookup_insert.
    destruct (decide (c = c')) as [_|_].
    + intros [= <-]. rewrite lookup_insert_eq. eauto.
    + intros Hl. destruct (decide (Oracle.sessionUuid o = sid)) as [->|Hne].
      * rewrite lookup_insert_eq. eauto.
      * rewrite lookup_insert_ne by exact Hne. eauto.
  - intros m Hm. specialize (H2 m Hm).
    destruct (decide (Oracle.sessionUuid o = Message.sessionId m))
      as [->|Hne].
    + rewrite lookup_insert_eq. eauto.
    + now rewrite lookup_insert_ne by exact Hne.
  - intros k s. destruct (decide (Oracle.sessionUuid o = k)) as [->|Hne].
    + rewrite lookup_insert_eq. intros [= <-]. simpl. auto.
    + rewrite lookup_insert_ne by exact Hne. apply H3.
Qed.

Lemma consistent_turn (sid : string) (w w' : t) :
  sessions w' = sessions w ->
  stores_for sid w w' ->
  is_Some (MemStorage.getSession sid (storage w)) ->
  consistent w -> consistent w'.
Proof.
  intros Hs (Hback & Hkept & Hmsg & _ & _) Hsid (H1 & H2 & H3).
  split; [|split].
  - rewrite Hs. intros c known Hl. apply Hkept. eauto.
  - intros m Hm. destruct (Hmsg m Hm) as [Hold| ->]; apply Hkept; auto.
  - intros k s' Hl. destruct (Hback k s' Hl) as (s & Hl0 & Hid & _).
    destruct (H3 k s Hl0) as (Ha & Hb & Hc & Hd).
    destruct Hid as (Hid1 & Hid2 & _ & Hid4 & _ & _ & Hid7).
    repeat split; congruence.
Qed.

Lemma consistent_step (w : t) (e : Event) :
  consistent w -> consistent (step w e).
Proof.
  intros Hw. destruct e as [c ws|o c ws data|c|c|ws state]; simpl.
  - unfold run. rewrite RelayFacts.on_connection_run. simpl.
    revert Hw. apply consistent_same; reflexivity.
  - destruct (on_message_outcome o c ws data w)
      as (_ & w0 & sid & target & Hq & Hst & _ & Hcase).
    destruct Hq as (_ & Hsess & _).
    destruct Hcase as [[-> [Hs|Hs]]|(message & _ & _ & -> & ->)].
    + apply (consistent_turn sid w); auto.
      destruct Hw as (H1 & _). eauto.
    + revert Hw. apply consistent_same; assumption.
    + apply (consistent_turn (Oracle.sessionUuid o)
               (with_new_session o c message w)); auto.
      * unfold with_new_session, MemStorage.getSession. simpl.
        rewrite lookup_insert_eq. eauto.
      * now apply consistent_new_session.
  - unfold run. rewrite RelayFacts.on_close_run. simpl.
    now apply consistent_forget.
  - unfold run. rewrite RelayFacts.on_error_run. simpl.
    now apply consistent_forget.
  - revert Hw. apply consistent_same; reflexivity.
Qed.

Lemma consistent_initial : consistent initial.
Proof.
  split; [|split]; simpl.
  - intros c sid H. rewrite lookup_empty in H. discriminate.
  - intros m [].
  - intros k s H. unfold MemStorage.getSession in H. simpl in H.
    rewrite lookup_empty in H. discriminate.
Qed.

Lemma consistent_run (events : list Event) (w : t) :
  consistent w -> consistent (foldl step w events).
Proof.
  revert w. induction events as [|e rest IH]; intros w Hw; simpl; [exact Hw|].
  apply IH. now apply consistent_step.
Qed.

(** X22.  In every state the server reaches, by whatever connections,
    frames, closes, errors and socket state changes, in any order and
    with any answers of the provider and any generated identifiers: every
    session a connection is mapped to is stored, every stored message
    belongs to a stored session, and every stored session is stored under
    its own id, belongs to the user [guest], is active and has no end
    time.  The relay never ends a session. *)
Theorem reachable_consistent (events : list Event) :
  consistent (after events).
Proof. apply consistent_run, consistent_initial. Qed.

End EventFacts.

(** ** The relay next to the REST routes *)

Module ServerFacts.
Import WebSocketService RelayVocabulary Frames Server.
Import PreservationFacts.

Lemma attached_kept (w w' : t) :
  sessions w' = sessions w ->
  (forall k, is_Some (MemStorage.getSession k (storage w)) ->
             is_Some (MemStorage.getSession k (storage w'))) ->
  attached w -> attached w'.
Proof.
  intros Hs Hk Hw c sid Hc. apply Hk. rewrite Hs in Hc. eauto.
Qed.

Lemma attached_forget (c : string) (w : t) :
  attached w ->
  attached (set_sessions (delete c) (set_connections (delete c) w)).
Proof.
  intros Hw c' sid Hc. simpl in *.
  apply lookup_delete_Some in Hc as [_ Hc]. eauto.
Qed.

Lemma attached_new_session (o : Oracle.t) (c : string) (message : WSMessage)
    (w : t) :
  attached w -> attached (with_new_session o c message w).
Proof.
  intros Hw c' sid. unfold with_new_session, MemStorage.getSession. simpl.
  rewrite lookup_insert. destruct (decide (c = c')) as [_|_].
  - intros [= <-]. rewrite lookup_insert_eq. eauto.
  - intros Hc. destruct (decide (Oracle.sessionUuid o = sid)) as [->|Hne].
    + rewrite lookup_insert_eq. eauto.
    + rewrite lookup_insert_ne by exact Hne. exact (Hw c' sid Hc).
Qed.

Lemma attached_step (w : t) (e : Event) : attached w -> attached (step w e).
Proof.
  intros Hw. destruct e as [c ws|o c ws data|c|c|ws state]; simpl.
  - unfold run. rewrite RelayFacts.on_connection_run. simpl.
    revert Hw. apply attached_kept; auto.
  - destruct (EventFacts.on_message_outcome o c ws data w)
      as (_ & w0 & sid & target & Hq & Hst & _ & Hcase).
    destruct Hq as (_ & Hsess & _). destruct Hst as (_ & Hkept & _).
    apply (attached_kept w0); [exact Hsess|exact Hkept|].
    destruct Hcase as [[-> _]|(message & _ & _ & -> & _)]; [exact Hw|].
    now apply attached_new_session.
  - unfold run. rewrite RelayFacts.on_close_run. simpl.
    now apply attached_forget.
  - unfold run. rewrite RelayFacts.on_error_run. simpl.
    now apply attached_forget.
  - revert Hw. apply attached_kept; auto.
Qed.

(** No route removes a session from the store. *)
Lemma attached_serve (w : t) (call : Call) :
  attached w -> attached (serve w call).
Proof.
  intros Hw.
  destruct call as [e|uuid now [draft|]|id updates|uuid now id [draft|]];
    simpl; try (destruct w; exact Hw).
  - now apply attached_step.
  - revert Hw. apply attached_kept; [reflexivity|].
    intros k. unfold MemStorage.getSession. simpl.
    rewrite lookup_insert. case_decide; eauto.
  - revert Hw. apply attached_kept; [reflexivity|].
    intros k. unfold RestRoutes.patchSession, MemStorage.updateSession,
      MemStorage.getSession.
    destruct (MemStorage.sessions (storage w) !! id) as [s|] eqn:E; simpl;
      [|auto].
    rewrite lookup_insert. case_decide; eauto.
Qed.

Lemma attached_run (calls : list Call) (w : t) :
  attached w -> attached (foldl serve w calls).
Proof.
  revert w. induction calls as [|call rest IH]; intros w Hw; simpl;
    [exact Hw|].
  apply IH. now apply attached_serve.
Qed.

Lemma attached_reached (calls : list Call) : attached (reached calls).
Proof.
  apply attached_run. intros c sid H. simpl in H.
  rewrite lookup_empty in H. discriminate.
Qed.

(** A run of relay events is a run of the server. *)
Lemma reached_Relay (events : list Event) :
  reached (Relay <$> events) = after events.
Proof.
  unfold reached, after. generalize initial.
  induction events as [|e rest IH]; intros w; simpl; [reflexivity|].
  apply IH.
Qed.



End ServerFacts.

(** ** The relay and the conversation service it shares *)

Module SharedServiceFacts.
Import WebSocketService RelayVocabulary Frames.
Import Provider OpenAIService.

(** Whatever becomes of a turn, the one instance of the service has
    served one call, and the provider has received its requests. *)
Lemma processUserInput_service (o : Oracle.t) (w : WebSocketService.t)
    (c sid : string) (userText topicId : option string) (ws : nat) :
  connections w !! c = Some ws ->
  let w' := run (processUserInput o c sid userText topicId) w in
  openaiService w'
  = (processUserMessage o userText topicId (openaiService w)).1.1
  /\ requests w'
     = (requests w
        ++ (processUserMessage o userText topicId (openaiService w)).1.2)%list
  /\ connections w' = connections w.
Proof.
  intros Hc. cbv zeta. unfold run, processUserInput.
  unfold mbind, M_bind, mret, M_ret, gets, modify, throw, try_catch.
  cbn beta iota. rewrite Hc.
  unfold storage_createMessage, openai_processUserMessage,
    storage_getSession, storage_updateSession, gets. cbn.
  destruct (processUserMessage o userText topicId (openaiService w))
    as [[svc more] [e|response]]; cbn; [auto|].
  destruct (MemStorage.getSession sid _) as [session|]; cbn.
  - destruct userText as [said|]; cbn; [|auto].
    destruct (MemStorage.updateSession sid _ _) as [st r]. cbn.
    destruct (length (corrections response)); cbn; auto.
  - destruct (length (corrections response)); cbn; auto.
Qed.

(** X24.  The conversation service is one instance with one history for
    the whole server, and the relay never clears it.  What one connection
    has said is therefore part of the context sent to the provider for the
    next turn of any other connection, in any other session, also after
    the first connection has closed. *)
Theorem history_shared_between_connections (oA oB : Oracle.t)
    (w : WebSocketService.t) (cA cB sidA sidB : string)
    (textA textB topicA topicB : option string) (wsA wsB : nat) :
  connections w !! cA = Some wsA ->
  connections w !! cB = Some wsB ->
  cA <> cB ->
  let w1 := run (processUserInput oA cA sidA textA topicA) w in
  let w2 := run (on_close cA) w1 in
  let w3 := run (processUserInput oB cB sidB textB topicB) w2 in
  exists context,
    requests w3
    = (requests w1
       ++ [ AnalyzeRequest textB;
            ReplyRequest textB (analyzeGrammar (Oracle.grammarCall oB))
              context ])%list
    /\ In {| role := role_user; content := textA |} context.
Proof.
  intros HA HB Hne. cbv zeta.
  destruct (processUserInput_service oA w cA sidA textA topicA wsA HA)
    as (Hsvc1 & Hreq1 & Hconn1). cbv zeta in Hsvc1, Hreq1, Hconn1.
  set (w1 := run (processUserInput oA cA sidA textA topicA) w) in *.
  assert (HB2 : connections (run (on_close cA) w1) !! cB = Some wsB).
  { unfold run. rewrite RelayFacts.on_close_run. simpl.
    rewrite lookup_delete_ne by exact Hne. now rewrite Hconn1. }
  destruct (processUserInput_service oB (run (on_close cA) w1) cB sidB
              textB topicB wsB HB2) as (_ & Hreq3 & _).
  cbv zeta in Hreq3. rewrite Hreq3. clear Hreq3.
  unfold run at 1 2. rewrite RelayFacts.on_close_run. simpl.
  rewrite Hsvc1.
  destruct (ConversationFacts.said_in_context oA textA topicA
              (openaiService w))
    as (more & Hhist & Hlen).
  unfold processUserMessage at 1. cbv zeta.
  rewrite Hhist.
  eexists. split.
  - destruct (Oracle.replyCall oB) as [|[|content rest]]; reflexivity.
  - set (said := {| role := role_user; content := textA |}).
    set (history := conversationHistory (openaiService w)).
    rewrite (ConversationFacts.slice_last_snoc 9).
    apply in_or_app. left.
    destruct more as [|reply [|? ?]]; simpl in Hlen; [| |lia].
    + rewrite (ConversationFacts.slice_last_snoc 8).
      apply in_or_app. right. left. reflexivity.
    + replace (history ++ [said; reply])%list
        with ((history ++ [said]) ++ [reply])%list
        by now rewrite <- app_assoc.
      rewrite (ConversationFacts.slice_last_snoc 8),
        (ConversationFacts.slice_last_snoc 7).
      apply in_or_app. left. apply in_or_app. right. left. reflexivity.
Qed.

Lemma history_shared_between_connections_witness :
  connections RelaySamples.two_clients !! "conn_a" = Some 0%nat
  /\ exists context,
       requests
         (run (processUserInput RelaySamples.second_turn "conn_b" "session-2"
                 (Some "I are happy") None)
            (run (on_close "conn_a")
               (run (processUserInput Samples.first_turn "conn_a" "session-1"
                       (Some "my secret") None)
                  RelaySamples.two_clients)))
       = (requests
            (run (processUserInput Samples.first_turn "conn_a" "session-1"
                    (Some "my secret") None)
               RelaySamples.two_clients)
          ++ [ AnalyzeRequest (Some "I are happy");
               ReplyRequest (Some "I are happy")
                 (analyzeGrammar (Oracle.grammarCall RelaySamples.second_turn))
                 context ])%list
       /\ In {| role := role_user; content := Some "my secret" |} context.
Proof.
  assert (HA : connections RelaySamples.two_clients !! "conn_a" = Some 0%nat)
    by (vm_compute; reflexivity).
  assert (HB : connections RelaySamples.two_clients !! "conn_b" = Some 1%nat)
    by (vm_compute; reflexivity).
  split; [exact HA|].
  apply (history_shared_between_connections Samples.first_turn
           RelaySamples.second_turn RelaySamples.two_clients
           "conn_a" "conn_b" "session-1" "session-2"
           (Some "my secret") (Some "I are happy") None None 0%nat 1%nat
           HA HB).
  discriminate.
Defined.

End SharedServiceFacts.

(** ** The relay: closing, and broadcasting *)

Module ClosingFacts.
Import WebSocketService RelayVocabulary Frames Server.

(** X25.  In any state the server process reaches, by relay events and by
    requests to the routes that write the store, a close event and an
    error event on a connection that has a session do the same and only
    forget the connection: its entries in the two maps of the relay are
    removed and the store is unchanged, so the session is still stored,
    exactly as it was, and is still listed by [getActiveSessions] if its
    active flag is true.  When only the relay has written the store, the
    session is active, has no end time and is listed. *)
Theorem closed_session_stays_active (calls : list Call) (c sid : string) :
  let w := reached calls in
  sessions w !! c = Some sid ->
  let w' := serve w (Relay (Closed c)) in
  serve w (Relay (Errored c)) = w'
  /\ sessions w' = delete c (sessions w)
  /\ connections w' = delete c (connections w)
  /\ sockets w' = sockets w
  /\ storage w' = storage w
  /\ (exists s,
        MemStorage.getSession sid (storage w) = Some s
        /\ MemStorage.getSession sid (storage w') = Some s
        /\ (Session.isActive s = Some true ->
            In s (StoreQueries.getActiveSessions (storage w'))))
  /\ ((exists events, calls = Relay <$> events) ->
      exists s,
        MemStorage.getSession sid (storage w') = Some s
        /\ Session.isActive s = Some true
        /\ Session.endTime s = None
        /\ In s (StoreQueries.getActiveSessions (storage w'))).
Proof.
  cbv zeta. intros Hsid. simpl. unfold run.
  rewrite RelayFacts.on_close_run, RelayFacts.on_error_run. simpl.
  do 5 (split; [reflexivity|]).
  destruct (ServerFacts.attached_reached calls c sid Hsid) as [s Hs].
  split.
  - exists s. split; [exact Hs|]. split; [exact Hs|]. intros Hactive.
    apply ActiveSessionsFacts.In_getActiveSessions. eauto.
  - intros [events ->]. rewrite ServerFacts.reached_Relay in *.
    destruct (EventFacts.consistent_run events initial
                EventFacts.consistent_initial) as (_ & _ & Hstored).
    exists s. destruct (Hstored sid s Hs) as (_ & _ & Hactive & Hend).
    split; [exact Hs|]. split; [exact Hactive|]. split; [exact Hend|].
    apply ActiveSessionsFacts.In_getActiveSessions. eauto.
Qed.

(** [conn_a] closes after its first turn: its session stays listed. *)
Lemma closed_session_stays_active_witness :
  sessions (reached (Relay <$> RelaySamples.opening)) !! "conn_a"
  = Some "session-1"
  /\ sessions
       (serve (reached (Relay <$> RelaySamples.opening))
          (Relay (Closed "conn_a"))) !! "conn_a" = None
  /\ exists s,
       MemStorage.getSession "session-1"
         (storage
            (serve (reached (Relay <$> RelaySamples.opening))
               (Relay (Closed "conn_a")))) = Some s
       /\ Session.isActive s = Some true
       /\ Session.endTime s = None
       /\ In s (StoreQueries.getActiveSessions
                  (storage
                     (serve (reached (Relay <$> RelaySamples.opening))
                        (Relay (Closed "conn_a"))))).
Proof.
  assert (Hsid : sessions (reached (Relay <$> RelaySamples.opening))
                   !! "conn_a" = Some "session-1")
    by (vm_compute; reflexivity).
  split; [exact Hsid|].
  destruct (closed_session_stays_active (Relay <$> RelaySamples.opening)
              "conn_a" "session-1" Hsid)
    as (_ & Hs & _ & _ & _ & _ & Hrelay).
  split; [rewrite Hs; apply lookup_delete_eq|].
  apply Hrelay. exists RelaySamples.opening. reflexivity.
Defined.

End ClosingFacts.

Module BroadcastFacts.
Import WebSocketService Broadcast.

Lemma ReadyState_eqb_OPEN (state : ReadyState) :
  ReadyState_eqb state OPEN = true <-> state = OPEN.
Proof. destruct state; simpl; split; congruence. Qed.

(** What a broadcast over an enumeration does to each socket. *)
Lemma broadcast_over_effects (order : list (string * nat)) (e : Envelope)
    (w : t) :
  (broadcast_over order e w).2 = inr tt
  /\ connections (run (broadcast_over order e) w) = connections w
  /\ sessions (run (broadcast_over order e) w) = sessions w
  /\ storage (run (broadcast_over order e) w) = storage w
  /\ openaiService (run (broadcast_over order e) w) = openaiService w
  /\ requests (run (broadcast_over order e) w) = requests w
  /\ forall ws,
       sockets (run (broadcast_over order e) w) !! ws
       = (fun sock =>
            {| readyState := readyState sock;
               sent := (sent sock
                        ++ if ReadyState_eqb (readyState sock) OPEN
                           then replicate (met ws order) e
                           else [])%list |})
         <$> sockets w !! ws.
Proof.
  revert w. induction order as [|[c target] rest IH]; intros w.
  - unfold run. simpl. repeat split. intros ws.
    destruct (sockets w !! ws) as [[state frames]|]; simpl; [|reflexivity].
    destruct (ReadyState_eqb state OPEN); now rewrite app_nil_r.
  - unfold run, broadcast_over in *. simpl forEach.
    unfold mbind, M_bind.
    destruct (RelayFacts.sendMessage_effects target e w)
      as (w1 & Hrun & Hc & Hs & Hst & Hsvc & Hreq & _).
    rewrite Hrun.
    destruct (IH w1) as (Hret & Hc' & Hs' & Hst' & Hsvc' & Hreq' & Hsock).
    split; [exact Hret|].
    split; [congruence|]. split; [congruence|]. split; [congruence|].
    split; [congruence|]. split; [congruence|].
    intros ws. rewrite Hsock. clear IH Hsock.
    assert (Hw1 : w1 = (sendMessage target e w).1) by now rewrite Hrun.
    rewrite Hw1. unfold sendMessage, modify, set_sockets, met. simpl.
    destruct (Nat.eq_dec target ws) as [->|Hne].
    + destruct (sockets w !! ws) as [[state frames]|] eqn:Hl; simpl.
      * destruct (ReadyState_eqb state OPEN) eqn:Ho; simpl.
        -- rewrite lookup_insert_eq. simpl. rewrite Ho, <- app_assoc.
           reflexivity.
        -- rewrite Hl. simpl. now rewrite Ho.
      * now rewrite Hl.
    + destruct (sockets w !! target) as [[state frames]|] eqn:Hl; simpl;
        [|reflexivity].
      destruct (ReadyState_eqb state OPEN); [|reflexivity].
      now rewrite lookup_insert_ne by exact Hne.
Qed.

Lemma met_registered (order : list (string * nat)) (w : t) (ws : nat) :
  order ≡ₚ map_to_list (connections w) ->
  NoDup order.*2 ->
  ((exists c, connections w !! c = Some ws) -> met ws order = 1%nat)
  /\ ((forall c, connections w !! c <> Some ws) -> met ws order = 0%nat).
Proof.
  intros Hperm Hnd. unfold met.
  assert (Hin : In ws order.*2 <-> exists c, connections w !! c = Some ws).
  { rewrite <- list_elem_of_In, list_elem_of_fmap. split.
    - intros [[c t] [-> Hel]]. rewrite Hperm in Hel.
      apply elem_of_map_to_list in Hel. eauto.
    - intros [c Hc]. exists (c, ws). split; [reflexivity|].
      rewrite Hperm. now apply elem_of_map_to_list. }
  apply NoDup_ListNoDup in Hnd.
  pose proof (proj1 (List.NoDup_count_occ Nat.eq_dec order.*2) Hnd ws) as Hle.
  split.
  - intros Hy. apply Hin, (count_occ_In Nat.eq_dec) in Hy. lia.
  - intros Hn. apply (count_occ_not_In Nat.eq_dec). rewrite Hin.
    intros [c Hc]. exact (Hn c Hc).
Qed.

Lemma met_Permutation (order order' : list (string * nat)) (ws : nat) :
  order ≡ₚ order' -> met ws order = met ws order'.
Proof.
  intros Hperm. unfold met.
  apply (Permutation_count_occ Nat.eq_dec). now rewrite Hperm.
Qed.

Lemma broadcast_over_Permutation (order order' : list (string * nat))
    (e : Envelope) (w : t) :
  order ≡ₚ order' ->
  run (broadcast_over order e) w = run (broadcast_over order' e) w.
Proof.
  intros Hperm.
  destruct (broadcast_over_effects order e w)
    as (_ & Hc & Hs & Hst & Hsvc & Hreq & Hsock).
  destruct (broadcast_over_effects order' e w)
    as (_ & Hc' & Hs' & Hst' & Hsvc' & Hreq' & Hsock').
  assert (Hsockets : sockets (run (broadcast_over order e) w)
                     = sockets (run (broadcast_over order' e) w)).
  { apply map_eq. intros ws.
    now rewrite Hsock, Hsock', (met_Permutation order order' ws Hperm). }
  destruct (run (broadcast_over order e) w),
    (run (broadcast_over order' e) w).
  simpl in *. congruence.
Qed.

(** X26.  [broadcast] sends the frame once to every open socket of a
    registered connection and to no other socket, provided no two
    connections share a socket; sockets that are not open are skipped, and
    nothing but the sockets changes.  The outcome does not depend on the
    order in which the connections are enumerated. *)
Theorem broadcast_delivers_once (order : list (string * nat))
    (e : Envelope) (w : t) :
  order ≡ₚ map_to_list (connections w) ->
  NoDup order.*2 ->
  let w' := run (broadcast e) w in
  w' = run (broadcast_over order e) w
  /\ (broadcast e w).2 = inr tt
  /\ connections w' = connections w
  /\ sessions w' = sessions w
  /\ storage w' = storage w
  /\ requests w' = requests w
  /\ (forall c ws sock,
        connections w !! c = Some ws -> sockets w !! ws = Some sock ->
        readyState sock = OPEN ->
        sockets w' !! ws
        = Some {| readyState := OPEN;
                  sent := (sent sock ++ [e])%list |})
  /\ (forall ws sock,
        sockets w !! ws = Some sock -> readyState sock <> OPEN ->
        sockets w' !! ws = Some sock)
  /\ (forall ws,
        (forall c, connections w !! c <> Some ws) ->
        sockets w' !! ws = sockets w !! ws).
Proof.
  intros Hperm Hnd. cbv zeta.
  assert (Hsame : run (broadcast e) w = run (broadcast_over order e) w).
  { symmetry. apply (broadcast_over_Permutation order _ e w Hperm). }
  split; [exact Hsame|]. rewrite Hsame.
  destruct (broadcast_over_effects (map_to_list (connections w)) e w)
    as (Hret0 & _).
  split; [exact Hret0|].
  destruct (broadcast_over_effects order e w)
    as (Hret & Hc & Hs & Hst & _ & Hreq & Hsock).
  do 4 (split; [assumption|]).
  split; [|split].
  - intros c ws sock Hreg Hl Ho. rewrite Hsock, Hl. simpl.
    rewrite (proj1 (met_registered order w ws Hperm Hnd)) by eauto.
    rewrite Ho. reflexivity.
  - intros ws [state frames] Hl Ho. rewrite Hsock, Hl. simpl in *.
    destruct (ReadyState_eqb state OPEN) eqn:E.
    + apply ReadyState_eqb_OPEN in E. contradiction.
    + now rewrite app_nil_r.
  - intros ws Hnone. rewrite Hsock.
    rewrite (proj2 (met_registered order w ws Hperm Hnd)) by exact Hnone.
    destruct (sockets w !! ws) as [[state frames]|]; simpl; [|reflexivity].
    destruct (ReadyState_eqb state OPEN); now rewrite app_nil_r.
Qed.

Lemma broadcast_delivers_once_witness :
  NoDup RelaySamples.everyone.*2
  /\ sockets (run (broadcast welcome) RelaySamples.two_clients) !! 0%nat
     = Some {| readyState := OPEN; sent := [welcome; welcome] |}.
Proof.
  assert (Hnd : NoDup RelaySamples.everyone.*2).
  { simpl. apply NoDup_cons. split; [|apply NoDup_singleton].
    intros H. apply list_elem_of_singleton in H. discriminate H. }
  assert (Hperm : RelaySamples.everyone
                  ≡ₚ map_to_list (connections RelaySamples.two_clients)).
  { assert (Hlist : map_to_list (connections RelaySamples.two_clients)
                    = [ ("conn_a", 0%nat); ("conn_b", 1%nat) ]).
    { vm_compute. reflexivity. }
    rewrite Hlist. apply perm_swap. }
  split; [exact Hnd|].
  destruct (broadcast_delivers_once RelaySamples.everyone welcome
              RelaySamples.two_clients Hperm Hnd)
    as (_ & _ & _ & _ & _ & _ & Hopen & _).
  apply (Hopen "conn_a" 0%nat {| readyState := OPEN; sent := [welcome] |});
    vm_compute; reflexivity.
Defined.

End BroadcastFacts.
